(** * LegalMind front end: upload/poll orchestration and chat transcript

    A shallow embedding of the parts of the LegalMind web client that carry
    behaviour: the risk tiers ([Chat.tsx], [stats.ts]), the transcript
    bootstrap and persistence effects and the line renderer ([Chat.tsx]),
    the upload page's validation, enqueueing and job polling, and the
    document-existence probe ([legalBackend.ts]).

    Conventions.
    - A JavaScript string is a [string]: a sequence of 8-bit code units
      (the Latin-1 range of UTF-16). Operations are written out for that
      range; they agree with the engine on every ASCII input.
    - A JavaScript [number] holding a count, a byte size, a risk score or a
      millisecond clock is a [Z].
    - A value that crosses the network untyped is a [JVal].
    - [async] functions that can reject return a [Result]; an effect that
      mutates React state is a function on an explicit state record. *)

From Stdlib Require Import ZArith Strings.String Strings.Ascii Numbers.DecimalString Lia.
From stdpp Require Import gmap strings list.

Open Scope string_scope.
Open Scope Z_scope.

(** ** JavaScript strings *)

Module JsStr.

Definition chr (n : nat) : string := String (ascii_of_nat n) EmptyString.

(** The double-quote and back-tick characters and the line feed. *)
Definition dquote : string := chr 34.
Definition LF : ascii := ascii_of_nat 10.
Definition CR : ascii := ascii_of_nat 13.
Definition backtick : ascii := ascii_of_nat 96.
Definition dot : ascii := ascii_of_nat 46.
Definition dash : ascii := ascii_of_nat 45.

(** [String(n)] for an integral number. *)
Definition ofZ (z : Z) : string := NilZero.string_of_int (Z.to_int z).

Definition between (lo hi n : nat) : bool := (lo <=? n)%nat && (n <=? hi)%nat.

(** [toLowerCase] on one code unit: A-Z and the Latin-1 capitals
    (all of 192..222 but the multiplication sign 215). *)
Definition lowerChar (c : ascii) : ascii :=
  let n := nat_of_ascii c in
  if between 65 90 n || (between 192 222 n && negb (n =? 215)%nat)
  then ascii_of_nat (n + 32) else c.

(** [toUpperCase] on one code unit, ASCII letters only: the page applies it
    to the three tier labels alone. *)
Definition upperChar (c : ascii) : ascii :=
  let n := nat_of_ascii c in
  if between 97 122 n then ascii_of_nat (n - 32) else c.

Fixpoint mapChars (f : ascii -> ascii) (s : string) : string :=
  match s with
  | EmptyString => EmptyString
  | String c r => String (f c) (mapChars f r)
  end.

Definition toLowerCase : string -> string := mapChars lowerChar.
Definition toUpperCase : string -> string := mapChars upperChar.

(** White space of [trim] and of the regular expression class [\s]:
    TAB, LF, VT, FF, CR, SPACE and the no-break space. *)
Definition isSpace (c : ascii) : bool :=
  let n := nat_of_ascii c in
  between 9 13 n || (n =? 32)%nat || (n =? 160)%nat.

Definition isDigit (c : ascii) : bool := between 48 57 (nat_of_ascii c).

Fixpoint trimStart (s : string) : string :=
  match s with
  | String c r => if isSpace c then trimStart r else s
  | EmptyString => EmptyString
  end.

Fixpoint trimEnd (s : string) : string :=
  match s with
  | EmptyString => EmptyString
  | String c r =>
      match trimEnd r with
      | EmptyString => if isSpace c then EmptyString else String c EmptyString
      | r' => String c r'
      end
  end.

Definition trim (s : string) : string := trimEnd (trimStart s).

Definition startsWith (p s : string) : bool := String.prefix p s.

(** [hay.includes(needle)] *)
Fixpoint includes (needle hay : string) : bool :=
  String.prefix needle hay ||
  match hay with
  | EmptyString => false
  | String _ r => includes needle r
  end.

(** [s.slice(0, n)] *)
Definition slice0 (n : nat) (s : string) : string := String.substring 0 n s.

(** [s.slice(n)] *)
Fixpoint sliceFrom (n : nat) (s : string) : string :=
  match n, s with
  | O, _ => s
  | S n', String _ r => sliceFrom n' r
  | S _, EmptyString => EmptyString
  end.

(** [s.split(sep)] for a one-character separator: never empty. *)
Fixpoint split (sep : ascii) (s : string) : list string :=
  match s with
  | EmptyString => [EmptyString]
  | String c r =>
      if Ascii.eqb c sep then EmptyString :: split sep r
      else match split sep r with
           | seg :: segs => String c seg :: segs
           | [] => [String c EmptyString]
           end
  end.

(** [parts.join(sep)] *)
Fixpoint join (sep : string) (parts : list string) : string :=
  match parts with
  | [] => EmptyString
  | [p] => p
  | p :: ps => p ++ sep ++ join sep ps
  end.

(** [arr.pop()] read-only: the last element. *)
Definition lastSegment (parts : list string) : option string := last parts.

Definition isEmpty (s : string) : bool :=
  match s with EmptyString => true | _ => false end.

(** Whether the character occurs in the string. *)
Fixpoint hasChar (c : ascii) (s : string) : bool :=
  match s with
  | EmptyString => false
  | String c' r => Ascii.eqb c' c || hasChar c r
  end.

(** [a || b] on strings: the empty string is falsy. *)
Definition orElse (a : option string) (b : string) : string :=
  match a with
  | Some s => if isEmpty s then b else s
  | None => b
  end.

End JsStr.

(** ** Untyped values, exceptions *)

#[local] Set Warnings "-register-all".

Inductive JVal : Type :=
| JUndefined
| JNull
| JBool (b : bool)
| JNum (n : Z)
| JStr (s : string)
| JArr (items : list JVal)
| JObj (fields : list (string * JVal)).

Record JsError := mkError { message : string }.

Inductive Result (A : Type) : Type :=
| Ok (a : A)
| Throw (e : JsError).
Arguments Ok {A} a.
Arguments Throw {A} e.

(** Sequencing of awaited results, with stdpp's [x ← c; k] notation. *)
#[export] Instance Result_ret : MRet Result := fun A a => Ok a.
#[export] Instance Result_bind : MBind Result := fun A B k r =>
  match r with
  | Ok a => k a
  | Throw e => Throw e
  end.

(** [try { body } catch (e) { handler(e) }] *)
Definition tryCatch {A} (body : Result A) (handler : JsError -> Result A) : Result A :=
  match body with
  | Ok a => Ok a
  | Throw e => handler e
  end.

Module Js.

Fixpoint assoc (k : string) (fields : list (string * JVal)) : JVal :=
  match fields with
  | [] => JUndefined
  | (k', v) :: rest => if String.eqb k k' then v else assoc k rest
  end.

(** [v.k]: reading a property of [null] or [undefined] throws. *)
Definition getProp (v : JVal) (k : string) : Result JVal :=
  match v with
  | JUndefined | JNull => Throw (mkError "Cannot read properties of null")
  | JObj fields => Ok (assoc k fields)
  | _ => Ok JUndefined
  end.

(** [v?.k] *)
Definition getPropOpt (v : JVal) (k : string) : JVal :=
  match v with
  | JObj fields => assoc k fields
  | _ => JUndefined
  end.

(** [a ?? b] *)
Definition nullish (a b : JVal) : JVal :=
  match a with
  | JUndefined | JNull => b
  | _ => a
  end.

End Js.

(** ** The analysis service client ([legalBackend.ts]) *)

Module Backend.

Record Request := mkRequest {
  url : string;
  method : string;
  headers : list (string * string);
}.

(** A [Response]: [json] is what [response.json()] settles to. *)
Record Response := mkResponse {
  ok : bool;
  status : Z;
  json : Result JVal;
}.

Inductive FetchOutcome :=
| Rejected (e : JsError)
| Responded (r : Response).

Section Client.

Variable API_BASE_URL : string.
(** [supabase.auth.getSession()]: the access token when a session exists. *)
Variable getSession : Result (option string).
Variable fetch : Request -> FetchOutcome.

Definition getAuthHeaders : list (string * string) :=
  match getSession with
  | Ok (Some token) =>
      if JsStr.isEmpty token then []
      else [("Authorization", "Bearer " ++ token)]
  | _ => []
  end.

Definition doFetch (rq : Request) : Result Response :=
  match fetch rq with
  | Rejected e => Throw e
  | Responded r => Ok r
  end.

Definition handleResponse (response : Response) : Result JVal :=
  if negb (ok response) then
    let message0 := "Request failed with status " ++ JsStr.ofZ (status response) in
    let message1 :=
      match json response with
      | Ok data =>
          match Js.getPropOpt data "error" with
          | JStr s => s
          | _ => match Js.getPropOpt data "message" with
                 | JStr s => s
                 | _ => message0
                 end
          end
      | Throw _ => message0
      end in
    Throw (mkError message1)
  else json response.

Definition existsRequest (documentId : string) : Request :=
  mkRequest (API_BASE_URL ++ "/api/v1/document-exists/" ++ documentId)
            "GET" getAuthHeaders.

Definition checkDocumentExists (documentId : string) : Result JVal :=
  tryCatch
    (response ← doFetch (existsRequest documentId);
     data ← handleResponse response;
     found ← Js.getProp data "exists";
     Ok (Js.nullish found (JBool false)))
    (fun _ => Ok (JBool false)).

End Client.

End Backend.

(** ** Risk tiers ([Chat.tsx] summary label, [stats.ts] dashboard counts) *)

Module Risk.

(** The [riskLevel] expression of [load] in [Chat.tsx]. *)
Definition riskLevel (risk_score : Z) : string :=
  if risk_score >? 70 then "high"
  else if risk_score >=? 40 then "medium"
  else "low".

(** What [getDashboardStats] reads of a [DocumentSummary]. *)
Record DocumentSummary := mkDoc {
  document_id : string;
  doc_status : string;
  risk_score : option Z;
}.

Record DashboardStats := mkStats {
  totalDocuments : Z;
  highRiskCount : Z;
  safeCount : Z;
  analyzingCount : Z;
  averageRiskPercentage : Z;
  averageSafePercentage : Z;
}.

(** [d.risk_score ?? 0] *)
Definition scoreOf (d : DocumentSummary) : Z := default 0 (risk_score d).

Definition isCompleted (d : DocumentSummary) : bool :=
  String.eqb (doc_status d) "completed".

Definition isHighRisk (d : DocumentSummary) : bool := scoreOf d >? 70.
Definition isSafe (d : DocumentSummary) : bool := scoreOf d <? 40.

Definition count {A} (l : list A) : Z := Z.of_nat (length l).

(** [Math.round(total / n)] for integral [total] and positive [n]:
    the nearest integer, halves upwards. The code computes in double
    precision; the two agree where the sums are exact, as they are for
    scores between 0 and 100. *)
Definition roundDiv (total n : Z) : Z := (2 * total + n) / (2 * n).

Definition getDashboardStats (docs : list DocumentSummary) : DashboardStats :=
  let completedDocs := List.filter isCompleted docs in
  let totalRiskScore :=
    fold_left (fun acc d => acc + scoreOf d) completedDocs 0 in
  let totalSafeScore :=
    fold_left (fun acc d => acc + (100 - scoreOf d)) completedDocs 0 in
  let averageRisk :=
    if count completedDocs >? 0
    then roundDiv totalRiskScore (count completedDocs) else 0 in
  let averageSafe :=
    if count completedDocs >? 0
    then roundDiv totalSafeScore (count completedDocs) else 0 in
  {| totalDocuments := count docs;
     highRiskCount := count (List.filter isHighRisk completedDocs);
     safeCount := count (List.filter isSafe completedDocs);
     analyzingCount := count (List.filter (fun d => negb (isCompleted d)) docs);
     averageRiskPercentage := averageRisk;
     averageSafePercentage := averageSafe |}.

End Risk.

(** ** The chat page ([Chat.tsx]) *)

Module Chat.

Inductive Role := user | assistant.

Definition roleStr (r : Role) : string :=
  match r with user => "user" | assistant => "assistant" end.

Record Message := mkMessage {
  id : string;
  role : Role;
  content : string;
  timestamp : string;
  isReport : option bool;
}.

Record ChatHistoryItem := mkItem {
  item_role : Role;
  item_content : string;
}.

(** The summary marker phrase. *)
Definition marker : string := "I've analyzed your contract".

(** *** Transcript deduplication *)

Definition dedupKey (msg : Message) : string :=
  roleStr (role msg) ++ "::" ++ JsStr.slice0 100 (content msg).

(** The [filter] callback closes over the map [seen]; the map is threaded
    through the traversal. *)
Fixpoint dedupFilter (seen : gmap string bool) (messages : list Message)
  : list Message :=
  match messages with
  | [] => []
  | msg :: rest =>
      let key := dedupKey msg in
      match seen !! key with
      | Some _ => dedupFilter seen rest
      | None => msg :: dedupFilter (<[key := true]> seen) rest
      end
  end.

Definition deduplicateMessages (messages : list Message) : list Message :=
  dedupFilter ∅ messages.

(** What the key stands for: the role and the first 100 characters of the
    content, and agreement of two messages on both. *)
Definition keyPair (m : Message) : Role * string :=
  (role m, JsStr.slice0 100 (content m)).

Definition role_eqb (a b : Role) : bool :=
  match a, b with
  | user, user | assistant, assistant => true
  | _, _ => false
  end.

Definition sameKey (a b : Message) : bool :=
  role_eqb (role a) (role b)
  && String.eqb (JsStr.slice0 100 (content a)) (JsStr.slice0 100 (content b)).

(** *** Initial load *)

Record DocumentDetails := mkDetails {
  file_name : string;
  risk_score : Z;
  risky_chunks : Z;
  total_chunks : Z;
}.

Record Toast := mkToast {
  title : string;
  description : string;
  destructive : bool;
}.

Record ChatState := mkChat {
  messages : list Message;
  loadingInitial : bool;
  documentName : string;
  riskScore : option Z;
  riskyClauses : option Z;
  totalChunks : option Z;
  suggestedQuestions : list string;
  toasts : list Toast;
}.

(** The state of a freshly mounted page. *)
Definition initialState : ChatState :=
  mkChat [] true EmptyString None None None [] [].

Definition setMessages (ms : list Message) (st : ChatState) : ChatState :=
  mkChat ms (loadingInitial st) (documentName st) (riskScore st)
         (riskyClauses st) (totalChunks st) (suggestedQuestions st) (toasts st).

Definition setLoadingInitial (b : bool) (st : ChatState) : ChatState :=
  mkChat (messages st) b (documentName st) (riskScore st)
         (riskyClauses st) (totalChunks st) (suggestedQuestions st) (toasts st).

Definition setDetails (d : DocumentDetails) (suggestions : list string)
           (st : ChatState) : ChatState :=
  mkChat (messages st) (loadingInitial st) (file_name d) (Some (risk_score d))
         (Some (risky_chunks d)) (Some (total_chunks d)) suggestions (toasts st).

Definition toast (t : Toast) (st : ChatState) : ChatState :=
  mkChat (messages st) (loadingInitial st) (documentName st) (riskScore st)
         (riskyClauses st) (totalChunks st) (suggestedQuestions st)
         (toasts st ++ [t]).

(** The [summary] template literal, in two pieces: up to the tier label,
    and from the label on. *)
Definition summaryLead (details : DocumentDetails) : string :=
  "I've analyzed your contract " ++ JsStr.dquote ++ file_name details
    ++ JsStr.dquote ++ " and found " ++ JsStr.ofZ (risky_chunks details)
    ++ " risky clauses out of " ++ JsStr.ofZ (total_chunks details)
    ++ " sections. Overall risk score: " ++ JsStr.ofZ (risk_score details)
    ++ "%. This looks like a ".

Definition summaryText (details : DocumentDetails) : string :=
  summaryLead details
    ++ "**" ++ JsStr.toUpperCase (Risk.riskLevel (risk_score details))
    ++ "**" ++ " risk agreement. Ask me anything about specific clauses, negotiation levers, or implications.".

Definition hasMarker (c : string) : bool := JsStr.includes marker c.

(** [!m.isReport && !m.content.includes(marker)] *)
Definition persistable (m : Message) : bool :=
  negb (default false (isReport m)) && negb (hasMarker (content m)).

(** An optional identifier as a condition: absent and empty are falsy. *)
Definition truthyId (u : option string) : option string :=
  match u with
  | Some s => if JsStr.isEmpty s then None else Some s
  | None => None
  end.

Section Load.

Variable documentId : string.
(** The three bootstrap fetches, as they settle. *)
Variable getDocumentDetails : Result DocumentDetails.
Variable getReport : Result string.
Variable getChatbotSuggestions : Result (list string).
(** [user?.id] *)
Variable userId : option string.
Variable getChatHistory : string -> string -> Result (list ChatHistoryItem).
(** The local fallback cache, and [JSON.parse] followed by the array
    methods of the fallback branch, which throw alike on a bad payload. *)
Variable localStorage_getItem : string -> option string.
Variable parseMessages : string -> Result (list Message).
(** [new Date().toISOString()], by reading. *)
Variable now : nat -> string.

Definition reportMessage (report : string) : Message :=
  mkMessage ("report-" ++ documentId) assistant report (now 0) (Some true).

Definition summaryMessage (details : DocumentDetails) : Message :=
  mkMessage ("summary-" ++ documentId) assistant (summaryText details)
            (now 1) None.

Definition baseMessages (details : DocumentDetails) (report : string)
  : list Message :=
  [reportMessage report; summaryMessage details].

Definition natStr (n : nat) : string := JsStr.ofZ (Z.of_nat n).

Definition convertHistory (supabaseHistory : list ChatHistoryItem)
  : list Message :=
  imap (fun idx msg =>
          mkMessage ("chat-" ++ natStr idx ++ "-" ++ documentId)
                    (item_role msg) (item_content msg) (now (2 + idx)) None)
       (List.filter (fun msg => negb (hasMarker (item_content msg)))
                    supabaseHistory).

Definition convertLocal (parsed : list Message) : list Message :=
  imap (fun idx m =>
          mkMessage ("local-" ++ natStr idx ++ "-" ++ documentId)
                    (role m) (content m) (timestamp m) (isReport m))
       (List.filter persistable parsed).

(** The [catch] branch of the history lookup. *)
Definition loadFallback (base : list Message) (st : ChatState) : ChatState :=
  match localStorage_getItem ("chat_" ++ documentId) with
  | Some stored =>
      if JsStr.isEmpty stored then setMessages base st
      else match parseMessages stored with
           | Ok parsed => setMessages (base ++ convertLocal parsed) st
           | Throw _ => setMessages base st
           end
  | None => setMessages base st
  end.

(** The history lookup of [load], from the state in which the details
    have been stored. *)
Definition loadHistory (base : list Message) (st : ChatState) : ChatState :=
  match truthyId userId with
  | Some uid =>
      match getChatHistory uid documentId with
      | Ok supabaseHistory =>
          if (0 <? length supabaseHistory)%nat
          then setLoadingInitial false
                 (setMessages (base ++ convertHistory supabaseHistory) st)
          else st
      | Throw _ => loadFallback base st
      end
  | None => st
  end.

(** [Promise.all]: the three results, or a rejection (the first in
    argument order stands for whichever settles first). *)
Definition bootstrap : Result (DocumentDetails * string * list string) :=
  details ← getDocumentDetails;
  reportRes ← getReport;
  suggestions ← getChatbotSuggestions;
  Ok (details, reportRes, suggestions).

Definition load (st0 : ChatState) : ChatState :=
  let st1 := setLoadingInitial true st0 in
  let st2 :=
    match bootstrap with
    | Ok (details, reportRes, suggestions) =>
        loadHistory (baseMessages details reportRes)
                    (setDetails details suggestions st1)
    | Throw error =>
        toast (mkToast "Error"
                 (JsStr.orElse (Some (message error))
                    "Failed to load document details and initial analysis.")
                 true) st1
    end in
  setLoadingInitial false st2.

End Load.

(** *** Debounced persistence *)

Definition toItem (m : Message) : ChatHistoryItem :=
  mkItem (role m) (content m).

(** [JSON.stringify] of a history item and of a message: own properties in
    creation order, [undefined] ones left out. *)
Definition itemJson (h : ChatHistoryItem) : JVal :=
  JObj [("role", JStr (roleStr (item_role h)));
        ("content", JStr (item_content h))].

Definition messageJson (m : Message) : JVal :=
  JObj ([("id", JStr (id m));
         ("role", JStr (roleStr (role m)));
         ("content", JStr (content m));
         ("timestamp", JStr (timestamp m))]
        ++ match isReport m with
           | Some b => [("isReport", JBool b)]
           | None => []
           end).

Inductive StoreWrite :=
| PrimaryWrite (user_id document_id : string) (payload : list JVal)
| LocalWrite (key : string) (payload : list JVal).

Definition payloadOf (w : StoreWrite) : list JVal :=
  match w with
  | PrimaryWrite _ _ p => p
  | LocalWrite _ p => p
  end.

Inductive SaveLog :=
| Wrote (w : StoreWrite)
| CleanedUp.

Inductive SavePhase :=
| Skipped      (* the effect returned before arming a timer *)
| Armed (delay : Z)
| Cleared      (* [clearTimeout] ran before the timer fired *)
| Awaiting     (* [saveChatHistory] is in flight *)
| Finished.

Record SaveRun := mkSave {
  phase : SavePhase;
  log : list SaveLog;
}.

Inductive SaveEvent :=
| TimerFires
| PrimarySettles (succeeded : bool)
| Cleanup.

Section Save.

Variable documentId : option string.
Variable userId : option string.
Variable messages : list Message.

Definition history : list ChatHistoryItem :=
  map toItem (List.filter persistable messages).

Definition fallbackHistory : list Message :=
  List.filter persistable messages.

(** The body of the effect: the guard, then [setTimeout(saveHistory, 2000)]. *)
Definition saveEffect : SaveRun :=
  match truthyId documentId, truthyId userId with
  | Some _, Some _ =>
      if (length messages <=? 2)%nat then mkSave Skipped []
      else mkSave (Armed 2000) []
  | _, _ => mkSave Skipped []
  end.

Definition saveStep (run : SaveRun) (ev : SaveEvent) : SaveRun :=
  match ev, phase run, documentId, userId with
  | TimerFires, Armed _, Some doc, Some uid =>
      if (0 <? length history)%nat
      then mkSave Awaiting
             (log run ++ [Wrote (PrimaryWrite uid doc (map itemJson history))])
      else mkSave Finished (log run)
  | PrimarySettles true, Awaiting, _, _ => mkSave Finished (log run)
  | PrimarySettles false, Awaiting, Some doc, _ =>
      mkSave Finished
        (log run ++ [Wrote (LocalWrite ("chat_" ++ doc)
                              (map messageJson fallbackHistory))])
  | Cleanup, Armed _, _, _ => mkSave Cleared (log run ++ [CleanedUp])
  | Cleanup, _, _, _ => mkSave (phase run) (log run ++ [CleanedUp])
  | _, _, _, _ => run
  end.

Definition saveRun (evs : list SaveEvent) : SaveRun :=
  fold_left saveStep evs saveEffect.

End Save.

(** *** Vocabulary of the persistence properties *)

(** What a persisted entry must be: the image of a transcript message
    that is neither a report nor carries the summary marker. *)
Definition cleanEntry (messages : list Message) (v : JVal) : Prop :=
  exists m, m ∈ messages /\ persistable m = true /\
            (v = itemJson (toItem m) \/ v = messageJson m).

Definition cleanLog (messages : list Message) (l : list SaveLog) : Prop :=
  forall w v, Wrote w ∈ l -> v ∈ payloadOf w -> cleanEntry messages v.

(** The phases in which no timer is pending and no write is awaited. *)
Definition idle (ph : SavePhase) : bool :=
  match ph with Skipped | Cleared | Finished => true | _ => false end.

(** The store writes of a log, in order. *)
Definition writes (l : list SaveLog) : list StoreWrite :=
  omap (fun e => match e with Wrote w => Some w | CleanedUp => None end) l.

(** A transcript of three messages: the two synthetic ones and a user turn. *)
Definition sampleDetails : DocumentDetails := mkDetails "nda.pdf" 55 3 10.

Definition sampleTranscript : list Message :=
  [ mkMessage "report-doc-1" assistant "REPORT" "2024-01-01T00:00:00.000Z" (Some true);
    mkMessage "summary-doc-1" assistant (summaryText sampleDetails)
              "2024-01-01T00:00:00.000Z" None;
    mkMessage "1704067200000" user "Is the termination clause fair?"
              "2024-01-01T00:00:05.000Z" None ].

(** *** Vocabulary of the deduplication properties *)

(** A question of exactly 100 characters. *)
Definition longQuestion : string :=
  "Does the limitation of liability in clause 12 also cover indemnities for third-party claims, or not?".

(** The two example messages of the specification; both contents are
    shorter than 100 characters. *)
Definition greeting : Message :=
  mkMessage "1" user "Hi there, how are you" "t1" None.

Definition greetingWithTail : Message :=
  mkMessage "2" user "Hi there, how are you totally different tail" "t2" None.

End Chat.

(** ** The upload page: validation, enqueueing, job polling *)

Module Upload.

Record File := mkFile {
  name : string;
  size : Z;
}.

Inductive TaskStatus := pending | uploading | processing | complete | error.

Inductive JobState := job_pending | job_processing | job_completed | job_failed.

Record JobResult := mkResult {
  document_id : string;
  result_file_name : string;
  result_risk_score : Z;
}.

Record JobStatusResponse := mkJob {
  job_id : string;
  status : JobState;
  progress : option Z;
  stage : string;
  result : option JobResult;
  job_error : option string;
}.

Record UploadFile := mkUpload {
  id : string;
  file : File;
  task_progress : Z;
  task_status : TaskStatus;
  task_error : option string;
  jobId : option string;
  jobStatus : option JobStatusResponse;
}.

Definition SUPPORTED_FORMATS : list string := [".pdf"].
Definition MAX_FILE_SIZE : Z := 20 * 1024 * 1024.

(** [arr.includes(s)] *)
Definition includesStr (arr : list string) (s : string) : bool :=
  existsb (String.eqb s) arr.

(** ["." + file.name.split(".").pop()?.toLowerCase()] *)
Definition extensionOf (fileName : string) : string :=
  "." ++ match JsStr.lastSegment (JsStr.split JsStr.dot fileName) with
         | Some seg => JsStr.toLowerCase seg
         | None => "undefined"
         end.

Definition validateFile (f : File) : option string :=
  let ext := extensionOf (name f) in
  if negb (includesStr SUPPORTED_FORMATS ext) then
    Some ("Unsupported format. Please use " ++ JsStr.join ", " SUPPORTED_FORMATS)
  else if size f >? MAX_FILE_SIZE then
    Some "File too large. Maximum size is 20MB"
  else None.

(** One task of [addFiles]; [t] is the reading of [Date.now()]. *)
Definition newTask (t : Z) (f : File) : UploadFile :=
  let err := validateFile f in
  mkUpload (JsStr.ofZ t ++ "-" ++ name f) f 0
           (match err with
            | Some s => if JsStr.isEmpty s then pending else error
            | None => pending
            end)
           err None None.

(** [addFiles]: the clock is read once for each file, [now i] while the
    file at index [i] is mapped. *)
Definition addFiles (now : nat -> Z) (newFiles : list File)
           (prev : list UploadFile) : list UploadFile :=
  prev ++ imap (fun i f => newTask (now i) f) newFiles.

(** *** The poll loop of one effect instance *)

Record Toast := mkToast {
  title : string;
  description : string;
  destructive : bool;
}.

Record Page := mkPage {
  files : list UploadFile;
  activeJobId : option string;
  toasts : list Toast;
  navigations : list string;
}.

(** One run of the polling effect for [activeJobId]: the page it mutates,
    its [isCancelled] flag, the delay of its pending [setTimeout] if any,
    whether a [getJobStatus] call is awaited, and the status requests
    issued so far. *)
Record PollRun := mkRun {
  page : Page;
  isCancelled : bool;
  timer : option Z;
  awaiting : bool;
  requests : list string;
}.

Inductive PollEvent :=
| TimerFires
| Settles (response : Result JobStatusResponse)
| Teardown.

Definition taskStatusOf (s : JobState) : TaskStatus :=
  match s with
  | job_completed => complete
  | job_failed => error
  | _ => processing
  end.

Definition jobIdIs (j : string) (f : UploadFile) : bool :=
  match jobId f with
  | Some j' => String.eqb j' j
  | None => false
  end.

(** The [setFiles] updater of a successful tick. *)
Definition mirrorStatus (j : string) (s : JobStatusResponse)
           (prev : list UploadFile) : list UploadFile :=
  map (fun f =>
         if jobIdIs j f
         then mkUpload (id f) (file f)
                       (default (task_progress f) (progress s))
                       (taskStatusOf (status s))
                       (task_error f) (jobId f) (Some s)
         else f) prev.

(** [status.result?.document_id] as a condition. *)
Definition resultDocument (s : JobStatusResponse) : option string :=
  match result s with
  | Some r => if JsStr.isEmpty (document_id r) then None else Some (document_id r)
  | None => None
  end.

Section Poll.

(** The job the effect instance closed over. *)
Variable activeJob : string.

(** [poll()] up to its [await]: the request goes out. *)
Definition pollCall (run : PollRun) : PollRun :=
  mkRun (page run) (isCancelled run) None true (requests run ++ [activeJob]).

(** The effect body: [poll()] is called at once. *)
Definition startPolling (p : Page) : PollRun :=
  pollCall (mkRun p false None false []).

(** The rest of [poll] after a fulfilled [await]. *)
Definition onStatus (s : JobStatusResponse) (run : PollRun) : PollRun :=
  let p := page run in
  let files' := mirrorStatus activeJob s (files p) in
  match status s, resultDocument s with
  | job_completed, Some doc =>
      mkRun (mkPage files' None
               (toasts p ++ [mkToast "Analysis complete"
                               "Opening interactive analysis and chat." false])
               (navigations p ++ ["/chat/" ++ doc]))
            (isCancelled run) None false (requests run)
  | job_failed, _ =>
      mkRun (mkPage files' None
               (toasts p ++ [mkToast "Analysis failed"
                               (JsStr.orElse (job_error s)
                                  "An error occurred during analysis.")
                               true])
               (navigations p))
            (isCancelled run) None false (requests run)
  | _, _ =>
      mkRun (mkPage files' (activeJobId p) (toasts p) (navigations p))
            (isCancelled run) (Some 2000) false (requests run)
  end.

(** The [catch] branch. *)
Definition onReject (e : JsError) (run : PollRun) : PollRun :=
  let p := page run in
  mkRun (mkPage (files p) (activeJobId p)
           (toasts p ++ [mkToast "Error"
                           (JsStr.orElse (Some (message e))
                              "Failed to fetch analysis status. Retrying...")
                           true])
           (navigations p))
        (isCancelled run) (Some 4000) false (requests run).

Definition pollStep (run : PollRun) (ev : PollEvent) : PollRun :=
  match ev with
  | TimerFires =>
      match timer run with
      | Some _ => pollCall run
      | None => run
      end
  | Settles r =>
      if awaiting run then
        if isCancelled run
        then mkRun (page run) true (timer run) false (requests run)
        else match r with
             | Ok s => onStatus s run
             | Throw e => onReject e run
             end
      else run
  | Teardown =>
      mkRun (page run) true (timer run) (awaiting run) (requests run)
  end.

Definition pollRun (run : PollRun) (evs : list PollEvent) : PollRun :=
  fold_left pollStep evs run.

End Poll.

(** *** Vocabulary of the polling properties *)

(** The events of [n] consecutive failed ticks: each rejection, then the
    retry timer firing. *)
Definition retries (es : list JsError) : list PollEvent :=
  flat_map (fun e => [Settles (Throw e); TimerFires]) es.

(** A page with one task under analysis as job [job-1]. *)
Definition sampleTask : UploadFile :=
  mkUpload "1704067200000-contract.pdf" (mkFile "contract.pdf" 1024) 5
           processing None (Some "job-1") None.

Definition samplePage : Page := mkPage [sampleTask] (Some "job-1") [] [].

Definition processingAt (n : Z) : JobStatusResponse :=
  mkJob "job-1" job_processing (Some n) "Extracting text from PDF" None None.

Definition completedDoc1 : JobStatusResponse :=
  mkJob "job-1" job_completed (Some 100) "Analysis complete"
        (Some (mkResult "doc-1" "contract.pdf" 55)) None.

Definition failedWith (err : option string) : JobStatusResponse :=
  mkJob "job-1" job_failed None "Extracting text from PDF" None err.

End Upload.

(** ** The message renderer ([RichText] in [Chat.tsx]) *)

Module RichText.

Definition fence : string :=
  String JsStr.backtick (String JsStr.backtick (String JsStr.backtick EmptyString)).

Definition newline : string := String JsStr.LF EmptyString.

(** React keys of the produced blocks: [l-<idx>] or [code-final]. *)
Inductive Key :=
| KLine (idx : nat)
| KCodeFinal.

(** The numbered-item patterns: one or more digits, a dot, one or more
    white-space characters for the test; for the match, the digits with
    the dot as first group and the rest of the line as second. *)

Fixpoint spanDigits (s : string) : string * string :=
  match s with
  | String c r =>
      if JsStr.isDigit c
      then let '(ds, rest) := spanDigits r in (String c ds, rest)
      else (EmptyString, s)
  | EmptyString => (EmptyString, EmptyString)
  end.

Definition numberedTest (line : string) : bool :=
  match spanDigits line with
  | (String _ _, String d (String w _)) =>
      Ascii.eqb d JsStr.dot && JsStr.isSpace w
  | _ => false
  end.

(** A dot of the pattern matches no line terminator. *)
Fixpoint hasLineTerminator (s : string) : bool :=
  match s with
  | String c r =>
      Ascii.eqb c JsStr.LF || Ascii.eqb c JsStr.CR || hasLineTerminator r
  | EmptyString => false
  end.

(** The two groups, when the whole line matches. *)
Definition numberedMatch (line : string) : option (string * string) :=
  match spanDigits line with
  | (String c ds, String d (String w r)) =>
      if Ascii.eqb d JsStr.dot && JsStr.isSpace w then
        let text := JsStr.trimStart r in
        if hasLineTerminator text then None
        else Some (String c ds ++ ".", text)
      else None
  | _ => None
  end.

Section Render.

(** The inline spans of a line; [formatInline] splits the text on its
    bold and italic pattern and is a function of the text alone. *)
Variable Spans : Type.
Variable formatInline : string -> Spans.

Inductive Block :=
| Pre (code : string)
| Spacer
| H2 (text : Spans)
| H3 (text : Spans)
| H4 (text : Spans)
| Rule
| Bullet (text : Spans)
| Numbered (number : option string) (text : Spans)
| Paragraph (text : Spans).

Record Scan := mkScan {
  elements : list (Key * Block);
  codeBuffer : list string;
  inCode : bool;
  consecutiveEmptyLines : nat;
}.

Definition initialScan : Scan := mkScan [] [] false 0.

(** [flushCode(key)]: the block, if any line is buffered. *)
Definition flushCode (key : Key) (codeBuffer : list string)
  : option (Key * Block) :=
  match codeBuffer with
  | [] => None
  | _ => Some (key, Pre (JsStr.join newline codeBuffer))
  end.

Definition push (b : option (Key * Block)) (els : list (Key * Block))
  : list (Key * Block) :=
  match b with
  | Some e => els ++ [e]
  | None => els
  end.

Definition isFenceLine (line : string) : bool :=
  JsStr.startsWith fence (JsStr.trim line).

(** The block of a line outside code that is not blank. *)
Definition lineBlock (line : string) : Block :=
  if JsStr.startsWith "## " line then H2 (formatInline (JsStr.sliceFrom 3 line))
  else if JsStr.startsWith "### " line then H3 (formatInline (JsStr.sliceFrom 4 line))
  else if JsStr.startsWith "#### " line then H4 (formatInline (JsStr.sliceFrom 5 line))
  else if String.eqb (JsStr.trim line) "---" || String.eqb (JsStr.trim line) "***"
  then Rule
  else if JsStr.startsWith "- " line then Bullet (formatInline (JsStr.sliceFrom 2 line))
  else if numberedTest line then
    match numberedMatch line with
    | Some (num, text) => Numbered (Some num) (formatInline text)
    | None => Numbered None (formatInline EmptyString)
    end
  else Paragraph (formatInline line).

(** The body of [lines.forEach((line, idx) => ...)]. *)
Definition scanLine (st : Scan) (idx : nat) (line : string) : Scan :=
  let key := KLine idx in
  if isFenceLine line then
    if inCode st
    then mkScan (push (flushCode key (codeBuffer st)) (elements st))
                [] false (consecutiveEmptyLines st)
    else mkScan (elements st) (codeBuffer st) true (consecutiveEmptyLines st)
  else if inCode st then
    mkScan (elements st) (codeBuffer st ++ [line]) true (consecutiveEmptyLines st)
  else if JsStr.isEmpty (JsStr.trim line) then
    let n := S (consecutiveEmptyLines st) in
    mkScan (if (n =? 1)%nat then elements st ++ [(key, Spacer)] else elements st)
           (codeBuffer st) false n
  else
    mkScan (elements st ++ [(key, lineBlock line)]) (codeBuffer st) false 0.

(** [forEach] from index [idx] on. *)
Fixpoint scanFrom (idx : nat) (lines : list string) (st : Scan) : Scan :=
  match lines with
  | [] => st
  | line :: rest => scanFrom (S idx) rest (scanLine st idx line)
  end.

(** The trailing flush. *)
Definition finish (st : Scan) : list (Key * Block) :=
  if inCode st && negb (length (codeBuffer st) =? 0)%nat
  then push (flushCode KCodeFinal (codeBuffer st)) (elements st)
  else elements st.

Definition renderLines (lines : list string) : list (Key * Block) :=
  finish (scanFrom 0 lines initialScan).

Definition render (content : string) : list (Key * Block) :=
  renderLines (JsStr.split JsStr.LF content).

(** Vocabulary of the fence properties: a line that is no fence; the
    block a buffer is flushed to, if it holds a line; the invariant that
    the buffer is empty outside code. *)
Definition notFence (line : string) : Prop := isFenceLine line = false.

Definition codeBlock (key : Key) (body : list string) : list (Key * Block) :=
  match body with
  | [] => []
  | _ => [(key, Pre (JsStr.join newline body))]
  end.

Definition flushed (st : Scan) : Prop :=
  inCode st = false -> codeBuffer st = [].

End Render.

Arguments Pre {Spans} code.
Arguments Spacer {Spans}.
Arguments H2 {Spans} text.
Arguments H3 {Spans} text.
Arguments H4 {Spans} text.
Arguments Rule {Spans}.
Arguments Bullet {Spans} text.
Arguments Numbered {Spans} number text.
Arguments Paragraph {Spans} text.
Arguments mkScan {Spans} elements codeBuffer inCode consecutiveEmptyLines.
Arguments elements {Spans} s.
Arguments codeBuffer {Spans} s.
Arguments inCode {Spans} s.
Arguments consecutiveEmptyLines {Spans} s.
Arguments initialScan {Spans}.
Arguments flushCode {Spans} key codeBuffer.
Arguments push {Spans} b els.
Arguments lineBlock {Spans} formatInline line.
Arguments scanLine {Spans} formatInline st idx line.
Arguments scanFrom {Spans} formatInline idx lines st.
Arguments finish {Spans} st.
Arguments renderLines {Spans} formatInline lines.
Arguments render {Spans} formatInline content.
Arguments codeBlock {Spans} key body.
Arguments flushed {Spans} st.

End RichText.

(** ** Risk display on the chat header and the dashboard cards *)

Module Dashboard.

(** [riskBadgeColor] of the chat header ([Chat.tsx]). *)
Definition riskBadgeColor (riskScore : option Z) : string :=
  match riskScore with
  | None => "bg-muted text-muted-foreground"
  | Some s =>
      if s >? 70 then "bg-red-500/10 text-red-500 border-red-500/40"
      else if s >=? 40 then "bg-yellow-500/10 text-yellow-500 border-yellow-500/40"
      else "bg-emerald-500/10 text-emerald-500 border-emerald-500/40"
  end.

(** [mapStatus] of the dashboard page: the status shown on a document card. *)
Definition mapStatus (doc : Risk.DocumentSummary) : string :=
  let score := Risk.scoreOf doc in
  if negb (Risk.isCompleted doc) then "analyzing"
  else if score >? 70 then "high-risk"
  else if score <? 40 then "safe"
  else "analyzing".

(** The number of documents a predicate holds of. *)
Definition countIf (p : Risk.DocumentSummary -> bool)
           (docs : list Risk.DocumentSummary) : Z :=
  Risk.count (List.filter p docs).

(** The sum of the scores of a list of documents. *)
Definition sumScores (docs : list Risk.DocumentSummary) : Z :=
  fold_left (fun acc d => acc + Risk.scoreOf d) docs 0.

End Dashboard.

(** ** Stored chat history of the analysis service ([getChatHistory]) *)

Module History.

(** [items.map(f)] for a callback that can throw. *)
Fixpoint mapR {A B} (f : A -> Result B) (items : list A) : Result (list B) :=
  match items with
  | [] => Ok []
  | x :: rest =>
      y ← f x;
      ys ← mapR f rest;
      Ok (y :: ys)
  end.

(** The callback of [data.messages.map]: [{role: m.role, content: m.content}]. *)
Definition projectEntry (m : JVal) : Result JVal :=
  role ← Js.getProp m "role";
  content ← Js.getProp m "content";
  Ok (JObj [("role", role); ("content", content)]).

(** What the callback yields for an entry it can read, and the entries it
    cannot read. *)
Definition entryOf (m : JVal) : JVal :=
  JObj [("role", Js.getPropOpt m "role"); ("content", Js.getPropOpt m "content")].

Definition isNullish (m : JVal) : bool :=
  match m with
  | JUndefined | JNull => true
  | _ => false
  end.

Section Client.

Variable API_BASE_URL : string.
Variable getSession : Result (option string).
Variable fetch : Backend.Request -> Backend.FetchOutcome.

Definition historyRequest (userId documentId : string) : Backend.Request :=
  Backend.mkRequest
    (API_BASE_URL ++ "/api/v1/chat/history/" ++ userId ++ "/" ++ documentId)
    "GET" (Backend.getAuthHeaders getSession).

Definition getChatHistory (userId documentId : string) : Result (list JVal) :=
  response ← Backend.doFetch fetch (historyRequest userId documentId);
  data ← Backend.handleResponse response;
  messages ← Js.getProp data "messages";
  match messages with
  | JArr items => mapR projectEntry items
  | _ => Throw (mkError "data.messages.map is not a function")
  end.

End Client.

End History.

(** ** Sending a turn ([sendMessage] in [Chat.tsx]) *)

Module Conversation.

Import Chat.

Record ChatResponse := mkResponse {
  response : string;
  response_timestamp : string;
}.

(** A request to one of the two chat endpoints. *)
Inductive Outgoing :=
| ToDocument (document_id message : string) (chat_history : list ChatHistoryItem)
| ToChatbot (message : string) (chat_history : list ChatHistoryItem).

Record Composer := mkComposer {
  transcript : list Message;
  input : string;
  isLoading : bool;
  notices : list Toast;
  sent : list Outgoing;
}.

Section Send.

Variable documentId : option string.
(** [Date.now()], by reading, and [new Date().toISOString()]. *)
Variable nowMs : nat -> Z.
Variable nowIso : string.
(** [chatWithDocument] and [chatWithBot], as they settle. *)
Variable reply : Outgoing -> Result ChatResponse.

Definition userTurn (text : string) : Message :=
  mkMessage (JsStr.ofZ (nowMs 0)) user (JsStr.trim text) nowIso None.

Definition assistantTurn (r : ChatResponse) : Message :=
  mkMessage (JsStr.ofZ (nowMs 1) ++ "_assistant") assistant (response r)
            (response_timestamp r) None.

(** [!m.isReport] *)
Definition notReport (m : Message) : bool := negb (default false (isReport m)).

Definition outgoing (messages : list Message) (userMessage : Message) : Outgoing :=
  match truthyId documentId with
  | Some doc =>
      ToDocument doc (content userMessage)
                 (map toItem (List.filter notReport messages ++ [userMessage]))
  | None =>
      ToChatbot (content userMessage)
                (map toItem
                     (List.filter
                        (fun m => role_eqb (role m) user || role_eqb (role m) assistant)
                        messages))
  end.

Definition sendMessage (text : string) (st : Composer) : Composer :=
  if JsStr.isEmpty (JsStr.trim text) || isLoading st then st
  else
    let userMessage := userTurn text in
    let request := outgoing (transcript st) userMessage in
    match reply request with
    | Ok r =>
        mkComposer (transcript st ++ [userMessage] ++ [assistantTurn r])
                   EmptyString false (notices st) (sent st ++ [request])
    | Throw e =>
        mkComposer (transcript st ++ [userMessage])
                   EmptyString false
                   (notices st ++ [mkToast "Error" (message e) true])
                   (sent st ++ [request])
    end.

(** [handleSubmit]: the form sends its input. *)
Definition handleSubmit (st : Composer) : Composer := sendMessage (input st) st.

End Send.

End Conversation.

(** ** Actions of the upload page *)

Module UploadActions.

Import Upload.

Record UploadResponse := mkUploadResponse {
  job_id : string;
  upload_status : JobState;
  upload_message : string;
}.

Record Uploader := mkUploader {
  page : Page;
  uploading : bool;
  (** The [uploadDocument] calls made: the file and the user id. *)
  uploads : list (File * option string);
}.

Definition task_eqb (a b : TaskStatus) : bool :=
  match a, b with
  | pending, pending | Upload.uploading, Upload.uploading
  | processing, processing | complete, complete | error, error => true
  | _, _ => false
  end.

Definition isPending (f : UploadFile) : bool := task_eqb (task_status f) pending.
Definition isError (f : UploadFile) : bool := task_eqb (task_status f) error.

(** [removeFile] *)
Definition removeFile (target : string) (files : list UploadFile) : list UploadFile :=
  List.filter (fun f => negb (String.eqb (id f) target)) files.

(** The [setFiles] updaters of [uploadFileToSupabase]. *)
Definition updateById (target : string) (g : UploadFile -> UploadFile)
           (files : list UploadFile) : list UploadFile :=
  map (fun f => if String.eqb (id f) target then g f else f) files.

Definition markUploading (f : UploadFile) : UploadFile :=
  mkUpload (id f) (file f) 0 Upload.uploading (task_error f) (jobId f) (jobStatus f).

Definition markProcessing (job : string) (f : UploadFile) : UploadFile :=
  mkUpload (id f) (file f) 5 processing (task_error f) (Some job) (jobStatus f).

Definition markFailed (msg : string) (f : UploadFile) : UploadFile :=
  mkUpload (id f) (file f) (task_progress f) error (Some msg) (jobId f) (jobStatus f).

Definition setFiles (fs : list UploadFile) (p : Page) : Page :=
  mkPage fs (activeJobId p) (toasts p) (navigations p).

Definition setActiveJobId (j : option string) (p : Page) : Page :=
  mkPage (files p) j (toasts p) (navigations p).

Definition toast (t : Toast) (p : Page) : Page :=
  mkPage (files p) (activeJobId p) (toasts p ++ [t]) (navigations p).

Section Actions.

(** [user?.id] and [uploadDocument], as it settles. *)
Variable userId : option string.
Variable uploadDocument : File -> option string -> Result UploadResponse.

(** [uploadFileToSupabase]: the page after it, and the error it rethrows. *)
Definition uploadFileToSupabase (uploadFile : UploadFile) (p : Page)
  : Page * option JsError :=
  let p1 := setFiles (updateById (id uploadFile) markUploading (files p)) p in
  match uploadDocument (file uploadFile) userId with
  | Ok r =>
      (setActiveJobId (Some (job_id r))
         (setFiles (updateById (id uploadFile) (markProcessing (job_id r)) (files p1)) p1),
       None)
  | Throw e =>
      (setFiles (updateById (id uploadFile)
                            (markFailed (JsStr.orElse (Some (message e)) "Upload failed"))
                            (files p1)) p1,
       Some e)
  end.

Definition handleUpload (st : Uploader) : Uploader :=
  match List.filter isPending (files (page st)) with
  | [] =>
      mkUploader (toast (mkToast "No files to upload" "Please add files to upload" true)
                        (page st))
                 (uploading st) (uploads st)
  | first :: _ =>
      let '(p, failure) := uploadFileToSupabase first (page st) in
      let p' :=
        match failure with
        | None =>
            toast (mkToast "Upload successful"
                     "Document uploaded. AI analysis has started and may take a moment."
                     false) p
        | Some e =>
            toast (mkToast "Upload error"
                     (JsStr.orElse (Some (message e)) "An error occurred during upload")
                     true) p
        end in
      mkUploader p' false (uploads st ++ [(file first, userId)])
  end.

End Actions.

(** What the page derives for display. *)
Definition pendingCount (files : list UploadFile) : Z :=
  Z.of_nat (length (List.filter isPending files)).

Definition hasErrors (files : list UploadFile) : bool := existsb isError files.

(** The [disabled] attribute of the Upload button. *)
Definition uploadDisabled (st : Uploader) : bool :=
  (pendingCount (files (page st)) =? 0) || hasErrors (files (page st)) || uploading st.

(** [getStageIndex]: the stage label to ordinal table. *)
Definition getStageIndex (stage : option string) : Z :=
  match stage with
  | None => 0
  | Some s =>
      if JsStr.isEmpty s then 0
      else if String.eqb s "Extracting text from PDF" then 1
      else if String.eqb s "Detecting risks with AI model" then 2
      else if String.eqb s "Generating legal advisory" then 3
      else if String.eqb s "Analysis complete" then 4
      else 0
  end.

(** The four steps of the indicator, by index, and how one is drawn. *)
Definition stepIndices : list Z := [0; 1; 2; 3].

Definition stepCompleted (currentStage index : Z) : bool := currentStage >? index + 1.
Definition stepActive (currentStage index : Z) : bool := currentStage =? index + 1.

End UploadActions.

(** ** Inline spans ([formatInline] of [RichText]) *)

Module Inline.

Definition star : ascii := ascii_of_nat 42.

(** The longest prefix without an asterisk, and what follows it. *)
Fixpoint spanPlain (s : string) : string * string :=
  match s with
  | String c r =>
      if Ascii.eqb c star then (EmptyString, s)
      else let '(p, rest) := spanPlain r in (String c p, rest)
  | EmptyString => (EmptyString, EmptyString)
  end.

(** The first alternative of the pattern at the start of the text: two
    asterisks, one or more characters other than an asterisk, two asterisks.
    Yields the enclosed text and the rest. *)
Definition matchBold (s : string) : option (string * string) :=
  match s with
  | String a (String b r) =>
      if Ascii.eqb a star && Ascii.eqb b star then
        match spanPlain r with
        | (String c inner, String d (String e rest)) =>
            if Ascii.eqb d star && Ascii.eqb e star
            then Some (String c inner, rest) else None
        | _ => None
        end
      else None
  | _ => None
  end.

(** The second alternative: one asterisk, one or more characters other than
    an asterisk, one asterisk. *)
Definition matchItalic (s : string) : option (string * string) :=
  match s with
  | String a r =>
      if Ascii.eqb a star then
        match spanPlain r with
        | (String c inner, String d rest) =>
            if Ascii.eqb d star then Some (String c inner, rest) else None
        | _ => None
        end
      else None
  | _ => None
  end.

(** The match of the whole pattern at the start of the text, bold first:
    the matched text and the rest. *)
Definition matchAt (s : string) : option (string * string) :=
  match matchBold s with
  | Some (inner, rest) => Some ("**" ++ inner ++ "**", rest)
  | None =>
      match matchItalic s with
      | Some (inner, rest) => Some ("*" ++ inner ++ "*", rest)
      | None => None
      end
  end.

(** [text.split(pattern)] with the pattern in a capture group: the texts
    between matches alternate with the matches. [lit] is the text scanned
    since the last match; a match is never empty, so the length of the text
    bounds the number of steps. *)
Fixpoint splitParts (fuel : nat) (lit s : string) : list string :=
  match fuel with
  | O => [lit ++ s]
  | S fuel' =>
      match s with
      | EmptyString => [lit]
      | String c r =>
          match matchAt s with
          | Some (m, rest) => lit :: m :: splitParts fuel' EmptyString rest
          | None => splitParts fuel' (lit ++ String c EmptyString) r
          end
      end
  end.

Definition splitSpans (text : string) : list string :=
  splitParts (S (String.length text)) EmptyString text.

Inductive Span :=
| Strong (text : string)
| Em (text : string)
| Plain (text : string).

(** [s.endsWith(suffix)] *)
Fixpoint endsWith (suffix s : string) : bool :=
  String.eqb s suffix ||
  match s with
  | String _ r => endsWith suffix r
  | EmptyString => false
  end.

(** [s.slice(0, -n)] *)
Fixpoint dropEnd (n : nat) (s : string) : string :=
  match s with
  | EmptyString => EmptyString
  | String c r =>
      if (String.length r <? n)%nat then EmptyString else String c (dropEnd n r)
  end.

(** [s.slice(n, -n)] *)
Definition sliceInner (n : nat) (s : string) : string :=
  dropEnd n (JsStr.sliceFrom n s).

(** The callback of [parts.map]. *)
Definition formatPart (part : string) : Span :=
  if JsStr.startsWith "**" part && endsWith "**" part
  then Strong (sliceInner 2 part)
  else if JsStr.startsWith "*" part && endsWith "*" part
          && negb (JsStr.startsWith "**" part)
  then Em (sliceInner 1 part)
  else Plain part.

Definition formatInline (text : string) : list Span :=
  map formatPart (splitSpans text).

(** A run of asterisks. *)
Fixpoint stars (n : nat) : string :=
  match n with
  | O => EmptyString
  | S n' => String star (stars n')
  end.

End Inline.

(** ** Vocabulary of the line properties of the renderer *)

Module Lines.

(** [!line.trim()] *)
Definition isBlank (line : string) : bool := JsStr.isEmpty (JsStr.trim line).

(** Whether every character of the string satisfies the test. *)
Fixpoint allChars (p : ascii -> bool) (s : string) : bool :=
  match s with
  | EmptyString => true
  | String c r => p c && allChars p r
  end.

(** The first character, if any, satisfies the test. *)
Definition headIs (p : ascii -> bool) (s : string) : bool :=
  match s with
  | EmptyString => false
  | String c _ => p c
  end.

(** The keys of rendered blocks. *)
Definition keysOf {Spans} (els : list (RichText.Key * RichText.Block Spans))
  : list RichText.Key := map fst els.

(** What [forEach] keeps true: every key is a line index below the current
    one, no key occurs twice, and the blocks emitted so far, plus one for an
    open fence, are no more than the lines read. *)
Definition scanned {Spans} (idx : nat) (st : RichText.Scan Spans) : Prop :=
  Forall (fun k => exists i, k = RichText.KLine i /\ (i < idx)%nat)
         (keysOf (RichText.elements st)) /\
  NoDup (keysOf (RichText.elements st)) /\
  (length (RichText.elements st) + (if RichText.inCode st then 1 else 0) <= idx)%nat.

End Lines.

(** * Properties *)

(** ** Risk tiers *)

Section RiskFacts.

Import Risk.

Lemma filter_filter_andb {A} (f g : A -> bool) (l : list A) :
  List.filter f (List.filter g l) = List.filter (fun x => g x && f x) l.
Proof.
  induction l as [|x l IH]; simpl; [reflexivity|].
  destruct (g x); simpl; [destruct (f x)|]; simpl; now rewrite IH.
Qed.

Lemma riskLevel_high (s : Z) : riskLevel s = "high" <-> 70 < s.
Proof.
  unfold riskLevel.
  destruct (Z.gtb_spec s 70) as [Hgt|Hgt], (Z.geb_spec s 40) as [Hge|Hge];
    split; intros Hs; try discriminate; try lia; reflexivity.
Qed.

Lemma riskLevel_medium (s : Z) : riskLevel s = "medium" <-> 40 <= s <= 70.
Proof.
  unfold riskLevel.
  destruct (Z.gtb_spec s 70) as [Hgt|Hgt], (Z.geb_spec s 40) as [Hge|Hge];
    split; intros Hs; try discriminate; try lia; reflexivity.
Qed.

Lemma riskLevel_low (s : Z) : riskLevel s = "low" <-> s < 40.
Proof.
  unfold riskLevel.
  destruct (Z.gtb_spec s 70) as [Hgt|Hgt], (Z.geb_spec s 40) as [Hge|Hge];
    split; intros Hs; try discriminate; try lia; reflexivity.
Qed.

(** C1, as stated, fails at the upper boundary: a score of exactly 70 is
    labelled "medium" by the summary, not "high". *)
Lemma C1_score_70_is_not_high :
  riskLevel 70 = "medium" /\ riskLevel 70 <> "high".
Proof. split; [reflexivity | discriminate]. Qed.

(** C1, amended: the label of the chat summary is the upper-cased
    [riskLevel] of the score, which is "high" exactly above 70, "medium"
    exactly from 40 to 70 with both ends included, and "low" exactly below
    40; the dashboard counts a completed document as high-risk exactly when
    its tier is "high" (score above 70) and as safe exactly when its tier
    is "low" (score below 40), a missing score counting as 0. *)
Theorem C1_risk_tiers_and_dashboard_agree :
  (forall s : Z,
      (riskLevel s = "high" <-> 70 < s) /\
      (riskLevel s = "medium" <-> 40 <= s <= 70) /\
      (riskLevel s = "low" <-> s < 40)) /\
  (riskLevel 70 = "medium" /\ riskLevel 40 = "medium") /\
  (forall d : Chat.DocumentDetails,
      exists pre post,
        Chat.summaryText d =
          pre ++ "**" ++ JsStr.toUpperCase (riskLevel (Chat.risk_score d))
              ++ "**" ++ post) /\
  (forall docs : list DocumentSummary,
      highRiskCount (getDashboardStats docs) =
        count (List.filter
                 (fun d => isCompleted d
                           && String.eqb (riskLevel (scoreOf d)) "high") docs) /\
      highRiskCount (getDashboardStats docs) =
        count (List.filter (fun d => isCompleted d && (70 <? scoreOf d)) docs) /\
      safeCount (getDashboardStats docs) =
        count (List.filter
                 (fun d => isCompleted d
                           && String.eqb (riskLevel (scoreOf d)) "low") docs) /\
      safeCount (getDashboardStats docs) =
        count (List.filter (fun d => isCompleted d && (scoreOf d <? 40)) docs)).
Proof.
  split; [|split; [|split]].
  - intros s. split; [apply riskLevel_high | split];
      [apply riskLevel_medium | apply riskLevel_low].
  - split; reflexivity.
  - intros d.
    eexists. eexists. unfold Chat.summaryText. reflexivity.
  - intros docs. unfold getDashboardStats; simpl.
    rewrite !filter_filter_andb.
    assert (Hext : forall (f g : DocumentSummary -> bool),
               (forall d, f d = g d) ->
               List.filter f docs = List.filter g docs).
    { intros f g Hfg. induction docs as [|d l IH]; simpl; [reflexivity|].
      rewrite Hfg, IH. reflexivity. }
    repeat split; f_equal; apply Hext; intros d; f_equal.
    + unfold isHighRisk.
      destruct (String.eqb_spec (riskLevel (scoreOf d)) "high") as [E|E].
      * apply riskLevel_high in E. lia.
      * destruct (Z.gtb_spec (scoreOf d) 70); [|reflexivity].
        exfalso. apply E, riskLevel_high. lia.
    + unfold isHighRisk. lia.
    + unfold isSafe.
      destruct (String.eqb_spec (riskLevel (scoreOf d)) "low") as [E|E].
      * apply riskLevel_low in E. lia.
      * destruct (Z.ltb_spec (scoreOf d) 40); [|reflexivity].
        exfalso. apply E, riskLevel_low. lia.
Qed.

End RiskFacts.

(** ** The document-existence probe *)

Section BackendFacts.

Import Backend.

Variable API_BASE_URL : string.
Variable getSession : Result (option string).
Variable fetch : Request -> FetchOutcome.

Let probe := checkDocumentExists API_BASE_URL getSession fetch.
Let request := existsRequest API_BASE_URL getSession.

(** Closes a case in which the probe settles to [false]. *)
Ltac settle_false :=
  exists (JBool false); split; [reflexivity|];
  split;
  [ split;
    [ discriminate
    | intros (r' & fields' & Hr' & Hok' & Hj' & Hex'); congruence ]
  | repeat split; intros; congruence ].

Lemma handleResponse_not_ok (r : Response) :
  ok r = false -> exists e, handleResponse r = Throw e.
Proof. intros H. unfold handleResponse. rewrite H. simpl. eauto. Qed.

Lemma handleResponse_ok (r : Response) :
  ok r = true -> handleResponse r = json r.
Proof. intros H. unfold handleResponse. now rewrite H. Qed.

(** C10: [checkDocumentExists] settles to a value for every document id
    and every behaviour of the network; the value is [false] when the
    request is rejected, when the response is not ok, when its body does
    not parse, and when the body has no [exists] field; it is [true]
    exactly when an ok response carries an object whose [exists] is
    [true]. *)
Theorem C10_checkDocumentExists_never_throws (documentId : string) :
  exists v : JVal,
    probe documentId = Ok v /\
    (v = JBool true <->
       exists r fields,
         fetch (request documentId) = Responded r /\ ok r = true /\
         json r = Ok (JObj fields) /\
         Js.assoc "exists" fields = JBool true) /\
    (forall e, fetch (request documentId) = Rejected e -> v = JBool false) /\
    (forall r, fetch (request documentId) = Responded r ->
               ok r = false -> v = JBool false) /\
    (forall r e, fetch (request documentId) = Responded r ->
                 json r = Throw e -> v = JBool false) /\
    (forall r data, fetch (request documentId) = Responded r ->
                    json r = Ok data ->
                    Js.getPropOpt data "exists" = JUndefined ->
                    v = JBool false).
Proof.
  subst probe request. unfold checkDocumentExists, doFetch.
  destruct (fetch (existsRequest API_BASE_URL getSession documentId))
    as [e|r] eqn:Hf; simpl.
  { settle_false. }
  destruct (ok r) eqn:Hok.
  2:{ destruct (handleResponse_not_ok r Hok) as [e He].
      unfold mbind, Result_bind. rewrite He. simpl. settle_false. }
  unfold mbind, Result_bind. rewrite (handleResponse_ok r Hok).
  destruct (json r) as [data|e] eqn:Hj; simpl.
  2:{ settle_false. }
  destruct data as [| |b|n|s|items|fields]; simpl; try settle_false.
  exists (Js.nullish (Js.assoc "exists" fields) (JBool false)).
  split; [reflexivity|]. split; [|repeat split; intros; try congruence].
  - split.
    + intros Hv. exists r, fields. repeat split; try assumption.
      destruct (Js.assoc "exists" fields); simpl in Hv; congruence.
    + intros (r' & fields' & Hr & _ & Hj' & Hex).
      assert (r' = r) by congruence. subst r'.
      assert (fields' = fields) by congruence. subst fields'.
      now rewrite Hex.
  - match goal with
    | Hr : Responded r = Responded ?r', Hd : json ?r' = Ok ?d,
      Hu : Js.getPropOpt ?d _ = JUndefined |- _ =>
        assert (r' = r) by congruence; subst r';
        assert (d = JObj fields) by congruence; subst d;
        simpl in Hu; now rewrite Hu
    end.
Qed.

End BackendFacts.

(** C10 at a service that answers [{exists: true, message: "ok"}]: the probe
    settles to [true]. *)
Lemma C10_checkDocumentExists_never_throws_witness :
  let fetch := fun _ : Backend.Request =>
    Backend.Responded
      (Backend.mkResponse true 200
         (Ok (JObj [("exists", JBool true); ("message", JStr "ok")]))) in
  Backend.checkDocumentExists "http://localhost:8000" (Ok None) fetch "doc-1"
  = Ok (JBool true).
Proof.
  intros fetch.
  destruct (C10_checkDocumentExists_never_throws
              "http://localhost:8000" (Ok None) fetch "doc-1")
    as (v & Hv & Htrue & _).
  rewrite Hv. f_equal. apply Htrue.
  eexists. eexists. repeat split.
Defined.

(** ** Transcript deduplication *)

Section DedupFacts.

Import Chat.

Lemma dedupKey_eq (a b : Message) :
  dedupKey a = dedupKey b <-> keyPair a = keyPair b.
Proof.
  unfold dedupKey, keyPair. split.
  - destruct (role a), (role b); simpl; intros H; try discriminate;
      f_equal; injection H; auto.
  - intros H. injection H as Hr Hc. now rewrite Hr, Hc.
Qed.

Lemma sameKey_spec (a b : Message) :
  sameKey a b = true <-> dedupKey a = dedupKey b.
Proof.
  rewrite dedupKey_eq. unfold sameKey, keyPair.
  rewrite andb_true_iff, String.eqb_eq. split.
  - intros [Hr Hc]. f_equal; [|assumption].
    destruct (role a), (role b); simpl in Hr; congruence.
  - intros H. injection H as Hr Hc. split; [|assumption].
    rewrite Hr. now destruct (role b).
Qed.

Lemma existsb_sameKey (m : Message) (l : list Message) :
  existsb (sameKey m) l = true <-> exists x, x ∈ l /\ dedupKey x = dedupKey m.
Proof.
  rewrite existsb_exists. split; intros (x & Hx & Hk); exists x.
  - split; [now apply list_elem_of_In|]. symmetry. now apply sameKey_spec.
  - split; [now apply list_elem_of_In|]. apply sameKey_spec. now symmetry.
Qed.

(** The traversal with an arbitrary map of keys already seen. *)
Lemma dedupFilter_snoc (l : list Message) :
  forall (seen : gmap string bool) (m : Message),
    dedupFilter seen (l ++ [m]) =
      (dedupFilter seen l ++
         (if decide (is_Some (seen !! dedupKey m)) then []
          else if existsb (sameKey m) l then [] else [m]))%list.
Proof.
  induction l as [|x l IH]; intros seen m; simpl.
  - destruct (seen !! dedupKey m) eqn:E.
    + rewrite decide_True by eauto. reflexivity.
    + rewrite decide_False by (intros [? ?]; discriminate). reflexivity.
  - destruct (seen !! dedupKey x) eqn:Ex.
    + rewrite IH.
      destruct (decide (is_Some (seen !! dedupKey m))) as [Hm|Hm]; [reflexivity|].
      destruct (sameKey m x) eqn:Hmx; simpl; [|reflexivity].
      exfalso. apply Hm. apply sameKey_spec in Hmx. rewrite Hmx, Ex. eauto.
    + rewrite IH. simpl. f_equal.
      destruct (sameKey m x) eqn:Hmx; simpl.
      * apply sameKey_spec in Hmx. rewrite Hmx, lookup_insert_eq.
        rewrite decide_True by eauto.
        now destruct (decide (is_Some (seen !! dedupKey x))).
      * assert (Hne : dedupKey x <> dedupKey m).
        { intros E. symmetry in E. apply sameKey_spec in E. congruence. }
        rewrite lookup_insert_ne by assumption. reflexivity.
Qed.

Lemma dedupFilter_sublist (l : list Message) :
  forall seen, sublist (dedupFilter seen l) l.
Proof.
  induction l as [|x l IH]; intros seen; simpl; [constructor|].
  destruct (seen !! dedupKey x).
  - apply sublist_cons, IH.
  - apply sublist_skip, IH.
Qed.

Lemma dedupFilter_keys_fresh (l : list Message) :
  forall seen m, m ∈ dedupFilter seen l -> seen !! dedupKey m = None.
Proof.
  induction l as [|x l IH]; intros seen m; simpl.
  - intros H. inversion H.
  - destruct (seen !! dedupKey x) eqn:Ex; [apply IH|].
    intros H. apply elem_of_cons in H as [->|H]; [assumption|].
    apply IH in H.
    destruct (decide (dedupKey x = dedupKey m)) as [E|E].
    + rewrite E, lookup_insert_eq in H. discriminate.
    + now rewrite lookup_insert_ne in H.
Qed.

Lemma dedupFilter_NoDup (l : list Message) :
  forall seen, NoDup (map dedupKey (dedupFilter seen l)).
Proof.
  induction l as [|x l IH]; intros seen; simpl; [constructor|].
  destruct (seen !! dedupKey x) eqn:Ex; [apply IH|].
  simpl. constructor; [|apply IH].
  intros Hin. apply list_elem_of_fmap in Hin as (m & Hk & Hm).
  apply dedupFilter_keys_fresh in Hm.
  rewrite <- Hk, lookup_insert_eq in Hm. discriminate.
Qed.

Lemma dedupFilter_covers (l : list Message) :
  forall seen m, m ∈ l ->
    is_Some (seen !! dedupKey m) \/
    exists m', m' ∈ dedupFilter seen l /\ dedupKey m' = dedupKey m.
Proof.
  induction l as [|x l IH]; intros seen m Hm; [inversion Hm|].
  simpl. apply elem_of_cons in Hm as [->|Hm].
  - destruct (seen !! dedupKey x) eqn:Ex; [left; eauto|].
    right. exists x. split; [left|reflexivity].
  - destruct (seen !! dedupKey x) eqn:Ex.
    + apply IH. assumption.
    + destruct (IH (<[dedupKey x:=true]> seen) m Hm) as [Hs|(m' & Hin & Hk)].
      * destruct (decide (dedupKey x = dedupKey m)) as [E|E].
        -- right. exists x. split; [left|assumption].
        -- rewrite lookup_insert_ne in Hs by assumption. now left.
      * right. exists m'. split; [now right|assumption].
Qed.

(** [slice(0, n)] of a string of at most [n] characters is the string. *)
Lemma slice0_short (n : nat) (s : string) :
  (String.length s <= n)%nat -> JsStr.slice0 n s = s.
Proof.
  unfold JsStr.slice0. revert n.
  induction s as [|c s IH]; intros [|n] Hn; simpl in *; try reflexivity; try lia.
  f_equal. apply IH. lia.
Qed.

(** [slice(0, n)] keeps a prefix of at most [n] characters and goes on in
    the rest with what is left of [n]. *)
Lemma slice0_app (p t : string) :
  forall n, (String.length p <= n)%nat ->
            JsStr.slice0 n (p ++ t)
            = (p ++ JsStr.slice0 (n - String.length p) t)%string.
Proof.
  unfold JsStr.slice0.
  induction p as [|c p IH]; intros n Hn.
  - change (EmptyString ++ t)%string with t. simpl. now rewrite Nat.sub_0_r.
  - destruct n as [|n]; [simpl in Hn; lia|].
    change (String c p ++ t)%string with (String c (p ++ t)).
    cbn [String.substring String.length Nat.sub].
    rewrite IH by (simpl in Hn; lia). reflexivity.
Qed.

Lemma slice0_zero (s : string) : JsStr.slice0 0 s = EmptyString.
Proof. unfold JsStr.slice0. now destruct s. Qed.

Lemma slice0_prefix (p t : string) :
  JsStr.slice0 (String.length p) (p ++ t) = p.
Proof.
  rewrite slice0_app by lia. rewrite Nat.sub_diag, slice0_zero.
  induction p as [|c p IH]; [reflexivity|].
  change (String c p ++ EmptyString)%string with (String c (p ++ EmptyString)).
  now rewrite IH.
Qed.

Lemma append_inj_length (p q x y : string) :
  String.length p = String.length q ->
  (p ++ x)%string = (q ++ y)%string -> p = q.
Proof.
  revert q. induction p as [|c p IH]; intros [|d q] Hl H;
    try reflexivity; try discriminate.
  change (String c (p ++ x) = String d (q ++ y)) in H.
  injection H as Hc Hr. f_equal; [assumption|].
  apply IH; [now injection Hl|assumption].
Qed.

(** The transcript of two messages. *)
Lemma dedup_pair (a b : Message) :
  deduplicateMessages [a; b] = if sameKey b a then [a] else [a; b].
Proof.
  unfold deduplicateMessages.
  change [a; b] with ([a] ++ [b])%list. rewrite dedupFilter_snoc.
  rewrite decide_False by (rewrite lookup_empty; intros [? ?]; discriminate).
  cbn [dedupFilter existsb]. rewrite lookup_empty, orb_false_r.
  now destruct (sameKey b a).
Qed.

(** Agreement and disagreement of two keys, read off the contents. *)
Lemma sameKey_shared_prefix (a b : Message) (p t u : string) :
  role a = role b -> String.length p = 100%nat ->
  content a = (p ++ t)%string -> content b = (p ++ u)%string ->
  sameKey a b = true.
Proof.
  intros Hr Hp Ha Hb. apply sameKey_spec, dedupKey_eq. unfold keyPair.
  rewrite Hr, Ha, Hb, <- Hp. now rewrite !slice0_prefix.
Qed.

Lemma sameKey_other_role (a b : Message) :
  role a <> role b -> sameKey a b = false.
Proof.
  intros Hr. unfold sameKey.
  destruct (role a), (role b); simpl; try reflexivity; congruence.
Qed.

Lemma sameKey_other_prefix (a b : Message) (p q t u : string) :
  String.length p = String.length q -> (String.length p <= 100)%nat ->
  p <> q ->
  content a = (p ++ t)%string -> content b = (q ++ u)%string ->
  sameKey a b = false.
Proof.
  intros Hl Hp Hne Ha Hb. unfold sameKey.
  rewrite Ha, Hb, (slice0_app p t 100 Hp), (slice0_app q u 100) by lia.
  destruct (String.eqb_spec (p ++ JsStr.slice0 (100 - String.length p) t)
                            (q ++ JsStr.slice0 (100 - String.length q) u))
    as [E|E]; [|apply andb_false_r].
  exfalso. apply Hne. now apply append_inj_length in E.
Qed.

(** C8: [deduplicateMessages] keeps a message exactly when no earlier
    message agrees with it on the role and on the first 100 characters of
    the content, and keeps the kept messages in their order: appending a
    message to the input appends it to the output unless an earlier message
    has its key; the output is a subsequence of the input, holds no two
    messages with the same role and 100-character prefix, and holds a
    representative of every input message. The key compares the role and
    [content.slice(0, 100)], which is the whole content when it has at
    most 100 characters and its prefix of length 100 otherwise. So a
    message is dropped when an earlier message of the same role has the
    same content, or shares its first 100 characters whatever follows
    them; and it is kept when every earlier message has another role or
    differs from it within the first 100 characters. The two example
    messages of the specification are shorter than 100 characters and
    differ, so both are kept. *)
Theorem C8_deduplicateMessages_first_occurrence (l : list Message) :
  deduplicateMessages [] = [] /\
  (forall m,
      deduplicateMessages (l ++ [m]) =
        (deduplicateMessages l
           ++ (if existsb (sameKey m) l then [] else [m]))%list) /\
  sublist (deduplicateMessages l) l /\
  NoDup (map keyPair (deduplicateMessages l)) /\
  (forall m, m ∈ l ->
             exists m', m' ∈ deduplicateMessages l /\ keyPair m' = keyPair m) /\
  (forall a b, dedupKey a = dedupKey b <->
               role a = role b /\
               JsStr.slice0 100 (content a) = JsStr.slice0 100 (content b)) /\
  (forall c, (String.length c <= 100)%nat -> JsStr.slice0 100 c = c) /\
  (forall p t, String.length p = 100%nat -> JsStr.slice0 100 (p ++ t) = p) /\
  (forall x m p t u,
      x ∈ l -> role x = role m -> String.length p = 100%nat ->
      content x = (p ++ t)%string -> content m = (p ++ u)%string ->
      deduplicateMessages (l ++ [m]) = deduplicateMessages l) /\
  (forall x m,
      x ∈ l -> role x = role m -> content x = content m ->
      deduplicateMessages (l ++ [m]) = deduplicateMessages l) /\
  (forall m,
      (forall x, x ∈ l ->
                 role x <> role m \/
                 exists p q t u,
                   String.length p = String.length q /\
                   (String.length p <= 100)%nat /\ p <> q /\
                   content x = (p ++ t)%string /\
                   content m = (q ++ u)%string) ->
      deduplicateMessages (l ++ [m]) = (deduplicateMessages l ++ [m])%list) /\
  (forall a b p t u,
      role a = role b -> String.length p = 100%nat ->
      content a = (p ++ t)%string -> content b = (p ++ u)%string ->
      deduplicateMessages [a; b] = [a]) /\
  (forall a b, role a <> role b -> deduplicateMessages [a; b] = [a; b]) /\
  (forall a b p q t u,
      String.length p = String.length q -> (String.length p <= 100)%nat ->
      p <> q ->
      content a = (p ++ t)%string -> content b = (q ++ u)%string ->
      deduplicateMessages [a; b] = [a; b]) /\
  deduplicateMessages [greeting; greetingWithTail]
  = [greeting; greetingWithTail].
Proof.
  assert (Hsnoc : forall m,
             deduplicateMessages (l ++ [m]) =
               (deduplicateMessages l
                  ++ (if existsb (sameKey m) l then [] else [m]))%list).
  { intros m. unfold deduplicateMessages. rewrite dedupFilter_snoc.
    rewrite decide_False; [reflexivity|].
    rewrite lookup_empty. intros [? ?]; discriminate. }
  split; [reflexivity|]. split; [exact Hsnoc|].
  split; [|split; [|split; [|split]]].
  - apply dedupFilter_sublist.
  - unfold deduplicateMessages.
    pose proof (dedupFilter_NoDup l ∅) as Hnd.
    revert Hnd. generalize (dedupFilter ∅ l). intros k.
    induction k as [|x k IH]; simpl; intros Hnd; [constructor|].
    apply NoDup_cons in Hnd as [Hx Hk]. constructor; [|auto].
    intros Hin. apply Hx.
    apply list_elem_of_fmap in Hin as (y & Hy & Hyk).
    apply list_elem_of_fmap. exists y. split; [|assumption].
    now apply dedupKey_eq.
  - intros m Hm. unfold deduplicateMessages.
    destruct (dedupFilter_covers l ∅ m Hm) as [[? Hs]|(m' & Hin & Hk)].
    + rewrite lookup_empty in Hs. discriminate.
    + exists m'. split; [assumption|]. now apply dedupKey_eq.
  - intros a b. rewrite dedupKey_eq. unfold keyPair. split.
    + intros Hk. now injection Hk.
    + intros [Hr Hc]. now rewrite Hr, Hc.
  - split; [exact (slice0_short 100)|].
    split; [intros p t Hp; rewrite <- Hp; apply slice0_prefix|].
    split; [|split; [|split; [|split; [|split; [|split]]]]].
    + intros x m p t u Hx Hr Hp Hcx Hcm. rewrite Hsnoc.
      assert (E : existsb (sameKey m) l = true).
      { apply existsb_exists. exists x. split; [now apply list_elem_of_In|].
        symmetry in Hr. exact (sameKey_shared_prefix m x p u t Hr Hp Hcm Hcx). }
      rewrite E. apply app_nil_r.
    + intros x m Hx Hr Hc. rewrite Hsnoc.
      assert (E : existsb (sameKey m) l = true).
      { apply existsb_sameKey. exists x. split; [assumption|].
        apply dedupKey_eq. unfold keyPair. now rewrite Hr, Hc. }
      rewrite E. apply app_nil_r.
    + intros m Hall. rewrite Hsnoc.
      assert (E : existsb (sameKey m) l = false).
      { apply not_true_is_false. intros E.
        apply existsb_exists in E as (x & Hx & Hk).
        apply list_elem_of_In in Hx.
        destruct (Hall x Hx) as [Hr|(p & q & t & u & Hl & Hp & Hne & Hcx & Hcm)].
        - rewrite sameKey_other_role in Hk by congruence. discriminate.
        - rewrite (sameKey_other_prefix m x q p u t) in Hk;
            [discriminate|congruence|lia|congruence|assumption|assumption]. }
      now rewrite E.
    + intros a b p t u Hr Hp Ha Hb. rewrite dedup_pair.
      symmetry in Hr.
      now rewrite (sameKey_shared_prefix b a p u t Hr Hp Hb Ha).
    + intros a b Hr. rewrite dedup_pair.
      rewrite sameKey_other_role by congruence. reflexivity.
    + intros a b p q t u Hl Hp Hne Ha Hb. rewrite dedup_pair.
      rewrite (sameKey_other_prefix b a q p u t);
        [reflexivity|congruence|lia|congruence|assumption|assumption].
    + rewrite dedup_pair. reflexivity.
Qed.

(** C8 at a transcript whose third message repeats the first 100
    characters of the first one and then goes on differently: it is
    dropped. *)
Lemma C8_deduplicateMessages_first_occurrence_witness :
  let first :=
    mkMessage "1" user (longQuestion ++ " Please answer briefly.") "t1" None in
  let reply :=
    mkMessage "2" assistant "No, it protects the supplier only." "t2" None in
  let again :=
    mkMessage "3" user (longQuestion ++ " Cite the clause.") "t3" None in
  String.length longQuestion = 100%nat /\
  content first <> content again /\
  first ∈ [first; reply] /\
  deduplicateMessages ([first; reply] ++ [again])
  = deduplicateMessages [first; reply].
Proof.
  intros first reply again.
  assert (Hin : first ∈ [first; reply]).
  { apply list_elem_of_In. simpl. auto. }
  split; [reflexivity|]. split; [discriminate|]. split; [exact Hin|].
  destruct (C8_deduplicateMessages_first_occurrence [first; reply])
    as (_ & _ & _ & _ & _ & _ & _ & _ & Hdrop & _).
  exact (Hdrop first again longQuestion
               " Please answer briefly." " Cite the clause."
               Hin eq_refl eq_refl eq_refl eq_refl).
Defined.

End DedupFacts.

(** ** Initial load of the chat view *)

Section LoadFacts.

Import Chat.

Variable documentId : string.
Variable details : DocumentDetails.
Variable report : string.
Variable suggestions : list string.
Variable userId : option string.
Variable getChatHistory : string -> string -> Result (list ChatHistoryItem).
Variable localStorage_getItem : string -> option string.
Variable parseMessages : string -> Result (list Message).
Variable now : nat -> string.

(** [load] when the three bootstrap fetches are fulfilled. *)
Let loaded (st : ChatState) : ChatState :=
  load documentId (Ok details) (Ok report) (Ok suggestions) userId
       getChatHistory localStorage_getItem parseMessages now st.

Let base : list Message := baseMessages documentId now details report.

(** The two synthetic messages, in their order. *)
Lemma baseMessages_shape :
  exists r s,
    base = [r; s] /\
    role r = assistant /\ isReport r = Some true /\ content r = report /\
    role s = assistant /\ isReport s = None /\ content s = summaryText details.
Proof. subst base. unfold baseMessages. eexists. eexists. repeat split. Qed.

(** A stored history that is not empty is appended after the two. *)
Lemma load_with_history (st : ChatState) (uid : string) (h : ChatHistoryItem)
      (hs : list ChatHistoryItem) :
  truthyId userId = Some uid ->
  getChatHistory uid documentId = Ok (h :: hs) ->
  messages (loaded st) = (base ++ convertHistory documentId now (h :: hs))%list.
Proof.
  intros Hu Hh. subst loaded base. unfold load, bootstrap, loadHistory. simpl.
  rewrite Hu, Hh. reflexivity.
Qed.

(** A failed lookup falls back to the local cache, after the two. *)
Lemma load_after_lookup_failure (st : ChatState) (uid : string) (e : JsError) :
  truthyId userId = Some uid ->
  getChatHistory uid documentId = Throw e ->
  exists local, messages (loaded st) = (base ++ local)%list.
Proof.
  intros Hu Hh. subst loaded base. unfold load, bootstrap, loadHistory. simpl.
  rewrite Hu, Hh. unfold loadFallback.
  destruct (localStorage_getItem _) as [stored|]; simpl.
  - destruct (JsStr.isEmpty stored); simpl.
    + exists []. reflexivity.
    + destruct (parseMessages stored); simpl; [eauto|].
      exists []. reflexivity.
  - exists []. reflexivity.
Qed.

(** With nobody signed in, or with an empty stored history, [load] never
    calls [setMessages]: the transcript is left as it was. *)
Lemma load_without_history (st : ChatState) :
  truthyId userId = None \/
  (exists uid, truthyId userId = Some uid /\
               getChatHistory uid documentId = Ok []) ->
  messages (loaded st) = messages st /\ loadingInitial (loaded st) = false.
Proof.
  intros [Hu|(uid & Hu & Hh)]; subst loaded;
    unfold load, bootstrap, loadHistory; simpl; rewrite Hu; [|rewrite Hh];
    split; reflexivity.
Qed.

End LoadFacts.

(** C2 fails on the code at two inputs the page receives on every first
    visit: with the three bootstrap fetches fulfilled and nobody signed in,
    and with a signed-in user whose stored history is empty, loading
    completes with an empty transcript; the two synthetic messages that
    [load] built are dropped. *)
Theorem C2_load_drops_bootstrap_without_history :
  let details := Chat.mkDetails "nda.pdf" 55 3 10 in
  let run userId :=
    Chat.load "doc-1" (Ok details) (Ok "REPORT") (Ok ["What are the risks?"])
              userId (fun _ _ => Ok []) (fun _ => None) (fun _ => Ok [])
              (fun _ => "2024-01-01T00:00:00.000Z") Chat.initialState in
  (Chat.messages (run None) = [] /\ Chat.loadingInitial (run None) = false) /\
  (Chat.messages (run (Some "user-1")) = [] /\
   Chat.loadingInitial (run (Some "user-1")) = false).
Proof. repeat split. Qed.

(** ** Debounced persistence of the transcript *)

Section SaveFacts.

Import Chat.

Lemma persistable_spec (m : Message) :
  persistable m = true <->
  isReport m <> Some true /\ hasMarker (content m) = false.
Proof.
  unfold persistable. rewrite andb_true_iff, !negb_true_iff.
  destruct (isReport m) as [[|]|]; simpl; split; intros [H1 H2]; split;
    congruence.
Qed.

Lemma cleanEntry_sound (messages : list Message) (v : JVal) :
  cleanEntry messages v ->
  Js.getPropOpt v "isReport" <> JBool true /\
  exists c, Js.getPropOpt v "content" = JStr c /\ hasMarker c = false.
Proof.
  intros (m & _ & Hp & Hv). apply persistable_spec in Hp as [Hr Hc].
  destruct Hv as [-> | ->]; simpl.
  - split; [discriminate|]. eauto.
  - split; [|eauto].
    destruct (isReport m) as [[|]|]; simpl; congruence.
Qed.

Lemma cleanLog_snoc messages l w :
  cleanLog messages l ->
  (forall v, v ∈ payloadOf w -> cleanEntry messages v) ->
  cleanLog messages (l ++ [Wrote w]).
Proof.
  intros Hl Hw w' v Hin Hv. apply elem_of_app in Hin as [Hin|Hin].
  - eapply Hl; eassumption.
  - apply list_elem_of_singleton in Hin. injection Hin as ->. auto.
Qed.

Lemma cleanLog_cleanup messages l :
  cleanLog messages l -> cleanLog messages (l ++ [CleanedUp]).
Proof.
  intros Hl w v Hin Hv. apply elem_of_app in Hin as [Hin|Hin].
  - eapply Hl; eassumption.
  - apply list_elem_of_singleton in Hin. discriminate.
Qed.

Lemma history_clean messages v :
  v ∈ map itemJson (history messages) -> cleanEntry messages v.
Proof.
  unfold history. rewrite map_map. intros Hv.
  apply list_elem_of_fmap in Hv as (m & -> & Hm).
  apply list_elem_of_In, filter_In in Hm as [Hm Hp].
  exists m. split; [now apply list_elem_of_In|]. auto.
Qed.

Lemma fallback_clean messages v :
  v ∈ map messageJson (fallbackHistory messages) -> cleanEntry messages v.
Proof.
  unfold fallbackHistory. intros Hv.
  apply list_elem_of_fmap in Hv as (m & -> & Hm).
  apply list_elem_of_In, filter_In in Hm as [Hm Hp].
  exists m. split; [now apply list_elem_of_In|]. auto.
Qed.

Lemma saveStep_clean documentId userId messages run ev :
  cleanLog messages (log run) ->
  cleanLog messages (log (saveStep documentId userId messages run ev)).
Proof.
  intros Hl. unfold saveStep.
  destruct ev as [|[|]|], (phase run), documentId, userId; simpl;
    try assumption; try (now apply cleanLog_cleanup);
    try (destruct (0 <? length _)%nat; simpl; [|assumption]);
    try (apply cleanLog_snoc; [assumption|]; simpl; intros v Hv;
         first [now apply history_clean | now apply fallback_clean]).
Qed.

Lemma fold_saveStep_clean documentId userId messages evs :
  forall run,
    cleanLog messages (log run) ->
    cleanLog messages
      (log (fold_left (saveStep documentId userId messages) evs run)).
Proof.
  induction evs as [|ev evs IH]; intros run Hl; simpl; [assumption|].
  apply IH, saveStep_clean, Hl.
Qed.

Lemma writes_app l1 l2 : writes (l1 ++ l2) = (writes l1 ++ writes l2)%list.
Proof. unfold writes. apply omap_app. Qed.

Lemma idle_stays documentId userId messages evs :
  forall run,
    idle (phase run) = true ->
    writes (log (fold_left (saveStep documentId userId messages) evs run))
    = writes (log run).
Proof.
  induction evs as [|ev evs IH]; intros [ph lg] Hi; simpl in *; [reflexivity|].
  rewrite IH.
  - destruct ev as [|[|]|], ph, documentId, userId; simpl in *;
      try discriminate; try reflexivity;
      rewrite writes_app; simpl; now rewrite app_nil_r.
  - destruct ev as [|[|]|], ph, documentId, userId; simpl in *;
      try discriminate; reflexivity.
Qed.

(** A cleanup that runs before the timer fires clears the timer: that run
    of the effect writes to neither store. *)
Lemma cleanup_before_timer_no_write documentId userId messages evs :
  writes (log (saveRun documentId userId messages (Cleanup :: evs))) = [].
Proof.
  unfold saveRun. simpl. rewrite idle_stays.
  - unfold saveStep, saveEffect.
    destruct (truthyId documentId), (truthyId userId); simpl;
      try reflexivity.
    destruct (length messages <=? 2)%nat; reflexivity.
  - unfold saveStep, saveEffect.
    destruct (truthyId documentId), (truthyId userId); simpl;
      try reflexivity.
    destruct (length messages <=? 2)%nat; reflexivity.
Qed.

End SaveFacts.

Section SaveTheorems.

Import Chat.

(** C6, as stated, fails on the fallback write: after a failed primary
    write the local cache receives the filtered messages whole, with their
    [id] and [timestamp], not the role-and-content projection that went to
    the primary store. *)
Lemma C6_fallback_payload_is_not_projected :
  let run := saveRun (Some "doc-1") (Some "user-1") sampleTranscript
                     [TimerFires; PrimarySettles false] in
  exists primary fallback,
    log run = [Wrote (PrimaryWrite "user-1" "doc-1" primary);
               Wrote (LocalWrite "chat_doc-1" fallback)] /\
    primary = [JObj [("role", JStr "user");
                     ("content", JStr "Is the termination clause fair?")]] /\
    fallback = [JObj [("id", JStr "1704067200000");
                      ("role", JStr "user");
                      ("content", JStr "Is the termination clause fair?");
                      ("timestamp", JStr "2024-01-01T00:00:05.000Z")]] /\
    fallback <> primary.
Proof.
  eexists. eexists. split; [vm_compute; reflexivity|].
  split; [reflexivity|]. split; [reflexivity|]. discriminate.
Qed.

(** C6, amended: on a document chat with a signed-in user, when the
    transcript holds more than two messages the effect arms a 2000 ms
    timer and writes nothing before it fires; when it fires and the
    subset of messages that are neither reports nor carry the summary
    marker is not empty, that subset, projected to role and content, goes
    to the primary store; if that write fails, the same filtered subset
    goes to the local cache as whole messages; and every entry of every
    payload written to either store, whatever the order of events, is no
    report and has a content without the marker. *)
Theorem C6_persisted_history_is_filtered
        (doc uid : string) (messages : list Message) :
  JsStr.isEmpty doc = false ->
  JsStr.isEmpty uid = false ->
  (2 < length messages)%nat ->
  let run := saveRun (Some doc) (Some uid) messages in
  let kept := List.filter persistable messages in
  let primary := Wrote (PrimaryWrite uid doc (map itemJson (map toItem kept))) in
  let fallback := Wrote (LocalWrite ("chat_" ++ doc) (map messageJson kept)) in
  run [] = mkSave (Armed 2000) [] /\
  (kept <> [] ->
     log (run [TimerFires]) = [primary] /\
     log (run [TimerFires; PrimarySettles true]) = [primary] /\
     log (run [TimerFires; PrimarySettles false]) = [primary; fallback]) /\
  (kept = [] -> forall evs, writes (log (run (TimerFires :: evs))) = []) /\
  (forall evs w v,
      Wrote w ∈ log (run evs) -> v ∈ payloadOf w ->
      Js.getPropOpt v "isReport" <> JBool true /\
      exists c, Js.getPropOpt v "content" = JStr c /\ hasMarker c = false).
Proof.
  intros Hdoc Huid Hlen run kept primary fallback.
  assert (Heff : saveEffect (Some doc) (Some uid) messages = mkSave (Armed 2000) []).
  { unfold saveEffect, truthyId. rewrite Hdoc, Huid.
    destruct (Nat.leb_spec (length messages) 2); [lia|reflexivity]. }
  split; [exact Heff|]. split; [|split].
  - intros Hkept. subst run primary fallback. unfold saveRun. simpl.
    assert (Hpos : (0 <? length (history messages))%nat = true).
    { unfold history. rewrite length_map. fold kept.
      destruct kept; [congruence|reflexivity]. }
    rewrite Heff. unfold saveStep. simpl. rewrite Hpos. simpl.
    repeat split.
  - intros Hkept evs. subst run. unfold saveRun. simpl. rewrite Heff.
    rewrite idle_stays.
    + unfold saveStep, history. fold kept. rewrite Hkept. reflexivity.
    + unfold saveStep, history. fold kept. rewrite Hkept. reflexivity.
  - intros evs w v Hw Hv. apply (cleanEntry_sound messages).
    subst run. unfold saveRun in Hw.
    eapply fold_saveStep_clean; [|exact Hw|exact Hv].
    rewrite Heff. intros w' v' Hin. inversion Hin.
Qed.

(** C6 at the sample transcript of a signed-in user on document [doc-1]. *)
Lemma C6_persisted_history_is_filtered_witness :
  JsStr.isEmpty "doc-1" = false /\
  JsStr.isEmpty "user-1" = false /\
  (2 < length sampleTranscript)%nat /\
  saveRun (Some "doc-1") (Some "user-1") sampleTranscript []
  = mkSave (Armed 2000) [].
Proof.
  split; [reflexivity|]. split; [reflexivity|]. split; [simpl; lia|].
  apply (C6_persisted_history_is_filtered "doc-1" "user-1" sampleTranscript);
    [reflexivity | reflexivity | simpl; lia].
Defined.

End SaveTheorems.

(** ** Job polling *)

Section PollFacts.

Import Upload.

Variable j : string.

(** With no timer pending and no request awaited, nothing of the run is
    left to happen: no request goes out and the page is not touched. *)
Lemma quiescent_forever (evs : list PollEvent) :
  forall run,
    timer run = None -> awaiting run = false ->
    requests (pollRun j run evs) = requests run /\
    page (pollRun j run evs) = page run /\
    timer (pollRun j run evs) = None.
Proof.
  unfold pollRun.
  induction evs as [|ev evs IH]; intros [p c t a rq] Ht Ha; simpl in *;
    [auto|]. subst t a.
  destruct ev as [|r|]; simpl; apply (IH (mkRun _ _ _ _ _)); reflexivity.
Qed.

(** After teardown the flag stays set, the page is never touched, no timer
    is armed, and the only request that can still go out is the one of a
    timer that was pending at teardown. *)
Lemma cancelled_forever (evs : list PollEvent) :
  forall run,
    isCancelled run = true ->
    page (pollRun j run evs) = page run /\
    isCancelled (pollRun j run evs) = true /\
    (timer (pollRun j run evs) = None \/
     timer (pollRun j run evs) = timer run) /\
    (requests (pollRun j run evs) = requests run \/
     (is_Some (timer run) /\
      requests (pollRun j run evs) = (requests run ++ [j])%list)).
Proof.
  unfold pollRun.
  induction evs as [|ev evs IH]; intros [p c t a rq] Hc; simpl in *;
    [auto|]. subst c.
  destruct ev as [|r|]; simpl.
  - destruct t as [d|]; simpl.
    + destruct (IH (pollCall j (mkRun p true (Some d) a rq)) eq_refl)
        as (Hp & Hc & Ht & Hr). simpl in *.
      repeat split; try assumption.
      * destruct Ht as [Ht|Ht]; left; assumption.
      * right. split; [eauto|].
        destruct Hr as [Hr|[[? Hs] _]]; [assumption|discriminate].
    + apply (IH (mkRun p true None a rq)). reflexivity.
  - destruct a; simpl.
    + destruct (IH (mkRun p true t false rq) eq_refl) as (Hp & Hc & Ht & Hr).
      simpl in *. auto.
    + apply (IH (mkRun p true t false rq)). reflexivity.
  - apply (IH (mkRun p true t a rq)). reflexivity.
Qed.

(** Failed ticks keep the loop alive: after any number of rejections, each
    followed by its retry timer, a request is awaited again and neither the
    task list nor the active job has changed. *)
Lemma retries_keep_polling (es : list JsError) :
  forall run,
    awaiting run = true -> isCancelled run = false ->
    let final := pollRun j run (retries es) in
    awaiting final = true /\ isCancelled final = false /\
    files (page final) = files (page run) /\
    activeJobId (page final) = activeJobId (page run) /\
    navigations (page final) = navigations (page run) /\
    length (requests final) = (length (requests run) + length es)%nat.
Proof.
  unfold pollRun.
  induction es as [|e es IH]; intros [p c t a rq] Ha Hc; simpl in *.
  - repeat split; try assumption. lia.
  - subst a c. simpl.
    destruct (IH (pollCall j (onReject e (mkRun p false t true rq)))
                 eq_refl eq_refl) as (H1 & H2 & H3 & H4 & H5 & H6).
    simpl in *. repeat split; try assumption.
    rewrite H6, length_app. simpl. lia.
Qed.

End PollFacts.

Section PollTheorems.

Import Upload.

(** C3, as stated, fails at two inputs. On the failed job the tick marks
    the task [error] and shows the service's message in a notification,
    but the task's own error message stays unset; for a failure without a
    message the generic fallback is in the notification only, nowhere in
    the task. And a "completed" response without a result document id is
    none of the three resolutions: the task is marked [complete], nothing
    is shown, no navigation happens, the job stays active and the next
    tick is armed, whose firing issues a further request. *)
Lemma C3_task_error_unset_and_completed_without_document :
  let after err :=
    pollRun "job-1" (startPolling "job-1" samplePage)
            [Settles (Ok (failedWith err))] in
  let unfinished :=
    pollRun "job-1" (startPolling "job-1" samplePage)
            [Settles (Ok (mkJob "job-1" job_completed (Some 100)
                                "Analysis complete" None None))] in
  (exists t,
      files (page (after (Some "OCR failed"))) = [t] /\
      task_status t = error /\
      task_error t = None /\
      task_error t <> Some "OCR failed" /\
      toasts (page (after (Some "OCR failed")))
      = [mkToast "Analysis failed" "OCR failed" true]) /\
  (exists t,
      files (page (after None)) = [t] /\
      task_status t = error /\
      task_error t = None /\
      jobStatus t = Some (failedWith None) /\
      toasts (page (after None))
      = [mkToast "Analysis failed" "An error occurred during analysis." true]) /\
  (exists t,
      files (page unfinished) = [t] /\
      task_status t = complete /\
      timer unfinished = Some 2000 /\
      activeJobId (page unfinished) = Some "job-1" /\
      toasts (page unfinished) = [] /\
      navigations (page unfinished) = [] /\
      requests unfinished = ["job-1"] /\
      requests (pollStep "job-1" unfinished TimerFires) = ["job-1"; "job-1"]).
Proof.
  split; [|split]; eexists; (split; [vm_compute; reflexivity|]);
    repeat split; discriminate.
Qed.

(** C3, amended: a tick whose status request is fulfilled while the run is
    not cancelled mirrors the response into every task of the job and then
    resolves in exactly one of three ways, by the response alone. On
    "completed" with a non-empty result document id: no timer is armed and
    no further request is ever issued, a success notification is shown and
    navigation to the chat view of that document is triggered. On
    "failed": no timer is armed and no further request is ever issued,
    every task of the job gets status [error] with its own error message
    left as it was, and the service's message, or a generic fallback when
    there is none, is shown in a destructive notification ("OCR failed"
    for the spec's response). On every other response, that is "pending",
    "processing", or "completed" with no result or an empty document id:
    exactly one timer of 2000 ms is armed, whose firing issues exactly one
    request, the job stays the active one, and nothing is shown; in the
    last of these cases the tasks of the job are already marked
    [complete]. For the spec's three responses ending in completed with
    document "doc-1", three requests are issued in all and never a
    fourth. *)
Theorem C3_poll_tick_resolutions (j : string) (p : Page) (reqs : list string) :
  let tick s := pollStep j (mkRun p false None true reqs) (Settles (Ok s)) in
  (forall jid prog stg c d fn rs err,
      let doc := String c d in
      let s := mkJob jid job_completed prog stg (Some (mkResult doc fn rs)) err in
      timer (tick s) = None /\ awaiting (tick s) = false /\
      requests (tick s) = reqs /\
      toasts (page (tick s))
      = (toasts p ++ [mkToast "Analysis complete"
                        "Opening interactive analysis and chat." false])%list /\
      navigations (page (tick s)) = (navigations p ++ [("/chat/" ++ doc)%string])%list /\
      activeJobId (page (tick s)) = None /\
      (forall evs, requests (pollRun j (tick s) evs) = reqs)) /\
  (forall jid prog stg res err,
      let s := mkJob jid job_failed prog stg res err in
      timer (tick s) = None /\ awaiting (tick s) = false /\
      requests (tick s) = reqs /\
      toasts (page (tick s))
      = (toasts p ++ [mkToast "Analysis failed"
                        (JsStr.orElse err "An error occurred during analysis.")
                        true])%list /\
      navigations (page (tick s)) = navigations p /\
      activeJobId (page (tick s)) = None /\
      files (page (tick s))
      = map (fun f =>
               if jobIdIs j f
               then mkUpload (id f) (file f) (default (task_progress f) prog)
                             error (task_error f) (jobId f) (Some s)
               else f) (files p) /\
      (forall evs, requests (pollRun j (tick s) evs) = reqs)) /\
  (JsStr.orElse (Some "OCR failed") "An error occurred during analysis."
   = "OCR failed" /\
   JsStr.orElse None "An error occurred during analysis."
   = "An error occurred during analysis.") /\
  (forall (stillPending : bool) jid prog stg res err,
      let st := if stillPending then job_pending else job_processing in
      let s := mkJob jid st prog stg res err in
      timer (tick s) = Some 2000 /\ awaiting (tick s) = false /\
      requests (tick s) = reqs /\
      toasts (page (tick s)) = toasts p /\
      navigations (page (tick s)) = navigations p /\
      activeJobId (page (tick s)) = activeJobId p /\
      requests (pollStep j (tick s) TimerFires) = (reqs ++ [j])%list /\
      timer (pollStep j (tick s) TimerFires) = None /\
      requests (pollRun j (tick s) [TimerFires; TimerFires])
      = (reqs ++ [j])%list) /\
  (let final :=
     pollRun j (startPolling j p)
             [Settles (Ok (processingAt 10)); TimerFires;
              Settles (Ok (processingAt 55)); TimerFires;
              Settles (Ok completedDoc1)] in
   requests final = [j; j; j] /\
   navigations (page final) = (navigations p ++ ["/chat/doc-1"])%list /\
   forall evs, requests (pollRun j final evs) = [j; j; j]) /\
  (forall (noResult : bool) jid prog stg fn rs err,
      let res := if noResult then None
                 else Some (mkResult EmptyString fn rs) in
      let s := mkJob jid job_completed prog stg res err in
      timer (tick s) = Some 2000 /\ awaiting (tick s) = false /\
      requests (tick s) = reqs /\
      toasts (page (tick s)) = toasts p /\
      navigations (page (tick s)) = navigations p /\
      activeJobId (page (tick s)) = activeJobId p /\
      files (page (tick s))
      = map (fun f =>
               if jobIdIs j f
               then mkUpload (id f) (file f) (default (task_progress f) prog)
                             complete (task_error f) (jobId f) (Some s)
               else f) (files p) /\
      requests (pollStep j (tick s) TimerFires) = (reqs ++ [j])%list /\
      timer (pollStep j (tick s) TimerFires) = None /\
      requests (pollRun j (tick s) [TimerFires; TimerFires])
      = (reqs ++ [j])%list) /\
  (forall s,
      (files (page (tick s))
       = map (fun f =>
                if jobIdIs j f
                then mkUpload (id f) (file f)
                              (default (task_progress f) (progress s))
                              (match status s with
                               | job_completed => complete
                               | job_failed => error
                               | job_pending | job_processing => processing
                               end)
                              (task_error f) (jobId f) (Some s)
                else f) (files p) /\
       isCancelled (tick s) = false /\ awaiting (tick s) = false /\
       requests (tick s) = reqs) /\
      ((exists r,
           status s = job_completed /\ result s = Some r /\
           document_id r <> EmptyString /\
           timer (tick s) = None /\
           activeJobId (page (tick s)) = None /\
           toasts (page (tick s))
           = (toasts p ++ [mkToast "Analysis complete"
                             "Opening interactive analysis and chat."
                             false])%list /\
           navigations (page (tick s))
           = (navigations p ++ [("/chat/" ++ document_id r)%string])%list) \/
       (status s = job_failed /\
        timer (tick s) = None /\
        activeJobId (page (tick s)) = None /\
        toasts (page (tick s))
        = (toasts p ++ [mkToast "Analysis failed"
                          (JsStr.orElse (job_error s)
                             "An error occurred during analysis.")
                          true])%list /\
        navigations (page (tick s)) = navigations p) \/
       ((status s = job_pending \/ status s = job_processing \/
         (status s = job_completed /\
          (result s = None \/
           exists r, result s = Some r /\ document_id r = EmptyString))) /\
        timer (tick s) = Some 2000 /\
        activeJobId (page (tick s)) = activeJobId p /\
        toasts (page (tick s)) = toasts p /\
        navigations (page (tick s)) = navigations p))).
Proof.
  intros tick. split; [|split; [|split; [|split; [|split; [|split]]]]].
  - intros jid prog stg c d fn rs err doc s.
    repeat split.
    intros evs.
    now destruct (quiescent_forever j evs (tick s) eq_refl eq_refl) as [-> _].
  - intros jid prog stg res err s.
    assert (Ht : tick s =
                 mkRun (mkPage (mirrorStatus j s (files p)) None
                          (toasts p ++ [mkToast "Analysis failed"
                                          (JsStr.orElse err
                                             "An error occurred during analysis.")
                                          true])
                          (navigations p))
                       false None false reqs).
    { subst tick s. unfold pollStep, onStatus, resultDocument. simpl.
      destruct res as [r|]; [destruct (JsStr.isEmpty (document_id r))|];
        reflexivity. }
    rewrite Ht. simpl. repeat split.
    intros evs.
    now destruct (quiescent_forever j evs (mkRun
      (mkPage (mirrorStatus j s (files p)) None
         (toasts p ++ [mkToast "Analysis failed"
                         (JsStr.orElse err "An error occurred during analysis.")
                         true])
         (navigations p)) false None false reqs) eq_refl eq_refl) as [-> _].
  - split; reflexivity.
  - intros [|] jid prog stg res err st s; subst tick s st;
      unfold pollStep, onStatus, resultDocument; simpl;
      (destruct res as [r|]; [destruct (JsStr.isEmpty (document_id r))|]);
      simpl; repeat split.
  - simpl. split; [reflexivity|]. split; [reflexivity|].
    intros evs.
    match goal with
    | |- requests (pollRun j ?r evs) = _ =>
        now destruct (quiescent_forever j evs r eq_refl eq_refl) as [-> _]
    end.
  - intros [|] jid prog stg fn rs err res s; subst tick s res;
      unfold pollStep, onStatus, resultDocument; simpl; repeat split.
  - intros [jid st prog stg res err]. subst tick.
    unfold pollStep, onStatus, resultDocument, mirrorStatus, taskStatusOf.
    cbn [awaiting isCancelled status result progress job_error page files
         toasts navigations activeJobId requests timer].
    destruct st.
    + split; [destruct res as [[[|c d] fn rs]|]; simpl; repeat split|].
      right. right.
      destruct res as [[[|c d] fn rs]|]; simpl;
        (split; [now left|repeat split]).
    + split; [destruct res as [[[|c d] fn rs]|]; simpl; repeat split|].
      right. right.
      destruct res as [[[|c d] fn rs]|]; simpl;
        (split; [right; now left|repeat split]).
    + destruct res as [[[|c d] fn rs]|]; simpl.
      * split; [repeat split|]. right. right.
        split; [|repeat split].
        right. right. split; [reflexivity|]. right.
        eexists. split; reflexivity.
      * split; [repeat split|]. left.
        eexists. split; [reflexivity|]. split; [reflexivity|].
        split; [discriminate|]. repeat split.
      * split; [repeat split|]. right. right.
        split; [|repeat split].
        right. right. split; [reflexivity|]. now left.
    + split; [destruct res as [[[|c d] fn rs]|]; simpl; repeat split|].
      right. left.
      destruct res as [[[|c d] fn rs]|]; simpl; repeat split.
Qed.

(** C4, as stated, fails at two inputs. A teardown while a retry timer is
    pending does not clear the timer: when it fires, one more status
    request is issued. And a persistence run whose cleanup comes during the
    primary write still writes the local cache when that write fails. *)
Lemma C4_request_and_store_write_after_teardown :
  (let before :=
     pollRun "job-1" (startPolling "job-1" samplePage)
             [Settles (Ok (processingAt 10)); Teardown] in
   let after := pollStep "job-1" before TimerFires in
   isCancelled before = true /\
   requests before = ["job-1"] /\
   requests after = ["job-1"; "job-1"]) /\
  (exists primary fallback,
      Chat.log (Chat.saveRun (Some "doc-1") (Some "user-1") Chat.sampleTranscript
                  [Chat.TimerFires; Chat.Cleanup; Chat.PrimarySettles false])
      = [Chat.Wrote primary; Chat.CleanedUp;
         Chat.Wrote (Chat.LocalWrite "chat_doc-1" fallback)]).
Proof.
  split; [repeat split|]. eexists. eexists. vm_compute. reflexivity.
Qed.

(** C4, amended: from the teardown on, no task-list update, notification
    or navigation happens and no timer is armed, whatever poll response or
    poll error resolves later; a status request can follow the teardown
    only as the single one of a timer that was already pending, and none
    follows when no timer was pending. A persistence run whose cleanup
    comes before its timer fires writes to neither store. *)
Theorem C4_no_mutation_after_teardown
        (j : string) (run : PollRun) (evs : list PollEvent)
        (documentId userId : option string) (messages : list Chat.Message)
        (sevs : list Chat.SaveEvent) :
  let final := pollRun j (pollStep j run Teardown) evs in
  page final = page run /\
  isCancelled final = true /\
  (timer final = None \/ timer final = timer run) /\
  (requests final = requests run \/
   (is_Some (timer run) /\ requests final = (requests run ++ [j])%list)) /\
  Chat.writes (Chat.log (Chat.saveRun documentId userId messages
                           (Chat.Cleanup :: sevs))) = [].
Proof.
  intros final.
  destruct (cancelled_forever j evs (pollStep j run Teardown) eq_refl)
    as (Hp & Hc & Ht & Hr).
  repeat split; try assumption.
  apply cleanup_before_timer_no_write.
Qed.

(** C5, as stated, fails on the notification: a rejected status request is
    shown to the user as a destructive notification, with the error's
    message or the "Retrying..." text. *)
Lemma C5_transport_error_is_shown_to_the_user :
  let after e :=
    pollRun "job-1" (startPolling "job-1" samplePage) [Settles (Throw e)] in
  toasts (page (after (mkError "Failed to fetch")))
  = [mkToast "Error" "Failed to fetch" true] /\
  toasts (page (after (mkError EmptyString)))
  = [mkToast "Error" "Failed to fetch analysis status. Retrying..." true].
Proof. split; reflexivity. Qed.

(** C5, amended: when a status request is rejected and the run is not
    cancelled, the task list, the active job and the navigation are left
    untouched (the job is not abandoned, no task is marked [error]), the
    error is shown in a destructive notification, and the next poll is
    armed after 4000 ms, against 2000 ms after a fulfilled non-terminal
    response; this goes on for any number of consecutive rejections; and
    after two rejections followed by a "processing" response the loop has
    issued three requests and has its next poll armed. *)
Theorem C5_transport_errors_are_retried
        (j : string) (p : Page) (reqs : list string) :
  (forall e,
      let r := pollStep j (mkRun p false None true reqs) (Settles (Throw e)) in
      timer r = Some 4000 /\
      files (page r) = files p /\
      activeJobId (page r) = activeJobId p /\
      navigations (page r) = navigations p /\
      toasts (page r)
      = (toasts p ++ [mkToast "Error"
                        (JsStr.orElse (Some (message e))
                           "Failed to fetch analysis status. Retrying...")
                        true])%list /\
      requests (pollStep j r TimerFires) = (reqs ++ [j])%list) /\
  (forall jid prog stg res err,
      timer (pollStep j (mkRun p false None true reqs)
                      (Settles (Ok (mkJob jid job_processing prog stg res err))))
      = Some 2000) /\
  (forall es : list JsError,
      let final := pollRun j (startPolling j p) (retries es) in
      awaiting final = true /\ isCancelled final = false /\
      files (page final) = files p /\
      activeJobId (page final) = activeJobId p /\
      length (requests final) = S (length es)) /\
  (forall e1 e2 jid prog stg res err,
      let s := mkJob jid job_processing prog stg res err in
      let final :=
        pollRun j (startPolling j p)
                [Settles (Throw e1); TimerFires; Settles (Throw e2); TimerFires;
                 Settles (Ok s)] in
      timer final = Some 2000 /\
      requests final = [j; j; j] /\
      activeJobId (page final) = activeJobId p /\
      files (page final) = mirrorStatus j s (files p)).
Proof.
  split; [|split; [|split]].
  - intros e. repeat split.
  - intros jid prog stg res err.
    unfold pollStep, onStatus, resultDocument. simpl.
    destruct res as [r|]; [destruct (JsStr.isEmpty (document_id r))|];
      reflexivity.
  - intros es final.
    destruct (retries_keep_polling j es (startPolling j p) eq_refl eq_refl)
      as (H1 & H2 & H3 & H4 & _ & H6).
    repeat split; assumption.
  - intros e1 e2 jid prog stg res err s final. subst final s.
    unfold pollRun. simpl. unfold onStatus, resultDocument. simpl.
    (destruct res as [r|]; [destruct (JsStr.isEmpty (document_id r))|]);
      simpl; repeat split.
Qed.

End PollTheorems.

(** ** Validation and enqueueing *)

Section EnqueueFacts.

Import Upload.

Lemma split_no_sep (sep : ascii) (s : string) :
  JsStr.hasChar sep s = false -> JsStr.split sep s = [s].
Proof.
  induction s as [|c r IH]; simpl; [reflexivity|].
  intros H. apply orb_false_iff in H as [Hc Hr].
  rewrite Hc, (IH Hr). reflexivity.
Qed.

(** The segments of a name that ends in a separator and a separator-free
    tail: there are at least two, and the tail is the last. *)
Lemma split_last_segment (sep : ascii) (seg : string) :
  JsStr.hasChar sep seg = false ->
  forall stem,
  exists first rest,
    JsStr.split sep (stem ++ String sep seg) = first :: rest /\
    rest <> [] /\ last rest = Some seg.
Proof.
  intros Hseg stem. induction stem as [|c stem IH]; simpl.
  - rewrite Ascii.eqb_refl, (split_no_sep _ _ Hseg).
    exists EmptyString, [seg]. repeat split. discriminate.
  - destruct IH as (first & rest & Hs & Hne & Hl). rewrite Hs.
    destruct (Ascii.eqb c sep).
    + exists EmptyString, (first :: rest). repeat split; [discriminate|].
      destruct rest; [congruence|exact Hl].
    + exists (String c first), rest. repeat split; assumption.
Qed.

Lemma extensionOf_dotted (stem seg : string) :
  JsStr.hasChar JsStr.dot seg = false ->
  extensionOf (stem ++ String JsStr.dot seg) = "." ++ JsStr.toLowerCase seg.
Proof.
  intros Hseg. unfold extensionOf, JsStr.lastSegment.
  destruct (split_last_segment JsStr.dot seg Hseg stem)
    as (first & rest & Hs & Hne & Hl).
  rewrite Hs. destruct rest; [congruence|].
  simpl in *. now rewrite Hl.
Qed.

Lemma extensionOf_undotted (fileName : string) :
  JsStr.hasChar JsStr.dot fileName = false ->
  extensionOf fileName = "." ++ JsStr.toLowerCase fileName.
Proof.
  intros H. unfold extensionOf. now rewrite (split_no_sep _ _ H).
Qed.

Lemma validateFile_spec (f : File) :
  validateFile f = None <->
  extensionOf (name f) = ".pdf" /\ size f <= MAX_FILE_SIZE.
Proof.
  unfold validateFile, includesStr, SUPPORTED_FORMATS. cbn [existsb].
  rewrite orb_false_r.
  destruct (String.eqb_spec (extensionOf (name f)) ".pdf") as [E|E];
    cbn [negb].
  - destruct (Z.gtb_spec (size f) MAX_FILE_SIZE) as [Hgt|Hle]; split.
    + discriminate.
    + intros [_ Hle]. lia.
    + intros _. split; assumption.
    + reflexivity.
  - split; [discriminate|]. intros [Hext _]. contradiction.
Qed.

Lemma newTask_status (t : Z) (f : File) :
  (task_status (newTask t f) = error <-> validateFile f <> None) /\
  (task_status (newTask t f) = pending <-> validateFile f = None) /\
  task_error (newTask t f) = validateFile f.
Proof.
  unfold newTask, validateFile; simpl.
  destruct (negb _); simpl; [repeat split; congruence|].
  destruct (size f >? MAX_FILE_SIZE); simpl; repeat split; congruence.
Qed.

Lemma addFiles_files (newFiles : list File) :
  forall now prev,
    map file (addFiles now newFiles prev)
    = (map file prev ++ newFiles)%list /\
    length (addFiles now newFiles prev)
    = (length prev + length newFiles)%nat.
Proof.
  intros now prev. unfold addFiles.
  rewrite map_app, length_app, length_imap. split; [|reflexivity].
  f_equal. revert now.
  induction newFiles as [|f fs IH]; intros now; simpl; [reflexivity|].
  f_equal. apply (IH (fun i => now (S i))).
Qed.

(** Decimal numerals of clock readings hold no dash. *)
Lemma string_of_uint_no_dash (d : Decimal.uint) :
  JsStr.hasChar JsStr.dash (NilEmpty.string_of_uint d) = false.
Proof. induction d; simpl; auto. Qed.

Lemma ofZ_no_dash (t : Z) :
  0 <= t -> JsStr.hasChar JsStr.dash (JsStr.ofZ t) = false.
Proof.
  intros Ht. unfold JsStr.ofZ.
  destruct t as [|q|q]; [reflexivity| |lia].
  simpl. unfold NilZero.string_of_uint.
  destruct (Pos.to_uint q); try reflexivity; apply string_of_uint_no_dash.
Qed.

Lemma dash_split_unique (a : string) :
  forall b x y,
    JsStr.hasChar JsStr.dash a = false ->
    JsStr.hasChar JsStr.dash b = false ->
    a ++ String JsStr.dash x = b ++ String JsStr.dash y ->
    a = b /\ x = y.
Proof.
  induction a as [|c a IH]; intros [|c' b] x y Ha Hb H; simpl in *.
  - injection H. auto.
  - injection H as Hc _. subst c'. discriminate.
  - injection H as Hc _. subst c. discriminate.
  - injection H as Hc Hr. subst c'.
    apply orb_false_iff in Ha as [_ Ha]. apply orb_false_iff in Hb as [_ Hb].
    destruct (IH b x y Ha Hb Hr) as [-> ->]. auto.
Qed.

Lemma task_id_determines_name (t1 t2 : Z) (f1 f2 : File) :
  0 <= t1 -> 0 <= t2 ->
  id (newTask t1 f1) = id (newTask t2 f2) -> name f1 = name f2.
Proof.
  intros H1 H2 H. simpl in H.
  apply dash_split_unique in H as [_ H]; auto using ofZ_no_dash.
Qed.

Lemma batch_ids_distinct (newFiles : list File) :
  forall now,
    (forall i, 0 <= now i) ->
    NoDup (map name newFiles) ->
    NoDup (map id (imap (fun i f => newTask (now i) f) newFiles)).
Proof.
  induction newFiles as [|f fs IH]; intros now Hnow Hnd; simpl;
    [constructor|].
  simpl in Hnd. apply NoDup_cons in Hnd as [Hf Hfs].
  constructor.
  - intros Hin. apply Hf.
    apply list_elem_of_fmap in Hin as (u & Hu & Hin).
    apply elem_of_lookup_imap in Hin as (i & g & -> & Hg).
    apply list_elem_of_fmap. exists g. split.
    + eapply task_id_determines_name; [apply Hnow|apply Hnow|exact Hu].
    + eapply list_elem_of_lookup_2. exact Hg.
  - apply (IH (fun i => now (S i))); [intros i; apply Hnow|assumption].
Qed.

End EnqueueFacts.

Section EnqueueTheorems.

Import Upload.

(** C7, as stated, fails on the ids: two files of one batch that share a
    name, mapped within the same millisecond, get the same id. *)
Lemma C7_same_name_same_id :
  let tasks :=
    addFiles (fun _ => 1704067200000)
             [mkFile "a.pdf" 10; mkFile "a.pdf" 20] [] in
  map id tasks = ["1704067200000-a.pdf"; "1704067200000-a.pdf"] /\
  ~ NoDup (map id tasks).
Proof.
  split; [reflexivity|]. simpl. intros H.
  apply NoDup_cons in H as [H _]. apply H. left.
Qed.

Lemma newTask_spec (t : Z) (f : File) :
  (task_status (newTask t f) = error <->
     extensionOf (name f) <> ".pdf" \/ MAX_FILE_SIZE < size f) /\
  (task_status (newTask t f) = pending <->
     extensionOf (name f) = ".pdf" /\ size f <= MAX_FILE_SIZE) /\
  (task_status (newTask t f) = error <->
     exists msg, task_error (newTask t f) = Some msg) /\
  file (newTask t f) = f /\
  id (newTask t f) = JsStr.ofZ t ++ "-" ++ name f.
Proof.
  destruct (newTask_status t f) as (He & Hp & Herr).
  split; [|split; [|split; [|split; reflexivity]]].
  - rewrite He, validateFile_spec. split.
    + intros Hn.
      destruct (string_dec (extensionOf (name f)) ".pdf") as [E|E]; [|now left].
      right. destruct (Z.ltb_spec MAX_FILE_SIZE (size f)); [assumption|].
      exfalso. apply Hn. split; assumption.
    + intros [Hn|Hn] [H1 H2]; [contradiction|lia].
  - rewrite Hp. apply validateFile_spec.
  - rewrite He, Herr. split.
    + intros Hn. destruct (validateFile f) as [msg|]; [eauto|congruence].
    + intros [msg Hm]. congruence.
Qed.

(** C7, amended: [addFiles] appends exactly one task per input file, in
    input order; the extension is the lower-cased text after the last dot
    of the name (the whole name when it has no dot), and a file's task is
    created with status [error] and an error message exactly when that
    extension is not "pdf" or the size strictly exceeds 20 * 1024 * 1024
    bytes, and with status [pending] otherwise, so that a PDF of exactly
    20 MiB passes and one of 20 MiB + 1 byte fails; a task's id is the
    clock reading, a dash and the file name, so the ids of a batch are
    pairwise distinct whenever its file names are. *)
Theorem C7_addFiles_one_validated_task_per_file
        (now : nat -> Z) (newFiles : list File) (prev : list UploadFile) :
  (exists added,
      addFiles now newFiles prev = (prev ++ added)%list /\
      map file added = newFiles /\
      length added = length newFiles /\
      (forall u, u ∈ added ->
         (task_status u = error <->
            extensionOf (name (file u)) <> ".pdf" \/
            20 * 1024 * 1024 < size (file u)) /\
         (task_status u = pending <->
            extensionOf (name (file u)) = ".pdf" /\
            size (file u) <= 20 * 1024 * 1024) /\
         (task_status u = error <-> exists msg, task_error u = Some msg)) /\
      ((forall i, 0 <= now i) ->
       NoDup (map name newFiles) -> NoDup (map id added))) /\
  (forall stem seg,
      JsStr.hasChar JsStr.dot seg = false ->
      extensionOf (stem ++ String JsStr.dot seg) = "." ++ JsStr.toLowerCase seg) /\
  (forall fileName,
      JsStr.hasChar JsStr.dot fileName = false ->
      extensionOf fileName = "." ++ JsStr.toLowerCase fileName) /\
  (forall fileName,
      extensionOf fileName = ".pdf" ->
      validateFile (mkFile fileName (20 * 1024 * 1024)) = None /\
      validateFile (mkFile fileName (20 * 1024 * 1024 + 1))
      = Some "File too large. Maximum size is 20MB") /\
  (extensionOf "Lease.Final.PDF" = ".pdf" /\
   validateFile (mkFile "notes.txt" 1)
   = Some "Unsupported format. Please use .pdf").
Proof.
  split; [|split; [|split; [|split]]].
  - exists (imap (fun i f => newTask (now i) f) newFiles).
    split; [reflexivity|].
    destruct (addFiles_files newFiles now []) as [Hf Hl].
    unfold addFiles in Hf, Hl. simpl in Hf, Hl.
    split; [exact Hf|]. split; [exact Hl|]. split.
    + intros u Hu. apply elem_of_lookup_imap in Hu as (i & f & -> & _).
      destruct (newTask_spec (now i) f) as (H1 & H2 & H3 & H4 & _).
      rewrite H4. change (20 * 1024 * 1024) with MAX_FILE_SIZE.
      split; [exact H1 | split; [exact H2 | exact H3]].
    + apply batch_ids_distinct.
  - apply extensionOf_dotted.
  - apply extensionOf_undotted.
  - intros fileName Hext. unfold validateFile. simpl name. rewrite Hext.
    split; reflexivity.
  - split; reflexivity.
Qed.

(** C7 at a batch of two files with different names, mapped within one
    millisecond: their ids differ. *)
Lemma C7_addFiles_one_validated_task_per_file_witness :
  let now := fun _ : nat => 1704067200000 in
  let batch := [mkFile "lease.pdf" 2048; mkFile "nda.pdf" 4096] in
  (forall i, 0 <= now i) /\
  NoDup (map name batch) /\
  NoDup (map id (addFiles now batch [])).
Proof.
  intros now batch.
  assert (Hnow : forall i, 0 <= now i) by (intros i; subst now; simpl; lia).
  assert (Hnames : NoDup (map name batch)).
  { subst batch. simpl. repeat constructor; intros Hin;
      repeat (apply elem_of_cons in Hin as [Hin|Hin]; [discriminate|]);
      inversion Hin. }
  split; [exact Hnow|]. split; [exact Hnames|].
  destruct (C7_addFiles_one_validated_task_per_file now batch [])
    as ((added & Hadd & _ & _ & _ & Hids) & _).
  rewrite Hadd. simpl. exact (Hids Hnow Hnames).
Defined.

End EnqueueTheorems.

(** ** Fenced code in the renderer *)

Section FenceFacts.

Import RichText.

Variable Spans : Type.
Variable formatInline : string -> Spans.


Lemma prefix_app (p s : string) :
  String.prefix p s = true <-> exists rest, s = p ++ rest.
Proof.
  revert s. induction p as [|c p IH]; intros [|c' s]; simpl.
  - split; [intros _; now exists EmptyString | reflexivity].
  - split; [intros _; now exists (String c' s) | reflexivity].
  - split; [discriminate | intros [r Hr]; discriminate].
  - destruct (Ascii.ascii_dec c c') as [->|Hne].
    + rewrite IH. split; intros [r Hr]; exists r.
      * rewrite Hr. reflexivity.
      * change (String c' s = String c' (p ++ r)) in Hr. now injection Hr.
    + split; [discriminate|]. intros [r Hr].
      change (String c' s = String c (p ++ r)) in Hr. congruence.
Qed.

Lemma isFenceLine_spec (line : string) :
  isFenceLine line = true <-> exists rest, JsStr.trim line = fence ++ rest.
Proof. apply prefix_app. Qed.

Lemma scanLine_toggle (st : Scan Spans) (idx : nat) (line : string) :
  inCode (scanLine formatInline st idx line) = xorb (inCode st) (isFenceLine line).
Proof.
  unfold RichText.scanLine.
  destruct (isFenceLine line), (inCode st); simpl; try reflexivity.
  destruct (JsStr.isEmpty _); reflexivity.
Qed.

Lemma scanFrom_app (l1 l2 : list string) :
  forall idx st,
    scanFrom formatInline idx (l1 ++ l2) st
    = scanFrom formatInline (idx + length l1) l2 (scanFrom formatInline idx l1 st).
Proof.
  induction l1 as [|x l1 IH]; intros idx st; simpl.
  - now rewrite Nat.add_0_r.
  - rewrite IH. f_equal. lia.
Qed.

Lemma scanLine_flushed st idx line : flushed st -> flushed (scanLine formatInline st idx line).
Proof.
  unfold flushed, RichText.scanLine. intros Hst.
  destruct (isFenceLine line), (inCode st); simpl; try discriminate; auto.
  destruct (JsStr.isEmpty _); simpl; auto.
Qed.

Lemma scanFrom_flushed (lines : list string) :
  forall idx st, flushed st -> flushed (scanFrom formatInline idx lines st).
Proof.
  induction lines as [|l lines IH]; intros idx st Hst; simpl; [assumption|].
  apply IH, scanLine_flushed, Hst.
Qed.

(** Inside code, lines that are no fence are buffered as they are. *)
Lemma scan_body (body : list string) :
  forall idx st,
    inCode st = true ->
    Forall notFence body ->
    scanFrom formatInline idx body st
    = mkScan (elements st) (codeBuffer st ++ body) true
             (consecutiveEmptyLines st).
Proof.
  induction body as [|line body IH]; intros idx [els buf ic cel] Hin Hb;
    simpl in *.
  - subst ic. now rewrite app_nil_r.
  - subst ic. apply Forall_cons in Hb as [Hl Hb]. unfold notFence in Hl.
    unfold RichText.scanLine. rewrite Hl. simpl.
    rewrite IH by (simpl; auto). simpl. now rewrite <- app_assoc.
Qed.

Lemma scan_open st idx line :
  inCode st = false -> isFenceLine line = true ->
  scanLine formatInline st idx line
  = mkScan (elements st) (codeBuffer st) true (consecutiveEmptyLines st).
Proof. intros Hc Hf. unfold RichText.scanLine. now rewrite Hf, Hc. Qed.

Lemma scan_close st idx line :
  inCode st = true -> isFenceLine line = true ->
  scanLine formatInline st idx line
  = mkScan (elements st ++ codeBlock (KLine idx) (codeBuffer st)) [] false
           (consecutiveEmptyLines st).
Proof.
  intros Hc Hf. unfold RichText.scanLine. rewrite Hf, Hc.
  unfold push, flushCode, codeBlock.
  destruct (codeBuffer st); [now rewrite app_nil_r | reflexivity].
Qed.

Lemma fenced_span (st : Scan Spans) (idx : nat) (open close : string)
      (body : list string) :
  inCode st = false -> codeBuffer st = [] ->
  isFenceLine open = true -> isFenceLine close = true ->
  Forall notFence body ->
  scanFrom formatInline idx (open :: body ++ [close]) st
  = mkScan (elements st ++ codeBlock (KLine (idx + 1 + length body)) body)
           [] false (consecutiveEmptyLines st).
Proof.
  intros Hc Hb Ho Hcl Hbody. simpl.
  rewrite scan_open by assumption. rewrite scanFrom_app.
  rewrite (scan_body body); [|reflexivity|assumption]. simpl.
  rewrite scan_close; [|reflexivity|assumption]. simpl. rewrite Hb. simpl.
  replace (S (idx + length body)) with (idx + 1 + length body)%nat by lia.
  reflexivity.
Qed.

Lemma unterminated_span (st : Scan Spans) (idx : nat) (open : string)
      (body : list string) :
  inCode st = false -> codeBuffer st = [] ->
  isFenceLine open = true ->
  Forall notFence body ->
  finish (scanFrom formatInline idx (open :: body) st)
  = (elements st ++ codeBlock KCodeFinal body)%list.
Proof.
  intros Hc Hb Ho Hbody. simpl.
  rewrite scan_open by assumption.
  rewrite scan_body; [|reflexivity|assumption]. simpl. rewrite Hb. simpl.
  unfold RichText.finish, push, flushCode, codeBlock. simpl.
  destruct body; simpl; [now rewrite app_nil_r | reflexivity].
Qed.

End FenceFacts.

Section FenceTheorems.

Import RichText.

(** C9, as stated, fails on what counts as a fence: a line whose trimmed
    content only starts with three backticks, such as an opening fence
    with a language tag, toggles the fence as well. *)
Lemma C9_fence_with_language_tag_toggles :
  isFenceLine "```js" = true /\
  JsStr.trim "```js" <> fence /\
  inCode (scanLine (fun s => s) initialScan 0 "```js") = true /\
  renderLines (fun s => s) ["```js"; "let x = 1;"; "``` end"]
  = [(KLine 2, Pre "let x = 1;")].
Proof. repeat split. discriminate. Qed.

(** C9, amended: a line toggles the fence exactly when its trimmed
    content starts with three backticks; the lines between an opening and
    a closing fence are buffered as they are and, when there is at least
    one, emitted joined by line feeds as a single code block at the
    closing fence, keyed by that line, leaving the buffer empty; and after
    an opening fence that is never closed, the buffered lines are flushed
    as a code block at the end of the input. *)
Theorem C9_fenced_code_blocks (Spans : Type) (formatInline : string -> Spans) :
  (forall (st : Scan Spans) idx line,
      inCode (scanLine formatInline st idx line)
      = xorb (inCode st) (isFenceLine line)) /\
  (forall line,
      isFenceLine line = true <->
      exists rest, JsStr.trim line = fence ++ rest) /\
  (forall pre open body close,
      let before := scanFrom formatInline 0 pre initialScan in
      inCode before = false ->
      isFenceLine open = true -> isFenceLine close = true ->
      Forall notFence body ->
      scanFrom formatInline 0 (pre ++ open :: body ++ [close]) initialScan
      = mkScan (elements before
                  ++ codeBlock (KLine (length pre + 1 + length body)) body)
               [] false (consecutiveEmptyLines before)) /\
  (forall pre open body,
      let before := scanFrom formatInline 0 pre initialScan in
      inCode before = false ->
      isFenceLine open = true ->
      Forall notFence body ->
      renderLines formatInline (pre ++ open :: body)
      = (elements before ++ codeBlock KCodeFinal body)%list) /\
  (forall key line lines,
      @codeBlock Spans key (line :: lines)
      = [(key, Pre (JsStr.join newline (line :: lines)))]) /\
  (forall key, @codeBlock Spans key [] = []).
Proof.
  assert (Hinit : forall pre,
             flushed (scanFrom formatInline 0 pre (@initialScan Spans))).
  { intros pre. apply scanFrom_flushed. intros _. reflexivity. }
  split; [|split; [|split; [|split; [|split]]]].
  - apply scanLine_toggle.
  - apply isFenceLine_spec.
  - intros pre open body close before Hout Ho Hc Hbody.
    rewrite scanFrom_app. simpl Nat.add.
    apply fenced_span; try assumption. now apply Hinit.
  - intros pre open body before Hout Ho Hbody.
    unfold renderLines. rewrite scanFrom_app.
    apply unterminated_span; try assumption. now apply Hinit.
  - reflexivity.
  - reflexivity.
Qed.

(** C9 at a heading followed by a fence that is never closed. *)
Lemma C9_fenced_code_blocks_witness :
  inCode (scanFrom (fun s => s) 0 ["## Clause"] initialScan) = false /\
  isFenceLine "```" = true /\
  Forall notFence ["a = 1"; "  b = 2"] /\
  renderLines (fun s => s) (["## Clause"] ++ "```" :: ["a = 1"; "  b = 2"])
  = [(KLine 0, H2 "Clause");
     (KCodeFinal, Pre (JsStr.join newline ["a = 1"; "  b = 2"]))].
Proof.
  assert (Hb : Forall notFence ["a = 1"; "  b = 2"]).
  { repeat constructor. }
  split; [reflexivity|]. split; [reflexivity|]. split; [exact Hb|].
  destruct (C9_fenced_code_blocks string (fun s => s))
    as (_ & _ & _ & Hopen & _).
  apply (Hopen ["## Clause"] "```" ["a = 1"; "  b = 2"]);
    [reflexivity | reflexivity | exact Hb].
Defined.

End FenceTheorems.

(** * Further properties *)

(** ** Dashboard statistics and risk display *)

Section DashboardFacts.

Import Risk Dashboard.

Lemma count_filter_le {A} (p : A -> bool) (l : list A) :
  0 <= count (List.filter p l) <= count l.
Proof.
  unfold count. split; [lia|].
  apply inj_le. induction l as [|x l IH]; simpl; [lia|].
  destruct (p x); simpl; lia.
Qed.

Lemma count_filter_split {A} (p : A -> bool) (l : list A) :
  count l = count (List.filter p l) + count (List.filter (fun x => negb (p x)) l).
Proof.
  unfold count. induction l as [|x l IH]; simpl; [reflexivity|].
  destruct (p x); simpl; lia.
Qed.

Lemma count_filter_disjoint {A} (p q : A -> bool) (l : list A) :
  (forall x, p x = true -> q x = false) ->
  count (List.filter p l) + count (List.filter q l) <= count l.
Proof.
  intros Hd. unfold count. induction l as [|x l IH]; simpl; [lia|].
  destruct (p x) eqn:Hp; simpl.
  - rewrite (Hd x Hp). simpl. lia.
  - destruct (q x); simpl; lia.
Qed.

Lemma count_filter_union {A} (p q r : A -> bool) (l : list A) :
  (forall x, p x = q x || r x /\ q x && r x = false) ->
  count (List.filter p l) = count (List.filter q l) + count (List.filter r l).
Proof.
  intros H. unfold count. induction l as [|x l IH]; simpl; [reflexivity|].
  destruct (H x) as [Hp Hd]. rewrite Hp.
  destruct (q x), (r x); simpl in *; try discriminate; lia.
Qed.

Lemma filter_ext_bool {A} (f g : A -> bool) (l : list A) :
  (forall x, f x = g x) -> List.filter f l = List.filter g l.
Proof.
  intros H. induction l as [|x l IH]; simpl; [reflexivity|].
  now rewrite H, IH.
Qed.

(** X1: the dashboard counters partition the documents: every document is
    either still analysing or completed, and among the completed ones the
    high-risk and the safe ones are disjoint. *)
Theorem X1_dashboard_counts_partition (docs : list DocumentSummary) :
  let s := getDashboardStats docs in
  totalDocuments s = analyzingCount s + countIf isCompleted docs /\
  0 <= highRiskCount s /\ 0 <= safeCount s /\ 0 <= analyzingCount s /\
  highRiskCount s + safeCount s <= totalDocuments s - analyzingCount s /\
  highRiskCount s + safeCount s + analyzingCount s <= totalDocuments s.
Proof.
  simpl. unfold countIf.
  pose proof (count_filter_split isCompleted docs) as Hs.
  pose proof (count_filter_disjoint isHighRisk isSafe (List.filter isCompleted docs))
    as Hd.
  pose proof (count_filter_le isHighRisk (List.filter isCompleted docs)).
  pose proof (count_filter_le isSafe (List.filter isCompleted docs)).
  pose proof (count_filter_le (fun d => negb (isCompleted d)) docs).
  assert (Hdis : forall d, isHighRisk d = true -> isSafe d = false).
  { intros d. unfold isHighRisk, isSafe. lia. }
  specialize (Hd Hdis). lia.
Qed.

Lemma fold_add_shift (f : DocumentSummary -> Z) (l : list DocumentSummary) :
  forall a, fold_left (fun acc d => acc + f d) l a
            = a + fold_left (fun acc d => acc + f d) l 0.
Proof.
  induction l as [|d l IH]; intros a; simpl; [lia|].
  rewrite (IH (a + f d)), (IH (0 + f d)). lia.
Qed.

Lemma safe_total (l : list DocumentSummary) :
  fold_left (fun acc d => acc + (100 - scoreOf d)) l 0
  = 100 * count l - sumScores l.
Proof.
  unfold sumScores, count. induction l as [|d l IH]; [reflexivity|].
  cbn [fold_left length].
  rewrite (fold_add_shift (fun d => 100 - scoreOf d)),
          (fold_add_shift scoreOf), IH. lia.
Qed.

Lemma sumScores_bounds (l : list DocumentSummary) :
  Forall (fun d => 0 <= scoreOf d <= 100) l ->
  0 <= sumScores l <= 100 * count l.
Proof.
  unfold sumScores, count. induction 1 as [|d l Hd Hl IH]; [simpl; lia|].
  cbn [fold_left length]. rewrite (fold_add_shift scoreOf). lia.
Qed.

Lemma roundDiv_complement (a n : Z) :
  0 < n ->
  roundDiv a n + roundDiv (100 * n - a) n
  = if (2 * a + n) mod (2 * n) =? 0 then 101 else 100.
Proof.
  intros Hn. unfold roundDiv.
  pose proof (Z.div_mod (2 * a + n) (2 * n) ltac:(lia)) as Hdm.
  pose proof (Z.mod_pos_bound (2 * a + n) (2 * n) ltac:(lia)) as Hb.
  set (q := (2 * a + n) / (2 * n)) in *.
  set (r := (2 * a + n) mod (2 * n)) in *.
  destruct (Z.eqb_spec r 0) as [Hr|Hr].
  - assert (E : (2 * (100 * n - a) + n) / (2 * n) = 101 - q).
    { symmetry. apply (Z.div_unique _ _ _ 0); lia. }
    rewrite E. lia.
  - assert (E : (2 * (100 * n - a) + n) / (2 * n) = 100 - q).
    { symmetry. apply (Z.div_unique _ _ _ (2 * n - r)); lia. }
    rewrite E. lia.
Qed.

Lemma roundDiv_bounds (a n : Z) :
  0 < n -> 0 <= a <= 100 * n -> 0 <= roundDiv a n <= 100.
Proof.
  intros Hn Ha. unfold roundDiv. split.
  - apply Z.div_pos; lia.
  - assert ((2 * a + n) / (2 * n) < 101); [|lia].
    apply Z.div_lt_upper_bound; lia.
Qed.

(** X2: when every completed document has a score between 0 and 100 (the
    sums are then exact in the code's arithmetic): with no completed
    document both averages are 0; otherwise the average risk is the mean
    score rounded half upwards, and the average risk and the average
    safety add up to 100, or to 101 when the mean score falls exactly on
    a half (both are then rounded upwards). *)
Theorem X2_dashboard_averages_sum (docs : list DocumentSummary) :
  Forall (fun d => 0 <= scoreOf d <= 100) (List.filter isCompleted docs) ->
  let s := getDashboardStats docs in
  let completed := List.filter isCompleted docs in
  (completed = [] ->
   averageRiskPercentage s = 0 /\ averageSafePercentage s = 0) /\
  (completed <> [] ->
   averageRiskPercentage s = roundDiv (sumScores completed) (count completed) /\
   averageRiskPercentage s + averageSafePercentage s
   = if (2 * sumScores completed + count completed)
          mod (2 * count completed) =? 0
     then 101 else 100).
Proof.
  intros _ s completed. subst s. unfold getDashboardStats. cbn [averageRiskPercentage averageSafePercentage].
  fold completed. split.
  - intros ->. split; reflexivity.
  - intros Hne.
    assert (Hpos : 0 < count completed).
    { unfold count. destruct completed; [congruence|simpl; lia]. }
    destruct (Z.gtb_spec (count completed) 0) as [_|Hle]; [|lia].
    rewrite safe_total. fold (sumScores completed).
    split; [reflexivity|]. now apply roundDiv_complement.
Qed.

(** X2 at two completed documents with scores 35 and 36: the mean 35.5 is
    on a half, the averages are 36 and 65. *)
Lemma X2_dashboard_averages_sum_witness :
  let docs := [mkDoc "d1" "completed" (Some 35); mkDoc "d2" "completed" (Some 36);
               mkDoc "d3" "processing" None] in
  Forall (fun d => 0 <= scoreOf d <= 100) (List.filter isCompleted docs) /\
  List.filter isCompleted docs <> [] /\
  averageRiskPercentage (getDashboardStats docs) = 36 /\
  averageRiskPercentage (getDashboardStats docs)
  + averageSafePercentage (getDashboardStats docs) = 101.
Proof.
  intros docs.
  assert (H : Forall (fun d => 0 <= scoreOf d <= 100) (List.filter isCompleted docs)).
  { subst docs. simpl.
    constructor; [compute; split; discriminate|].
    constructor; [compute; split; discriminate|]. constructor. }
  assert (Hne : List.filter isCompleted docs <> []).
  { subst docs. simpl. discriminate. }
  split; [exact H|]. split; [exact Hne|].
  destruct (X2_dashboard_averages_sum docs H) as [_ Hsum].
  destruct (Hsum Hne) as [Havg Htot].
  split; [exact Havg|exact Htot].
Defined.

(** X3: when every completed document has a score between 0 and 100, both
    dashboard averages lie between 0 and 100. *)
Theorem X3_dashboard_averages_bounded (docs : list DocumentSummary) :
  Forall (fun d => 0 <= scoreOf d <= 100) (List.filter isCompleted docs) ->
  let s := getDashboardStats docs in
  0 <= averageRiskPercentage s <= 100 /\
  0 <= averageSafePercentage s <= 100.
Proof.
  intros Hall s. subst s. unfold getDashboardStats.
  cbn [averageRiskPercentage averageSafePercentage].
  set (completed := List.filter isCompleted docs) in *.
  pose proof (sumScores_bounds completed Hall) as Hsum.
  destruct (Z.gtb_spec (count completed) 0) as [Hpos|Hle]; [|lia].
  rewrite safe_total. fold (sumScores completed).
  split; apply roundDiv_bounds; lia.
Qed.

Lemma X3_dashboard_averages_bounded_witness :
  let docs := [mkDoc "d1" "completed" (Some 35); mkDoc "d2" "completed" (Some 80);
               mkDoc "d3" "processing" None] in
  Forall (fun d => 0 <= scoreOf d <= 100) (List.filter isCompleted docs) /\
  0 <= averageRiskPercentage (getDashboardStats docs) <= 100.
Proof.
  intros docs.
  assert (H : Forall (fun d => 0 <= scoreOf d <= 100) (List.filter isCompleted docs)).
  { subst docs. simpl.
    constructor; [compute; split; discriminate|].
    constructor; [compute; split; discriminate|]. constructor. }
  split; [exact H|]. exact (proj1 (X3_dashboard_averages_bounded docs H)).
Defined.

(** X4: the status on a dashboard card agrees with the counters: the cards
    marked high-risk are exactly the documents counted as high-risk and the
    cards marked safe exactly those counted as safe; a completed document
    of medium risk is shown as analysing although the analysing counter
    leaves it out. *)
Theorem X4_card_status_agrees_with_counters (docs : list DocumentSummary) :
  let s := getDashboardStats docs in
  highRiskCount s = countIf (fun d => String.eqb (mapStatus d) "high-risk") docs /\
  safeCount s = countIf (fun d => String.eqb (mapStatus d) "safe") docs /\
  countIf (fun d => String.eqb (mapStatus d) "analyzing") docs
  = analyzingCount s
    + countIf (fun d => isCompleted d && (40 <=? scoreOf d) && (scoreOf d <=? 70)) docs.
Proof.
  simpl. unfold countIf. rewrite !filter_filter_andb.
  assert (Hm : forall d,
             mapStatus d =
             if negb (isCompleted d) then "analyzing"
             else if scoreOf d >? 70 then "high-risk"
             else if scoreOf d <? 40 then "safe" else "analyzing")
    by reflexivity.
  split; [|split].
  - f_equal. apply filter_ext_bool. intros d. rewrite Hm. unfold isHighRisk.
    destruct (isCompleted d), (scoreOf d >? 70), (scoreOf d <? 40); reflexivity.
  - f_equal. apply filter_ext_bool. intros d. rewrite Hm. unfold isSafe.
    destruct (isCompleted d); simpl; [|reflexivity].
    destruct (Z.gtb_spec (scoreOf d) 70), (Z.ltb_spec (scoreOf d) 40);
      simpl; try reflexivity; lia.
  - apply count_filter_union. intros d. rewrite Hm.
    destruct (isCompleted d); cbn [negb andb]; [|repeat split].
    destruct (Z.gtb_spec (scoreOf d) 70), (Z.ltb_spec (scoreOf d) 40),
      (Z.leb_spec 40 (scoreOf d)), (Z.leb_spec (scoreOf d) 70);
      try lia; repeat split.
Qed.

(** X5: the colour of the risk badge in the chat header follows the tier
    of the summary label: red exactly for "high", yellow exactly for
    "medium", green exactly for "low"; without a score the badge is muted. *)
Theorem X5_badge_colour_follows_tier (score : Z) :
  (riskBadgeColor (Some score) = "bg-red-500/10 text-red-500 border-red-500/40"
   <-> riskLevel score = "high") /\
  (riskBadgeColor (Some score)
   = "bg-yellow-500/10 text-yellow-500 border-yellow-500/40"
   <-> riskLevel score = "medium") /\
  (riskBadgeColor (Some score)
   = "bg-emerald-500/10 text-emerald-500 border-emerald-500/40"
   <-> riskLevel score = "low") /\
  riskBadgeColor None = "bg-muted text-muted-foreground".
Proof.
  unfold riskBadgeColor, riskLevel.
  destruct (score >? 70), (score >=? 40);
    repeat split; intros E; try discriminate E; reflexivity.
Qed.

End DashboardFacts.

(** ** Stored chat history *)

Section HistoryFacts.

Import Backend History.

Variable API_BASE_URL : string.
Variable getSession : Result (option string).
Variable fetch : Request -> FetchOutcome.

Lemma projectEntry_readable (m : JVal) :
  isNullish m = false -> projectEntry m = Ok (entryOf m).
Proof. destruct m; simpl; intros H; try discriminate; reflexivity. Qed.

Lemma projectEntry_nullish (m : JVal) :
  isNullish m = true -> exists e, projectEntry m = Throw e.
Proof. destruct m; simpl; intros H; try discriminate; eauto. Qed.

Lemma mapR_projectEntry (items : list JVal) :
  (Forall (fun m => isNullish m = false) items ->
   mapR projectEntry items = Ok (map entryOf items)) /\
  (forall out, mapR projectEntry items = Ok out ->
               Forall (fun m => isNullish m = false) items /\
               out = map entryOf items).
Proof.
  induction items as [|m items [IH1 IH2]]; simpl.
  - split; [reflexivity|]. intros out H. injection H as <-. auto.
  - split.
    + intros H. apply Forall_cons in H as [Hm Hi].
      rewrite (projectEntry_readable m Hm). simpl.
      unfold mbind, Result_bind. now rewrite (IH1 Hi).
    + intros out H. destruct (isNullish m) eqn:Hm.
      * destruct (projectEntry_nullish m Hm) as [e He].
        rewrite He in H. discriminate.
      * rewrite (projectEntry_readable m Hm) in H. simpl in H.
        unfold mbind, Result_bind in H.
        destruct (mapR projectEntry items) as [ys|e]; [|discriminate].
        destruct (IH2 ys eq_refl) as [Hall ->]. injection H as <-.
        split; [constructor; assumption|reflexivity].
Qed.

(** X6: [getChatHistory] answers exactly when the service responds ok with
    a body whose [messages] is an array without null entries, and then with
    one [{role, content}] object per stored entry, in order, leaving out
    every other stored field; a non-ok response whose body has an [error]
    string is rejected with that string as message. *)
Theorem X6_getChatHistory_projects_entries (userId documentId : string) :
  let rq := historyRequest API_BASE_URL getSession userId documentId in
  let result := getChatHistory API_BASE_URL getSession fetch userId documentId in
  (forall r fields items,
      fetch rq = Responded r -> ok r = true -> json r = Ok (JObj fields) ->
      Js.assoc "messages" fields = JArr items ->
      Forall (fun m => isNullish m = false) items ->
      result = Ok (map entryOf items)) /\
  (forall out,
      result = Ok out ->
      exists r data items,
        fetch rq = Responded r /\ ok r = true /\ json r = Ok data /\
        Js.getPropOpt data "messages" = JArr items /\
        Forall (fun m => isNullish m = false) items /\
        out = map entryOf items) /\
  (forall r data s,
      fetch rq = Responded r -> ok r = false -> json r = Ok data ->
      Js.getPropOpt data "error" = JStr s ->
      result = Throw (mkError s)) /\
  (forall e, fetch rq = Rejected e -> result = Throw e).
Proof.
  intros rq result. subst result. unfold getChatHistory, doFetch. fold rq.
  split; [|split; [|split]].
  - intros r fields items Hf Hok Hj Hm Hall. rewrite Hf. simpl.
    unfold mbind, Result_bind, handleResponse. rewrite Hok, Hj. simpl.
    rewrite Hm. now apply mapR_projectEntry.
  - intros out. destruct (fetch rq) as [e|r] eqn:Hf; simpl; [discriminate|].
    unfold mbind, Result_bind, handleResponse.
    destruct (ok r) eqn:Hok; simpl; [|discriminate].
    destruct (json r) as [data|e] eqn:Hj; [|discriminate].
    destruct data as [| |b|n|s|its|fields]; simpl; try discriminate.
    destruct (Js.assoc "messages" fields) as [| |b|n|s|items|fs] eqn:Hm;
      try discriminate.
    intros H. apply mapR_projectEntry in H as [Hall ->].
    exists r, (JObj fields), items. repeat split; assumption.
  - intros r data s Hf Hok Hj He. rewrite Hf. simpl.
    unfold mbind, Result_bind, handleResponse. rewrite Hok, Hj. simpl.
    now rewrite He.
  - intros e Hf. now rewrite Hf.
Qed.

End HistoryFacts.

(** X6 at a service that stores an [id] beside each turn. *)
Lemma X6_getChatHistory_projects_entries_witness :
  let stored := JObj [("id", JNum 7); ("role", JStr "user");
                      ("content", JStr "Is the cap mutual?")] in
  let fetch := fun _ : Backend.Request =>
    Backend.Responded
      (Backend.mkResponse true 200 (Ok (JObj [("messages", JArr [stored])]))) in
  History.getChatHistory "http://localhost:8000" (Ok None) fetch "user-1" "doc-1"
  = Ok [JObj [("role", JStr "user"); ("content", JStr "Is the cap mutual?")]].
Proof.
  intros stored fetch.
  destruct (X6_getChatHistory_projects_entries
              "http://localhost:8000" (Ok None) fetch "user-1" "doc-1")
    as (Hok & _).
  apply (Hok (Backend.mkResponse true 200 (Ok (JObj [("messages", JArr [stored])])))
             [("messages", JArr [stored])] [stored]); try reflexivity.
  constructor; [reflexivity|constructor].
Defined.

(** ** Loading and persisting the transcript *)

Section TranscriptFacts.

Import Chat.



Lemma imap_Forall {A B} (P : B -> Prop) (l : list A) :
  forall f : nat -> A -> B,
    (forall i x, In x l -> P (f i x)) -> Forall P (imap f l).
Proof.
  induction l as [|x l IH]; intros f Hf; simpl; constructor.
  - apply Hf. now left.
  - apply IH. intros i y Hy. apply Hf. now right.
Qed.

Lemma convertHistory_persistable documentId now h :
  Forall (fun m => persistable m = true) (convertHistory documentId now h).
Proof.
  unfold convertHistory. apply imap_Forall. intros i x Hx.
  apply filter_In in Hx as [_ Hx]. unfold persistable. simpl. exact Hx.
Qed.

Lemma convertLocal_persistable documentId parsed :
  Forall (fun m => persistable m = true) (convertLocal documentId parsed).
Proof.
  unfold convertLocal. apply imap_Forall. intros i x Hx.
  apply filter_In in Hx as [_ Hx]. exact Hx.
Qed.





Variable documentId : string.
Variable userId : option string.
Variable getChatHistory : string -> string -> Result (list ChatHistoryItem).
Variable localStorage_getItem : string -> option string.
Variable parseMessages : string -> Result (list Message).
Variable now : nat -> string.

(** X7: when any of the three bootstrap fetches is rejected, [load] shows
    exactly one destructive error notification and nothing of the bootstrap:
    the transcript, the document name, the score, the clause counts and the
    suggestions stay as they were, and loading ends. *)
Theorem X7_load_failure_shows_no_partial_state
        (details : Result DocumentDetails) (report : Result string)
        (suggestions : Result (list string)) (st : ChatState) :
  (exists e, details = Throw e) \/ (exists e, report = Throw e) \/
  (exists e, suggestions = Throw e) ->
  let st' := load documentId details report suggestions userId getChatHistory
                  localStorage_getItem parseMessages now st in
  (exists t, toasts st' = (toasts st ++ [t])%list /\
             title t = "Error" /\ destructive t = true) /\
  messages st' = messages st /\
  documentName st' = documentName st /\
  riskScore st' = riskScore st /\
  riskyClauses st' = riskyClauses st /\
  totalChunks st' = totalChunks st /\
  suggestedQuestions st' = suggestedQuestions st /\
  loadingInitial st' = false.
Proof.
  intros H st'. subst st'. unfold load, bootstrap.
  destruct details as [d|e1]; [destruct report as [r|e2];
    [destruct suggestions as [s|e3]|]|]; simpl.
  - destruct H as [[e H]|[[e H]|[e H]]]; discriminate.
  - repeat split; eexists; repeat split.
  - repeat split; eexists; repeat split.
  - repeat split; eexists; repeat split.
Qed.

(** X8: when the three bootstrap fetches are fulfilled, [load] shows no
    notification whatever the history store and the local cache do, stores
    the document's name, score and suggestions, ends loading, and leaves a
    transcript that is either untouched or the two synthetic messages
    followed by messages none of which is a report or carries the summary
    marker. *)
Theorem X8_load_success_is_silent_and_filtered
        (details : DocumentDetails) (report : string)
        (suggestions : list string) (st : ChatState) :
  let st' := load documentId (Ok details) (Ok report) (Ok suggestions) userId
                  getChatHistory localStorage_getItem parseMessages now st in
  toasts st' = toasts st /\
  loadingInitial st' = false /\
  documentName st' = file_name details /\
  riskScore st' = Some (risk_score details) /\
  suggestedQuestions st' = suggestions /\
  (messages st' = messages st \/
   exists tail,
     messages st' = (baseMessages documentId now details report ++ tail)%list /\
     Forall (fun m => persistable m = true) tail).
Proof.
  intros st'. subst st'. unfold load, bootstrap, loadHistory. simpl.
  destruct (truthyId userId) as [uid|]; [|repeat split; now left].
  destruct (getChatHistory uid documentId) as [h|e].
  - destruct (0 <? length h)%nat; simpl; [|repeat split; now left].
    repeat split. right. eexists. split; [reflexivity|].
    apply convertHistory_persistable.
  - unfold loadFallback.
    destruct (localStorage_getItem _) as [stored|]; simpl.
    + destruct (JsStr.isEmpty stored); simpl.
      * repeat split. right. exists []. split; [reflexivity|constructor].
      * destruct (parseMessages stored) as [parsed|e']; simpl.
        -- repeat split. right. eexists. split; [reflexivity|].
           apply convertLocal_persistable.
        -- repeat split. right. exists []. split; [reflexivity|constructor].
    + repeat split. right. exists []. split; [reflexivity|constructor].
Qed.


End TranscriptFacts.

(** X7 at a report fetch that is rejected. *)
Lemma X7_load_failure_shows_no_partial_state_witness :
  let st' :=
    Chat.load "doc-1" (Ok Chat.sampleDetails) (Throw (mkError "Report not found"))
              (Ok []) None (fun _ _ => Ok []) (fun _ => None) (fun _ => Ok [])
              (fun _ => "t") Chat.initialState in
  ((exists e, Ok Chat.sampleDetails = Throw e) \/
   (exists e, @Throw string (mkError "Report not found") = Throw e) \/
   (exists e, @Ok (list string) [] = Throw e)) /\
  Chat.messages st' = [] /\ Chat.documentName st' = EmptyString.
Proof.
  intros st'.
  assert (H : (exists e, Ok Chat.sampleDetails = Throw e) \/
              (exists e, @Throw string (mkError "Report not found") = Throw e) \/
              (exists e, @Ok (list string) [] = Throw e)).
  { right. left. eexists. reflexivity. }
  split; [exact H|].
  destruct (X7_load_failure_shows_no_partial_state
              "doc-1" None (fun _ _ => Ok []) (fun _ => None) (fun _ => Ok [])
              (fun _ => "t") (Ok Chat.sampleDetails)
              (Throw (mkError "Report not found")) (Ok []) Chat.initialState H)
    as (_ & Hm & Hn & _).
  split; [exact Hm | exact Hn].
Defined.


(** ** When nothing is persisted *)

Section SaveGuardFacts.

Import Chat.

(** X10: without a document id, without a signed-in user, or with a
    transcript of at most two messages, the persistence effect arms no
    timer and no sequence of later events makes it write to either store. *)
Theorem X10_guarded_effect_never_writes
        (documentId userId : option string) (messages : list Message)
        (evs : list SaveEvent) :
  truthyId documentId = None \/ truthyId userId = None \/
  (length messages <= 2)%nat ->
  saveEffect documentId userId messages = mkSave Skipped [] /\
  writes (log (saveRun documentId userId messages evs)) = [].
Proof.
  intros H.
  assert (E : saveEffect documentId userId messages = mkSave Skipped []).
  { unfold saveEffect.
    destruct (truthyId documentId) as [d|], (truthyId userId) as [u|];
      try reflexivity.
    destruct H as [H|[H|H]]; try discriminate.
    destruct (Nat.leb_spec (length messages) 2); [reflexivity|lia]. }
  split; [exact E|]. unfold saveRun. rewrite idle_stays; rewrite E; reflexivity.
Qed.

Lemma X10_guarded_effect_never_writes_witness :
  (truthyId (Some "doc-1") = None \/ truthyId None = None \/
   (length sampleTranscript <= 2)%nat) /\
  writes (log (saveRun (Some "doc-1") None sampleTranscript
                       [TimerFires; PrimarySettles false])) = [].
Proof.
  assert (H : truthyId (Some "doc-1") = None \/ truthyId None = None \/
              (length sampleTranscript <= 2)%nat).
  { right. left. reflexivity. }
  split; [exact H|].
  exact (proj2 (X10_guarded_effect_never_writes
                  (Some "doc-1") None sampleTranscript
                  [TimerFires; PrimarySettles false] H)).
Defined.

End SaveGuardFacts.

(** ** Sending a turn *)

Section SendFacts.

Import Chat Conversation.

Variable documentId : option string.
Variable nowMs : nat -> Z.
Variable nowIso : string.
Variable reply : Outgoing -> Result ChatResponse.

Lemma every_role_passes (l : list Message) :
  List.filter (fun m => role_eqb (role m) user || role_eqb (role m) assistant) l = l.
Proof.
  induction l as [|m l IH]; simpl; [reflexivity|].
  rewrite IH. now destruct (role m).
Qed.

(** X11: [sendMessage] does nothing for a blank text or while a send is in
    flight; otherwise it sends exactly one request and appends the user's
    trimmed turn, followed by one assistant turn with the service's text and
    timestamp if the service answers; if the request fails the user's turn
    stays, one destructive notification carries the error's message and no
    assistant turn is added. In both cases the input is cleared and the
    in-flight flag is down. *)
Theorem X11_sendMessage_outcomes (text : string) (st : Composer) :
  let st' := sendMessage documentId nowMs nowIso reply text st in
  let turn := userTurn nowMs nowIso text in
  let request := outgoing documentId (transcript st) turn in
  (JsStr.isEmpty (JsStr.trim text) = true \/ isLoading st = true -> st' = st) /\
  (JsStr.isEmpty (JsStr.trim text) = false -> isLoading st = false ->
   sent st' = (sent st ++ [request])%list /\
   input st' = EmptyString /\ isLoading st' = false /\
   role turn = user /\ content turn = JsStr.trim text /\
   (forall r, reply request = Ok r ->
      transcript st'
      = (transcript st ++ [turn; assistantTurn nowMs r])%list /\
      content (assistantTurn nowMs r) = response r /\
      timestamp (assistantTurn nowMs r) = response_timestamp r /\
      notices st' = notices st) /\
   (forall e, reply request = Throw e ->
      transcript st' = (transcript st ++ [turn])%list /\
      notices st' = (notices st ++ [mkToast "Error" (message e) true])%list)).
Proof.
  intros st' turn request. subst st'. unfold sendMessage. split.
  - intros [H|H]; rewrite H; [reflexivity|].
    now rewrite orb_true_r.
  - intros Ht Hl. subst turn request. rewrite Ht, Hl. cbn [orb]. cbv zeta.
    destruct (reply _) as [r|e]; cbn [sent input isLoading transcript notices].
    + do 5 (split; [reflexivity|]). split.
      * intros r' Hr. injection Hr as <-. repeat split.
      * intros e Hr. discriminate Hr.
    + do 5 (split; [reflexivity|]). split.
      * intros r Hr. discriminate Hr.
      * intros e' Hr. injection Hr as <-. repeat split.
Qed.

(** X12: to the document chat [sendMessage] passes every earlier message
    that is not a report, in order, followed by the new turn; to the general
    chatbot it passes every earlier message and leaves the new turn to the
    message field. *)
Theorem X12_sendMessage_history_payload (text : string) (messages : list Message) :
  let turn := userTurn nowMs nowIso text in
  (forall doc, truthyId documentId = Some doc ->
     outgoing documentId messages turn
     = ToDocument doc (JsStr.trim text)
         (map toItem (List.filter (notReport) messages)
            ++ [mkItem user (JsStr.trim text)])%list /\
     Forall (fun m => isReport m <> Some true)
            (List.filter notReport messages)) /\
  (truthyId documentId = None ->
     outgoing documentId messages turn
     = ToChatbot (JsStr.trim text) (map toItem messages)).
Proof.
  intros turn. unfold outgoing. split.
  - intros doc ->. split.
    + rewrite map_app. reflexivity.
    + apply Forall_forall. intros m Hm.
      apply list_elem_of_In, filter_In in Hm as [_ Hm].
      unfold notReport in Hm. destruct (isReport m) as [[|]|]; simpl in Hm;
        congruence.
  - intros ->. now rewrite every_role_passes.
Qed.

(** X13: a chat that was loaded for a signed-in user with an empty stored
    history starts from an empty transcript, so after the first turn, with
    or without an answer, the transcript holds at most two messages and the
    persistence effect does not arm: the first exchange is not persisted
    by itself. *)
Theorem X13_first_exchange_is_not_persisted
        (doc uid : string) (details : DocumentDetails) (report : string)
        (suggestions : list string)
        (localStorage_getItem : string -> option string)
        (parseMessages : string -> Result (list Message))
        (now : nat -> string) (text : string) :
  JsStr.isEmpty uid = false ->
  let loaded :=
    load doc (Ok details) (Ok report) (Ok suggestions) (Some uid)
         (fun _ _ => Ok []) localStorage_getItem parseMessages now initialState in
  let after :=
    sendMessage (Some doc) nowMs nowIso reply text
                (mkComposer (messages loaded) EmptyString false [] []) in
  messages loaded = [] /\
  (length (transcript after) <= 2)%nat /\
  forall evs,
    writes (log (saveRun (Some doc) (Some uid) (transcript after) evs)) = [].
Proof.
  intros Hu loaded after.
  assert (Hl : messages loaded = []).
  { subst loaded. unfold load, bootstrap, loadHistory, truthyId. simpl.
    rewrite Hu. reflexivity. }
  assert (Hlen : (length (transcript after) <= 2)%nat).
  { subst after. rewrite Hl. unfold sendMessage. simpl.
    destruct (JsStr.isEmpty (JsStr.trim text)); simpl; [lia|].
    destruct (reply _); simpl; lia. }
  split; [exact Hl|]. split; [exact Hlen|]. intros evs.
  unfold saveRun. rewrite idle_stays.
  - unfold saveEffect.
    destruct (truthyId (Some doc)), (truthyId (Some uid)); try reflexivity.
    destruct (Nat.leb_spec (length (transcript after)) 2); [reflexivity|lia].
  - unfold saveEffect.
    destruct (truthyId (Some doc)), (truthyId (Some uid)); try reflexivity.
    destruct (Nat.leb_spec (length (transcript after)) 2); [reflexivity|lia].
Qed.

End SendFacts.

(** X11 at a first question that the service answers. *)
Lemma X11_sendMessage_outcomes_witness :
  let reply := fun _ : Conversation.Outgoing =>
    Ok (Conversation.mkResponse "Clause 7 caps liability." "2024-01-01T00:00:09.000Z") in
  let st := Conversation.mkComposer [] "  Is liability capped? " false [] [] in
  let st' := Conversation.sendMessage (Some "doc-1") (fun _ => 1704067200000)
               "2024-01-01T00:00:05.000Z" reply "  Is liability capped? " st in
  JsStr.isEmpty (JsStr.trim "  Is liability capped? ") = false /\
  Conversation.isLoading st = false /\
  Conversation.input st' = EmptyString /\
  Conversation.isLoading st' = false.
Proof.
  intros reply st st'.
  split; [reflexivity|]. split; [reflexivity|].
  destruct (X11_sendMessage_outcomes (Some "doc-1") (fun _ => 1704067200000)
              "2024-01-01T00:00:05.000Z" reply "  Is liability capped? " st)
    as (_ & H).
  destruct (H eq_refl eq_refl) as (_ & Hi & Hl & _).
  split; [exact Hi | exact Hl].
Defined.

(** X13 for user [user-1] on document [doc-1]. *)
Lemma X13_first_exchange_is_not_persisted_witness :
  let reply := fun _ : Conversation.Outgoing =>
    Ok (Conversation.mkResponse "Clause 7 caps liability." "2024-01-01T00:00:09.000Z") in
  let loaded :=
    Chat.load "doc-1" (Ok Chat.sampleDetails) (Ok "REPORT") (Ok []) (Some "user-1")
              (fun _ _ => Ok []) (fun _ => None) (fun _ => Ok []) (fun _ => "t")
              Chat.initialState in
  JsStr.isEmpty "user-1" = false /\ Chat.messages loaded = [].
Proof.
  intros reply loaded. split; [reflexivity|].
  exact (proj1 (X13_first_exchange_is_not_persisted
                  (fun _ => 1704067200000) "2024-01-01T00:00:05.000Z" reply
                  "doc-1" "user-1" Chat.sampleDetails "REPORT" []
                  (fun _ => None) (fun _ => Ok []) (fun _ => "t")
                  "Is liability capped?" eq_refl)).
Defined.

(** ** More on deduplication *)

Section DedupMoreFacts.

Import Chat.

Lemma dedupFilter_fresh_identity (l : list Message) :
  forall seen,
    NoDup (map dedupKey l) ->
    (forall m, m ∈ l -> seen !! dedupKey m = None) ->
    dedupFilter seen l = l.
Proof.
  induction l as [|x l IH]; intros seen Hnd Hfresh; simpl; [reflexivity|].
  simpl in Hnd. apply NoDup_cons in Hnd as [Hx Hl].
  rewrite (Hfresh x) by left. f_equal. apply IH; [assumption|].
  intros m Hm. rewrite lookup_insert_ne; [apply Hfresh; now right|].
  intros E. apply Hx. rewrite E. apply list_elem_of_fmap. eauto.
Qed.

(** X14: deduplicating twice changes nothing more; a transcript whose
    messages all differ in role or in the first 100 characters is returned
    as it is; the first message of a transcript is always kept; and the
    result is never longer than the input. *)
Theorem X14_deduplicateMessages_idempotent (l : list Message) :
  deduplicateMessages (deduplicateMessages l) = deduplicateMessages l /\
  (NoDup (map dedupKey l) -> deduplicateMessages l = l) /\
  (forall m rest, l = m :: rest ->
                  exists kept, deduplicateMessages l = m :: kept) /\
  (length (deduplicateMessages l) <= length l)%nat.
Proof.
  assert (Hid : forall k, NoDup (map dedupKey k) -> deduplicateMessages k = k).
  { intros k Hk. unfold deduplicateMessages.
    apply dedupFilter_fresh_identity; [assumption|].
    intros m _. apply lookup_empty. }
  split; [|split; [|split]].
  - apply Hid. apply dedupFilter_NoDup.
  - apply Hid.
  - intros m rest ->. unfold deduplicateMessages. simpl.
    rewrite lookup_empty. eauto.
  - apply sublist_length, dedupFilter_sublist.
Qed.

End DedupMoreFacts.

(** ** Actions of the upload page *)

Section UploadActionFacts.

Import Upload UploadActions.

Lemma updateById_lookup target g files i f :
  files !! i = Some f ->
  updateById target g files !! i
  = Some (if String.eqb (id f) target then g f else f).
Proof.
  intros H. unfold updateById. rewrite list_lookup_fmap, H. reflexivity.
Qed.

Lemma updateById_twice target g h files :
  (forall f, id (g f) = id f) ->
  updateById target h (updateById target g files)
  = updateById target (fun f => h (g f)) files.
Proof.
  intros Hid. unfold updateById. rewrite map_map. apply map_ext. intros f.
  destruct (String.eqb (id f) target) eqn:E; [|now rewrite E].
  now rewrite Hid, E.
Qed.

(** X15: [removeFile] removes every task that carries the id, so two tasks
    of a batch that share an id go together; every other task stays, in
    order; removing again changes nothing. *)
Theorem X15_removeFile_removes_every_match (target : string) (files : list UploadFile) :
  (forall f, f ∈ removeFile target files <-> f ∈ files /\ id f <> target) /\
  sublist (removeFile target files) files /\
  removeFile target (removeFile target files) = removeFile target files /\
  length files
  = (length (removeFile target files)
     + length (List.filter (fun f => String.eqb (id f) target) files))%nat.
Proof.
  unfold removeFile. split; [|split; [|split]].
  - intros f. rewrite !list_elem_of_In, filter_In, negb_true_iff.
    destruct (String.eqb_spec (id f) target); intuition congruence.
  - induction files as [|f l IH]; simpl; [constructor|].
    destruct (negb _); [now apply sublist_skip | now apply sublist_cons].
  - induction files as [|f l IH]; simpl; [reflexivity|].
    destruct (negb (String.eqb (id f) target)) eqn:E; simpl; [|exact IH].
    now rewrite E, IH.
  - induction files as [|f l IH]; simpl; [reflexivity|].
    destruct (String.eqb (id f) target); simpl; lia.
Qed.

Variable userId : option string.
Variable uploadDocument : File -> option string -> Result UploadResponse.

(** X16: [handleUpload] submits at most one file. With no pending task it
    calls the service not at all, shows one destructive notification and
    leaves tasks and active job alone; otherwise it calls the service once,
    with the file of the first pending task, and every task whose id
    differs from that task's id stays as it is, at its position. *)
Theorem X16_handleUpload_submits_one_file (st : Uploader) :
  let st' := handleUpload userId uploadDocument st in
  (List.filter isPending (files (page st)) = [] ->
   uploads st' = uploads st /\
   files (page st') = files (page st) /\
   activeJobId (page st') = activeJobId (page st) /\
   toasts (page st')
   = (toasts (page st)
        ++ [mkToast "No files to upload" "Please add files to upload" true])%list) /\
  (forall first others,
      List.filter isPending (files (page st)) = first :: others ->
      uploads st' = (uploads st ++ [(file first, userId)])%list /\
      uploading st' = false /\
      length (files (page st')) = length (files (page st)) /\
      forall i f, files (page st) !! i = Some f -> id f <> id first ->
                  files (page st') !! i = Some f).
Proof.
  intros st'. subst st'. unfold handleUpload. split.
  - intros ->. repeat split.
  - intros first others ->. unfold uploadFileToSupabase.
    destruct (uploadDocument (file first) userId) as [r|e]; simpl;
      (split; [reflexivity|]); (split; [reflexivity|]);
      (split; [unfold updateById; now rewrite !length_map|]);
      intros i f Hf Hne;
      (rewrite updateById_twice by reflexivity);
      rewrite (updateById_lookup _ _ _ i f Hf);
      destruct (String.eqb_spec (id f) (id first)); congruence.
Qed.

(** X17: when the submission is rejected, no job becomes active, every task
    with the submitted task's id gets status [error] with the error's
    message, or "Upload failed" when it has none, and the Upload button is
    disabled as long as that task is in the list. *)
Theorem X17_failed_upload_blocks_the_button
        (st : Uploader) (first : UploadFile) (others : list UploadFile)
        (e : JsError) :
  List.filter isPending (files (page st)) = first :: others ->
  uploadDocument (file first) userId = Throw e ->
  let st' := handleUpload userId uploadDocument st in
  activeJobId (page st') = activeJobId (page st) /\
  (forall f, f ∈ files (page st') -> id f = id first ->
             task_status f = error /\
             task_error f = Some (JsStr.orElse (Some (message e)) "Upload failed")) /\
  (exists t, toasts (page st') = (toasts (page st) ++ [t])%list /\
             title t = "Upload error" /\ destructive t = true) /\
  hasErrors (files (page st')) = true /\
  uploadDisabled st' = true.
Proof.
  intros Hp He st'. subst st'. unfold handleUpload, uploadFileToSupabase.
  rewrite Hp, He. simpl.
  rewrite updateById_twice by reflexivity.
  assert (Hall : forall f,
             f ∈ updateById (id first)
                   (fun f => markFailed (JsStr.orElse (Some (message e)) "Upload failed")
                                        (markUploading f)) (files (page st)) ->
             id f = id first ->
             task_status f = error /\
             task_error f = Some (JsStr.orElse (Some (message e)) "Upload failed")).
  { intros f Hf Hid. unfold updateById in Hf.
    apply list_elem_of_fmap in Hf as (g & -> & _).
    destruct (String.eqb_spec (id g) (id first)) as [E|E]; [split; reflexivity|].
    contradiction. }
  assert (Hin : first ∈ files (page st)).
  { apply list_elem_of_In. eapply proj1. apply filter_In. rewrite Hp. now left. }
  assert (Herr : hasErrors
                   (updateById (id first)
                      (fun f => markFailed (JsStr.orElse (Some (message e)) "Upload failed")
                                           (markUploading f)) (files (page st))) = true).
  { unfold hasErrors. apply existsb_exists.
    exists (markFailed (JsStr.orElse (Some (message e)) "Upload failed")
                       (markUploading first)).
    split; [|reflexivity].
    apply list_elem_of_In. unfold updateById. apply list_elem_of_fmap.
    exists first. split; [|assumption]. now rewrite String.eqb_refl. }
  split; [reflexivity|]. split; [exact Hall|]. split.
  - eexists. repeat split.
  - split; [exact Herr|]. unfold uploadDisabled.
    apply orb_true_iff. left. apply orb_true_iff. right. exact Herr.
Qed.


(** X19: one invalid file in a batch disables the Upload button whatever
    else is queued: after [addFiles] the task list holds a task in status
    [error]. *)
Theorem X19_invalid_file_blocks_the_button
        (now : nat -> Z) (newFiles : list File) (p : Page)
        (busy : bool) (log : list (File * option string)) (bad : File) :
  bad ∈ newFiles -> validateFile bad <> None ->
  hasErrors (addFiles now newFiles (files p)) = true /\
  uploadDisabled
    (mkUploader (setFiles (addFiles now newFiles (files p)) p) busy log) = true.
Proof.
  intros Hin Hbad.
  assert (H : hasErrors (addFiles now newFiles (files p)) = true).
  { unfold hasErrors, addFiles. rewrite existsb_app. apply orb_true_iff. right.
    apply list_elem_of_lookup in Hin as [i Hi].
    apply existsb_exists. exists (newTask (now i) bad). split.
    - apply list_elem_of_In, elem_of_lookup_imap. eauto.
    - unfold isError, newTask. simpl.
      destruct (validateFile bad) as [msg|] eqn:E; [|congruence].
      unfold validateFile in E.
      destruct (negb _); [injection E as <-; reflexivity|].
      destruct (size bad >? MAX_FILE_SIZE); [injection E as <-; reflexivity|].
      discriminate. }
  split; [exact H|]. unfold uploadDisabled.
  apply orb_true_iff. left. apply orb_true_iff. right. exact H.
Qed.

(** X20: the stage ordinal lies between 0 and 4 and is 0 for a missing or
    unrecognised label; at most one step of the indicator is active, the
    completed steps are exactly those before the active one, and the last
    step is never drawn as completed, not even at "Analysis complete". *)
Theorem X20_stage_indicator (stage : option string) :
  let current := getStageIndex stage in
  0 <= current <= 4 /\
  (current = 0 ->
   forall i, i ∈ stepIndices ->
             stepActive current i = false /\ stepCompleted current i = false) /\
  (forall i k, i ∈ stepIndices -> k ∈ stepIndices ->
               stepActive current i = true -> stepActive current k = true ->
               i = k) /\
  (forall i k, stepActive current i = true ->
               (stepCompleted current k = true <-> k < i)) /\
  stepCompleted current 3 = false /\
  (stage <> Some "Extracting text from PDF" ->
   stage <> Some "Detecting risks with AI model" ->
   stage <> Some "Generating legal advisory" ->
   stage <> Some "Analysis complete" -> current = 0).
Proof.
  intros current.
  assert (Hrange : 0 <= current <= 4).
  { subst current. unfold getStageIndex. destruct stage as [s|]; [|lia].
    destruct (JsStr.isEmpty s); [lia|].
    repeat (match goal with |- context [String.eqb ?a ?b] =>
                              destruct (String.eqb a b) end; try lia). }
  split; [exact Hrange|]. unfold stepActive, stepCompleted.
  split; [|split; [|split; [|split]]].
  - intros E i Hi. rewrite E.
    assert (0 <= i).
    { unfold stepIndices in Hi.
      repeat (apply elem_of_cons in Hi as [->|Hi]; [lia|]). inversion Hi. }
    split; lia.
  - intros i k _ _ Hi Hk. lia.
  - intros i k Hi. split; lia.
  - lia.
  - intros H1 H2 H3 H4. subst current. unfold getStageIndex.
    destruct stage as [s|]; [|reflexivity].
    destruct (JsStr.isEmpty s); [reflexivity|].
    destruct (String.eqb_spec s "Extracting text from PDF"); [congruence|].
    destruct (String.eqb_spec s "Detecting risks with AI model"); [congruence|].
    destruct (String.eqb_spec s "Generating legal advisory"); [congruence|].
    destruct (String.eqb_spec s "Analysis complete"); [congruence|].
    reflexivity.
Qed.

End UploadActionFacts.

(** ** Inline spans *)

Section InlineFacts.

Import Inline.

Lemma app_cons_s c (a b : string) : String c a ++ b = String c (a ++ b).
Proof. reflexivity. Qed.

Lemma app_nil_r_s (a : string) : a ++ EmptyString = a.
Proof. induction a as [|c a IH]; [reflexivity|]. now rewrite app_cons_s, IH. Qed.

Lemma app_assoc_s (a b c : string) : (a ++ b) ++ c = a ++ (b ++ c).
Proof.
  induction a as [|x a IH]; [reflexivity|]. now rewrite !app_cons_s, IH.
Qed.

Lemma length_app_s (a b : string) :
  String.length (a ++ b) = (String.length a + String.length b)%nat.
Proof.
  induction a as [|x a IH]; [reflexivity|].
  rewrite app_cons_s. simpl. now rewrite IH.
Qed.

Lemma join_empty_cons (p : string) (ps : list string) :
  JsStr.join EmptyString (p :: ps) = p ++ JsStr.join EmptyString ps.
Proof.
  destruct ps as [|q ps]; simpl; [now rewrite app_nil_r_s | reflexivity].
Qed.

Lemma spanPlain_sound (s : string) :
  forall p rest,
    spanPlain s = (p, rest) ->
    s = p ++ rest /\ JsStr.hasChar star p = false /\
    (rest = EmptyString \/ exists r, rest = String star r).
Proof.
  induction s as [|c s IH]; intros p rest H; simpl in H.
  - injection H as <- <-. auto.
  - destruct (Ascii.eqb_spec c star) as [->|Hc].
    + injection H as <- <-. repeat split. right. eauto.
    + destruct (spanPlain s) as [p' rest'] eqn:E. injection H as <- <-.
      destruct (IH p' rest' eq_refl) as (Hs & Hp & Hr).
      rewrite app_cons_s, <- Hs. repeat split; [|exact Hr].
      simpl. rewrite Hp. destruct (Ascii.eqb_spec c star); [contradiction|reflexivity].
Qed.

Lemma spanPlain_complete (p : string) :
  JsStr.hasChar star p = false ->
  forall rest,
    (rest = EmptyString \/ exists r, rest = String star r) ->
    spanPlain (p ++ rest) = (p, rest).
Proof.
  induction p as [|c p IH]; intros Hp rest Hr.
  - destruct Hr as [->|[r ->]]; reflexivity.
  - simpl in Hp. apply orb_false_iff in Hp as [Hc Hp].
    rewrite app_cons_s. simpl. rewrite Hc, (IH Hp rest Hr). reflexivity.
Qed.

Lemma matchBold_sound (s inner rest : string) :
  matchBold s = Some (inner, rest) ->
  s = "**" ++ inner ++ "**" ++ rest /\ inner <> EmptyString.
Proof.
  unfold matchBold. destruct s as [|a [|b r]]; try discriminate.
  destruct (Ascii.eqb_spec a star) as [->|]; [|discriminate].
  destruct (Ascii.eqb_spec b star) as [->|]; [|discriminate]. simpl.
  destruct (spanPlain r) as [[|c p] [|d [|e rest']]] eqn:E; try discriminate.
  destruct (Ascii.eqb_spec d star) as [->|]; [|discriminate].
  destruct (Ascii.eqb_spec e star) as [->|]; [|discriminate]. simpl.
  intros H. injection H as <- <-.
  apply spanPlain_sound in E as (Hr & _). rewrite Hr.
  split; [reflexivity|discriminate].
Qed.

Lemma matchItalic_sound (s inner rest : string) :
  matchItalic s = Some (inner, rest) ->
  s = "*" ++ inner ++ "*" ++ rest /\ inner <> EmptyString.
Proof.
  unfold matchItalic. destruct s as [|a r]; try discriminate.
  destruct (Ascii.eqb_spec a star) as [->|]; [|discriminate].
  destruct (spanPlain r) as [[|c p] [|d rest']] eqn:E; try discriminate.
  destruct (Ascii.eqb_spec d star) as [->|]; [|discriminate].
  intros H. injection H as <- <-.
  apply spanPlain_sound in E as (Hr & _). rewrite Hr.
  split; [reflexivity|discriminate].
Qed.

Lemma matchAt_sound (s m rest : string) :
  matchAt s = Some (m, rest) ->
  s = m ++ rest /\ (String.length rest < String.length s)%nat.
Proof.
  unfold matchAt.
  destruct (matchBold s) as [[inner r]|] eqn:Eb.
  - intros H. injection H as <- <-.
    apply matchBold_sound in Eb as [-> _].
    rewrite !app_assoc_s. split; [reflexivity|].
    rewrite !length_app_s. simpl. lia.
  - destruct (matchItalic s) as [[inner r]|] eqn:Ei; [|discriminate].
    intros H. injection H as <- <-.
    apply matchItalic_sound in Ei as [-> _].
    rewrite !app_assoc_s. split; [reflexivity|].
    rewrite !length_app_s. simpl. lia.
Qed.

Lemma matchAt_plain_head (c : ascii) (r : string) :
  Ascii.eqb c star = false -> matchAt (String c r) = None.
Proof.
  intros Hc. unfold matchAt, matchBold, matchItalic. rewrite Hc.
  destruct r; reflexivity.
Qed.

Lemma splitParts_join (fuel : nat) :
  forall lit s, JsStr.join EmptyString (splitParts fuel lit s) = lit ++ s.
Proof.
  induction fuel as [|fuel IH]; intros lit s; simpl; [reflexivity|].
  destruct s as [|c r]; [simpl; now rewrite app_nil_r_s|].
  destruct (matchAt (String c r)) as [[m rest]|] eqn:E.
  - apply matchAt_sound in E as [E _].
    rewrite !join_empty_cons, IH, E. reflexivity.
  - rewrite IH, app_assoc_s. reflexivity.
Qed.

Lemma splitParts_fuel (fuel1 : nat) :
  forall fuel2 lit s,
    (String.length s < fuel1)%nat -> (String.length s < fuel2)%nat ->
    splitParts fuel1 lit s = splitParts fuel2 lit s.
Proof.
  induction fuel1 as [|fuel1 IH]; intros [|fuel2] lit s H1 H2; try lia.
  simpl. destruct s as [|c r]; [reflexivity|].
  destruct (matchAt (String c r)) as [[m rest]|] eqn:E.
  - apply matchAt_sound in E as [_ E]. simpl in *.
    do 2 f_equal. apply IH; lia.
  - simpl in *. apply IH; lia.
Qed.

Lemma splitParts_odd (fuel : nat) :
  forall lit s, exists k, length (splitParts fuel lit s) = S (2 * k).
Proof.
  induction fuel as [|fuel IH]; intros lit s; simpl; [now exists 0%nat|].
  destruct s as [|c r]; [now exists 0%nat|].
  destruct (matchAt (String c r)) as [[m rest]|].
  - destruct (IH EmptyString rest) as [k Hk]. exists (S k). simpl. rewrite Hk. lia.
  - apply IH.
Qed.

(** Plain text before the next asterisk is scanned into the literal. *)
Lemma splitParts_skip_plain (p : string) :
  forall fuel lit s,
    JsStr.hasChar star p = false ->
    (String.length (p ++ s) < fuel)%nat ->
    splitParts fuel lit (p ++ s)
    = splitParts (fuel - String.length p) (lit ++ p) s.
Proof.
  induction p as [|c p IH]; intros fuel lit s Hp Hf.
  - simpl. now rewrite app_nil_r_s, Nat.sub_0_r.
  - simpl in Hp. apply orb_false_iff in Hp as [Hc Hp].
    rewrite app_cons_s in *. destruct fuel as [|fuel]; [simpl in Hf; lia|].
    simpl splitParts. rewrite (matchAt_plain_head _ _ Hc).
    simpl in Hf. rewrite IH by (assumption || lia).
    rewrite app_assoc_s. reflexivity.
Qed.

Lemma splitSpans_match (pre m post : string) :
  JsStr.hasChar star pre = false ->
  matchAt (m ++ post) = Some (m, post) ->
  splitSpans (pre ++ m ++ post) = pre :: m :: splitSpans post.
Proof.
  intros Hpre Hm. unfold splitSpans.
  set (R := splitParts (S (String.length post)) EmptyString post).
  rewrite splitParts_skip_plain by (assumption || lia).
  assert (Hlen : (String.length post < String.length (m ++ post))%nat).
  { now apply matchAt_sound in Hm as [_ H]. }
  rewrite length_app_s.
  replace (S (String.length pre + String.length (m ++ post)) - String.length pre)%nat
    with (S (String.length (m ++ post))) by lia.
  simpl splitParts. destruct (m ++ post) as [|c r] eqn:E; [simpl in Hlen; lia|].
  rewrite Hm. change (EmptyString ++ pre) with pre. do 2 f_equal.
  subst R. apply splitParts_fuel; simpl in *; lia.
Qed.

Lemma splitSpans_plain (text : string) :
  JsStr.hasChar star text = false -> splitSpans text = [text].
Proof.
  intros H. unfold splitSpans.
  rewrite <- (app_nil_r_s text) at 2.
  rewrite splitParts_skip_plain by (rewrite ?app_nil_r_s; assumption || lia).
  replace (S (String.length text) - String.length text)%nat with 1%nat by lia.
  reflexivity.
Qed.

Lemma prefix_head_ne (a b : ascii) (p s : string) :
  a <> b -> String.prefix (String a p) (String b s) = false.
Proof.
  intros H. cbn [String.prefix].
  destruct (ascii_dec a b); [contradiction|reflexivity].
Qed.

Lemma prefix_head_eq (a : ascii) (p s : string) :
  String.prefix (String a p) (String a s) = String.prefix p s.
Proof.
  cbn [String.prefix]. destruct (ascii_dec a a); [reflexivity|contradiction].
Qed.

Lemma formatPart_plain (text : string) :
  JsStr.hasChar star text = false -> formatPart text = Plain text.
Proof.
  intros H. unfold formatPart, JsStr.startsWith.
  destruct text as [|c r]; [reflexivity|].
  simpl in H. apply orb_false_iff in H as [Hc _].
  apply Ascii.eqb_neq in Hc.
  rewrite !prefix_head_ne by (intros E; apply Hc; now rewrite <- E).
  reflexivity.
Qed.

Lemma endsWith_app (suffix a : string) : endsWith suffix (a ++ suffix) = true.
Proof.
  induction a as [|c a IH].
  - change (EmptyString ++ suffix) with suffix.
    destruct suffix; cbn [endsWith]; now rewrite String.eqb_refl.
  - rewrite app_cons_s. cbn [endsWith]. rewrite IH. apply orb_true_r.
Qed.

Lemma dropEnd_short (n : nat) (s : string) :
  (String.length s <= n)%nat -> dropEnd n s = EmptyString.
Proof.
  destruct s as [|c r]; [reflexivity|]. simpl. intros H.
  destruct (Nat.ltb_spec (String.length r) n); [reflexivity|lia].
Qed.

Lemma dropEnd_app (suffix a : string) :
  dropEnd (String.length suffix) (a ++ suffix) = a.
Proof.
  induction a as [|c a IH]; [now apply dropEnd_short|].
  rewrite app_cons_s. simpl. rewrite length_app_s.
  destruct (Nat.ltb_spec (String.length a + String.length suffix)
                         (String.length suffix)); [lia|].
  now rewrite IH.
Qed.

Lemma formatPart_bold (inner : string) :
  formatPart ("**" ++ inner ++ "**") = Strong inner.
Proof.
  unfold formatPart.
  assert (Hs : JsStr.startsWith "**" ("**" ++ inner ++ "**") = true).
  { unfold JsStr.startsWith. rewrite !app_cons_s, !prefix_head_eq.
    destruct (EmptyString ++ inner ++ "**"); reflexivity. }
  rewrite Hs.
  rewrite <- app_assoc_s, endsWith_app. simpl andb. cbv iota.
  unfold sliceInner. rewrite app_assoc_s, !app_cons_s. simpl JsStr.sliceFrom.
  change (EmptyString ++ inner ++ "**") with (inner ++ "**").
  change 2%nat with (String.length "**"). now rewrite dropEnd_app.
Qed.

Lemma formatPart_italic (c : ascii) (inner : string) :
  Ascii.eqb c star = false ->
  formatPart ("*" ++ String c inner ++ "*") = Em (String c inner).
Proof.
  intros Hc. unfold formatPart.
  assert (Hss : JsStr.startsWith "**" ("*" ++ String c inner ++ "*") = false).
  { unfold JsStr.startsWith. rewrite !app_cons_s, prefix_head_eq.
    apply prefix_head_ne. apply Ascii.eqb_neq in Hc.
    intros E. apply Hc. now rewrite <- E. }
  assert (Hs : JsStr.startsWith "*" ("*" ++ String c inner ++ "*") = true).
  { unfold JsStr.startsWith. rewrite !app_cons_s, prefix_head_eq. reflexivity. }
  rewrite Hss, Hs. rewrite <- app_assoc_s, endsWith_app. simpl andb. cbv iota.
  unfold sliceInner. rewrite app_assoc_s, !app_cons_s. simpl JsStr.sliceFrom.
  change (EmptyString ++ String c (inner ++ "*")) with (String c inner ++ "*").
  change 1%nat with (String.length "*"). now rewrite dropEnd_app.
Qed.

Lemma matchAt_bold (c : ascii) (inner post : string) :
  JsStr.hasChar star (String c inner) = false ->
  matchAt (("**" ++ String c inner ++ "**") ++ post)
  = Some ("**" ++ String c inner ++ "**", post).
Proof.
  intros Hin.
  assert (E : ("**" ++ String c inner ++ "**") ++ post
              = String star (String star
                  (String c inner ++ String star (String star post)))).
  { rewrite !app_assoc_s. reflexivity. }
  rewrite E. unfold matchAt, matchBold.
  rewrite !Ascii.eqb_refl. cbn [andb].
  rewrite (spanPlain_complete _ Hin) by (right; eauto).
  rewrite !Ascii.eqb_refl. reflexivity.
Qed.

Lemma matchAt_italic (c : ascii) (inner post : string) :
  JsStr.hasChar star (String c inner) = false ->
  matchAt (("*" ++ String c inner ++ "*") ++ post)
  = Some ("*" ++ String c inner ++ "*", post).
Proof.
  intros Hin.
  assert (Hc : Ascii.eqb c star = false).
  { simpl in Hin. now apply orb_false_iff in Hin as [Hc _]. }
  assert (E : ("*" ++ String c inner ++ "*") ++ post
              = String star (String c (inner ++ String star post))).
  { rewrite !app_assoc_s. reflexivity. }
  rewrite E. unfold matchAt, matchBold, matchItalic.
  rewrite !Ascii.eqb_refl, Hc. cbn [andb].
  change (String c (inner ++ String star post))
    with (String c inner ++ String star post).
  rewrite (spanPlain_complete _ Hin) by (right; eauto).
  rewrite !Ascii.eqb_refl. reflexivity.
Qed.

(** X21: the parts [formatInline] splits a text into, put together again,
    are the text: no character is lost or added by the split; the parts are
    odd in number (texts between matches alternate with matches); and the
    scan needs no more steps than the text has characters. *)
Theorem X21_split_loses_nothing (text : string) :
  JsStr.join EmptyString (splitSpans text) = text /\
  (exists k, length (splitSpans text) = S (2 * k)) /\
  (forall fuel, (String.length text < fuel)%nat ->
                splitParts fuel EmptyString text = splitSpans text) /\
  length (formatInline text) = length (splitSpans text).
Proof.
  split; [apply splitParts_join|]. split; [apply splitParts_odd|]. split.
  - intros fuel H. apply splitParts_fuel; [assumption|lia].
  - unfold formatInline. apply length_map.
Qed.

(** X22: a text without an asterisk is rendered as one plain span holding
    the whole text. *)
Theorem X22_plain_text_is_one_span (text : string) :
  JsStr.hasChar star text = false ->
  formatInline text = [Plain text].
Proof.
  intros H. unfold formatInline. rewrite (splitSpans_plain text H). simpl.
  now rewrite formatPart_plain.
Qed.

Lemma X22_plain_text_is_one_span_witness :
  JsStr.hasChar star "Termination needs 30 days' notice." = false /\
  formatInline "Termination needs 30 days' notice."
  = [Plain "Termination needs 30 days' notice."].
Proof.
  split; [reflexivity|].
  apply (X22_plain_text_is_one_span "Termination needs 30 days' notice.").
  reflexivity.
Defined.

(** X23: after plain text, a non-empty text without asterisks between two
    double asterisks becomes a bold span, and between two single asterisks
    an italic span; the delimiters are removed, the plain text before it is
    a plain span, and what follows is formatted on its own, so any number
    of spans on a line is recognised. *)
Theorem X23_bold_and_italic_spans (pre post : string) (c : ascii) (inner : string) :
  JsStr.hasChar star pre = false ->
  JsStr.hasChar star (String c inner) = false ->
  formatInline (pre ++ ("**" ++ String c inner ++ "**") ++ post)
  = Plain pre :: Strong (String c inner) :: formatInline post /\
  formatInline (pre ++ ("*" ++ String c inner ++ "*") ++ post)
  = Plain pre :: Em (String c inner) :: formatInline post.
Proof.
  intros Hpre Hin.
  assert (Hc : Ascii.eqb c star = false).
  { simpl in Hin. now apply orb_false_iff in Hin as [Hc _]. }
  pose proof (matchAt_bold c inner post Hin) as Hb.
  pose proof (matchAt_italic c inner post Hin) as Hi.
  unfold formatInline. split.
  - rewrite (splitSpans_match pre _ post Hpre Hb). simpl map.
    now rewrite formatPart_plain, formatPart_bold.
  - rewrite (splitSpans_match pre _ post Hpre Hi). simpl map.
    now rewrite formatPart_plain, formatPart_italic.
Qed.

Lemma X23_bold_and_italic_spans_witness :
  JsStr.hasChar star "Liability is " = false /\
  JsStr.hasChar star "capped" = false /\
  formatInline ("Liability is " ++ ("**" ++ "capped" ++ "**") ++ " at fees paid.")
  = [Plain "Liability is "; Strong "capped"; Plain " at fees paid."].
Proof.
  split; [reflexivity|]. split; [reflexivity|].
  exact (proj1 (X23_bold_and_italic_spans "Liability is " " at fees paid."
                  "c" "apped" eq_refl eq_refl)).
Defined.

End InlineFacts.

(** ** Runs of asterisks *)

Section AsteriskFacts.

Import Inline.

Lemma matchAt_stars (k : nat) : matchAt (stars k) = None.
Proof. destruct k as [|[|[|k]]]; reflexivity. Qed.

Lemma splitParts_stars (k : nat) :
  forall fuel lit, (k < fuel)%nat ->
                   splitParts fuel lit (stars k) = [lit ++ stars k].
Proof.
  induction k as [|k IH]; intros [|fuel] lit Hf; try lia.
  - cbn [stars splitParts]. now rewrite app_nil_r_s.
  - cbn [stars splitParts]. change (String star (stars k)) with (stars (S k)).
    rewrite matchAt_stars. rewrite IH by lia. now rewrite app_assoc_s.
Qed.

Lemma stars_length (k : nat) : String.length (stars k) = k.
Proof. induction k; simpl; congruence. Qed.

Lemma stars_snoc2 (k : nat) : stars (S (S k)) = stars k ++ "**".
Proof.
  induction k as [|k IH]; [reflexivity|].
  change (stars (S (S (S k)))) with (String star (stars (S (S k)))).
  rewrite IH. reflexivity.
Qed.

(** X24: a text made only of asterisks matches no span and yet loses
    asterisks: a single asterisk is rendered as an empty italic span, and a
    run of two or more as a bold span that holds four asterisks fewer, or
    nothing when there are at most four. *)
Theorem X24_asterisk_runs_are_swallowed (n : nat) :
  splitSpans (stars n) = [stars n] /\
  formatInline (stars 1) = [Em EmptyString] /\
  formatInline (stars (S (S n))) = [Strong (stars (n - 2))].
Proof.
  assert (Hs : forall k, splitSpans (stars k) = [stars k]).
  { intros k. unfold splitSpans. rewrite splitParts_stars; [reflexivity|].
    rewrite stars_length. lia. }
  split; [apply Hs|]. split; [reflexivity|].
  unfold formatInline. rewrite Hs. cbn [map]. f_equal.
  unfold formatPart.
  assert (Hp : JsStr.startsWith "**" (stars (S (S n))) = true).
  { unfold JsStr.startsWith. cbn [stars]. unfold star.
    change (ascii_of_nat 42) with "*"%char. rewrite !prefix_head_eq.
    destruct (stars n); reflexivity. }
  rewrite Hp, stars_snoc2, endsWith_app. cbn [andb]. f_equal.
  unfold sliceInner. rewrite <- stars_snoc2. cbn [stars JsStr.sliceFrom].
  destruct n as [|[|n]]; [reflexivity|reflexivity|].
  rewrite stars_snoc2. change 2%nat with (String.length "**") at 1.
  rewrite dropEnd_app. f_equal. lia.
Qed.

End AsteriskFacts.

(** ** Lines of the renderer *)

Section LineFacts.

Import RichText Lines.

Variable Spans : Type.
Variable formatInline : string -> Spans.

Lemma blank_not_fence (line : string) :
  isBlank line = true -> isFenceLine line = false.
Proof.
  unfold isBlank, isFenceLine. destruct (JsStr.trim line); [reflexivity|discriminate].
Qed.

Lemma scanLine_blank (st : Scan Spans) idx line :
  inCode st = false -> isBlank line = true ->
  scanLine formatInline st idx line
  = mkScan (if (consecutiveEmptyLines st =? 0)%nat
            then elements st ++ [(KLine idx, Spacer)] else elements st)
           (codeBuffer st) false (S (consecutiveEmptyLines st)).
Proof.
  intros Hc Hb. unfold scanLine. rewrite (blank_not_fence _ Hb), Hc.
  unfold isBlank in Hb. rewrite Hb. reflexivity.
Qed.

Lemma scanLine_text (st : Scan Spans) idx line :
  inCode st = false -> isFenceLine line = false -> isBlank line = false ->
  scanLine formatInline st idx line
  = mkScan (elements st ++ [(KLine idx, lineBlock formatInline line)])
           (codeBuffer st) false 0.
Proof.
  intros Hc Hf Hb. unfold scanLine. rewrite Hf, Hc.
  unfold isBlank in Hb. rewrite Hb. reflexivity.
Qed.

Lemma scan_blanks (blanks : list string) :
  forall idx (st : Scan Spans),
    inCode st = false ->
    Forall (fun l => isBlank l = true) blanks ->
    scanFrom formatInline idx blanks st
    = mkScan (match blanks with
              | [] => elements st
              | _ => if (consecutiveEmptyLines st =? 0)%nat
                     then elements st ++ [(KLine idx, Spacer)] else elements st
              end)
             (codeBuffer st) false (consecutiveEmptyLines st + length blanks).
Proof.
  induction blanks as [|b blanks IH]; intros idx st Hc Hb.
  - simpl. rewrite Nat.add_0_r. destruct st; simpl in *. now subst.
  - apply Forall_cons in Hb as [Hb Hbs]. cbn [scanFrom].
    rewrite (scanLine_blank st idx b Hc Hb).
    rewrite IH; [|reflexivity|assumption]. cbn.
    f_equal; [|lia].
    destruct blanks; [reflexivity|].
    destruct (consecutiveEmptyLines st =? 0)%nat; reflexivity.
Qed.

(** X25: consecutive blank lines collapse: after a line of text outside
    code, any positive number of blank lines adds exactly one spacer, keyed
    by the first of them; and a blank line emits no spacer when only fences
    and code lie between it and the previous blank line, since a code block
    does not reset the count. *)
Theorem X25_blank_lines_collapse
        (pre : list string) (line : string) (blanks : list string) :
  let before := scanFrom formatInline 0 pre initialScan in
  inCode before = false ->
  isFenceLine line = false -> isBlank line = false ->
  Forall (fun l => isBlank l = true) blanks ->
  elements (scanFrom formatInline 0 (pre ++ line :: blanks) initialScan)
  = (elements (scanFrom formatInline 0 (pre ++ [line]) initialScan)
       ++ match blanks with
          | [] => []
          | _ => [(KLine (S (length pre)), Spacer)]
          end)%list /\
  (forall open body close blank,
      isFenceLine open = true -> isFenceLine close = true ->
      Forall notFence body -> isBlank blank = true -> blanks <> [] ->
      elements (scanFrom formatInline 0
                  (pre ++ line :: blanks ++ open :: body ++ [close; blank])
                  initialScan)
      = elements (scanFrom formatInline 0
                    (pre ++ line :: blanks ++ open :: body ++ [close])
                    initialScan)).
Proof.
  intros before Hc Hf Hb Hbs.
  assert (Hfl : flushed before).
  { apply scanFrom_flushed. intros _. reflexivity. }
  assert (Hline : scanFrom formatInline 0 (pre ++ [line]) initialScan
                  = mkScan (elements before
                              ++ [(KLine (length pre), lineBlock formatInline line)])
                           [] false 0).
  { rewrite scanFrom_app. cbn [scanFrom]. fold before.
    rewrite (scanLine_text before _ line Hc Hf Hb). now rewrite (Hfl Hc). }
  assert (Hbl : scanFrom formatInline 0 (pre ++ line :: blanks) initialScan
                = mkScan (elements before
                            ++ [(KLine (length pre), lineBlock formatInline line)]
                            ++ match blanks with
                               | [] => []
                               | _ => [(KLine (S (length pre)), Spacer)]
                               end)
                         [] false (length blanks)).
  { change (pre ++ line :: blanks)%list with (pre ++ [line] ++ blanks)%list.
    rewrite app_assoc, scanFrom_app, Hline, length_app. cbn [length].
    rewrite scan_blanks by (reflexivity || assumption). cbn.
    replace (length pre + 1)%nat with (S (length pre)) by lia.
    destruct blanks; [reflexivity|]. cbn. now rewrite <- app_assoc. }
  split.
  - rewrite Hbl, Hline. cbn [elements]. now rewrite app_assoc.
  - intros open body close blank Ho Hcl Hbody Hblank Hne.
    replace (pre ++ line :: blanks ++ open :: body ++ [close; blank])%list
      with ((pre ++ line :: blanks) ++ (open :: body ++ [close]) ++ [blank])%list.
    2:{ rewrite <- !app_assoc. cbn. do 3 f_equal. now rewrite <- app_assoc. }
    replace (pre ++ line :: blanks ++ open :: body ++ [close])%list
      with ((pre ++ line :: blanks) ++ (open :: body ++ [close]))%list.
    2:{ now rewrite <- !app_assoc. }
    set (P := (pre ++ line :: blanks)%list) in *.
    rewrite !scanFrom_app, Hbl.
    rewrite fenced_span by (reflexivity || assumption).
    cbn [scanFrom]. rewrite scanLine_blank by (reflexivity || assumption).
    cbn. destruct blanks; [congruence|reflexivity].
Qed.

End LineFacts.

Section KeyFacts.

Import RichText Lines.

Variable Spans : Type.
Variable formatInline : string -> Spans.

Lemma scanned_keep idx (st : Scan Spans) buf (ic : bool) cel :
  scanned idx st ->
  ((if ic then 1 else 0) <= S (if inCode st then 1 else 0))%nat ->
  scanned (S idx) (mkScan (elements st) buf ic cel).
Proof.
  intros (Hk & Hn & Hl) Hic. repeat split; cbn [elements inCode].
  - eapply Forall_impl; [exact Hk|]. intros k (i & -> & Hi). exists i. split; [reflexivity|lia].
  - exact Hn.
  - lia.
Qed.

Lemma scanned_push idx (st : Scan Spans) b buf cel :
  scanned idx st ->
  scanned (S idx) (mkScan (elements st ++ [(KLine idx, b)]) buf false cel).
Proof.
  intros (Hk & Hn & Hl). unfold keysOf in *.
  repeat split; cbn [elements inCode]; unfold keysOf.
  - rewrite map_app. apply Forall_app. split.
    + eapply Forall_impl; [exact Hk|]. intros k (i & -> & Hi). exists i.
      split; [reflexivity|lia].
    + constructor; [|constructor]. exists idx. split; [reflexivity|lia].
  - rewrite map_app. apply NoDup_app. split; [exact Hn|]. split.
    + intros k Hin Hk'. apply list_elem_of_singleton in Hk'. subst k.
      rewrite Forall_forall in Hk. destruct (Hk _ Hin) as (i & E & Hi).
      injection E as <-. lia.
    + apply NoDup_singleton.
  - rewrite length_app. cbn [length]. destruct (inCode st); lia.
Qed.

Lemma scanLine_scanned idx (st : Scan Spans) line :
  scanned idx st -> scanned (S idx) (scanLine formatInline st idx line).
Proof.
  intros H. unfold scanLine.
  destruct (isFenceLine line).
  - destruct (inCode st) eqn:Hc.
    + unfold push, flushCode. destruct (codeBuffer st).
      * apply scanned_keep; [assumption|rewrite Hc; lia].
      * destruct H as (Hk & Hn & Hl). rewrite Hc in Hl.
        apply scanned_push. repeat split; try assumption.
        destruct (inCode st); lia.
    + apply scanned_keep; [assumption|rewrite Hc; lia].
  - destruct (inCode st) eqn:Hc.
    + apply scanned_keep; [assumption|rewrite Hc; lia].
    + destruct (JsStr.isEmpty _).
      * destruct (S (consecutiveEmptyLines st) =? 1)%nat.
        -- now apply scanned_push.
        -- apply scanned_keep; [assumption|rewrite Hc; lia].
      * now apply scanned_push.
Qed.

Lemma scanFrom_scanned (lines : list string) :
  forall idx (st : Scan Spans),
    scanned idx st ->
    scanned (idx + length lines) (scanFrom formatInline idx lines st).
Proof.
  induction lines as [|l lines IH]; intros idx st H; cbn [scanFrom length].
  - now rewrite Nat.add_0_r.
  - replace (idx + S (length lines))%nat with (S idx + length lines)%nat by lia.
    apply IH, scanLine_scanned, H.
Qed.

(** X26: the keys of the rendered blocks are pairwise distinct, each is the
    index of a line of the input or the key of the final flush, and there
    are never more blocks than lines. *)
Theorem X26_render_keys_are_distinct (lines : list string) :
  let blocks := renderLines formatInline lines in
  NoDup (keysOf blocks) /\
  Forall (fun k => k = KCodeFinal \/
                   exists i, k = KLine i /\ (i < length lines)%nat)
         (keysOf blocks) /\
  (length blocks <= length lines)%nat.
Proof.
  intros blocks. subst blocks. unfold renderLines.
  assert (H0 : scanned 0 (@initialScan Spans)).
  { repeat split; cbn; [constructor|constructor|lia]. }
  pose proof (scanFrom_scanned lines 0 initialScan H0) as (Hk & Hn & Hl).
  cbn [Nat.add] in *.
  set (st := scanFrom formatInline 0 lines initialScan) in *.
  assert (Hk' : Forall (fun k => k = KCodeFinal \/
                                 exists i, k = KLine i /\ (i < length lines)%nat)
                       (keysOf (elements st))).
  { eapply Forall_impl; [exact Hk|]. intros k Hk0. now right. }
  unfold finish, push, flushCode.
  destruct (inCode st); cbn [andb]; [|repeat split; (assumption || lia)].
  destruct (codeBuffer st) as [|c buf]; cbn [length Nat.eqb negb];
    [repeat split; (assumption || lia)|].
  unfold keysOf in *. rewrite map_app, length_app. cbn [map length fst].
  split; [|split].
  - apply NoDup_app. split; [exact Hn|]. split; [|apply NoDup_singleton].
    intros k Hin Hk0. apply list_elem_of_singleton in Hk0. subst k.
    rewrite Forall_forall in Hk. destruct (Hk _ Hin) as (i & E & _). discriminate.
  - apply Forall_app. split; [exact Hk'|]. constructor; [now left|constructor].
  - lia.
Qed.

End KeyFacts.

Section BlockFacts.

Import RichText Lines.

Variable Spans : Type.
Variable formatInline : string -> Spans.

Lemma digit_not_space (c : ascii) : JsStr.isDigit c = true -> JsStr.isSpace c = false.
Proof.
  unfold JsStr.isDigit, JsStr.isSpace, JsStr.between.
  intros H. apply andb_true_iff in H as [H1 H2].
  apply Nat.leb_le in H1, H2.
  destruct (Nat.leb_spec 9 (nat_of_ascii c)), (Nat.leb_spec (nat_of_ascii c) 13),
    (Nat.eqb_spec (nat_of_ascii c) 32), (Nat.eqb_spec (nat_of_ascii c) 160);
    simpl; try reflexivity; lia.
Qed.

Lemma trim_keeps_head (c : ascii) (r : string) :
  JsStr.isSpace c = false -> exists r', JsStr.trim (String c r) = String c r'.
Proof.
  intros Hc. unfold JsStr.trim. cbn [JsStr.trimStart]. rewrite Hc.
  cbn [JsStr.trimEnd]. destruct (JsStr.trimEnd r); [rewrite Hc|]; eauto.
Qed.

Lemma eqb_head_ne (a b : ascii) (r s : string) :
  a <> b -> String.eqb (String a r) (String b s) = false.
Proof. intros H. apply String.eqb_neq. congruence. Qed.

Lemma spanDigits_app (ds rest : string) :
  allChars JsStr.isDigit ds = true ->
  headIs JsStr.isDigit rest = false ->
  spanDigits (ds ++ rest) = (ds, rest).
Proof.
  intros Hd Hr. induction ds as [|c ds IH].
  - change (EmptyString ++ rest) with rest.
    destruct rest as [|c r]; [reflexivity|]. simpl in *. now rewrite Hr.
  - simpl in Hd. apply andb_true_iff in Hd as [Hc Hd].
    rewrite app_cons_s. cbn [spanDigits]. rewrite Hc, (IH Hd). reflexivity.
Qed.

Lemma trimStart_spaces (ws t : string) :
  allChars JsStr.isSpace ws = true ->
  headIs JsStr.isSpace t = false ->
  JsStr.trimStart (ws ++ t) = t.
Proof.
  intros Hw Ht. induction ws as [|c ws IH].
  - change (EmptyString ++ t) with t.
    destruct t as [|c r]; [reflexivity|]. simpl in *. now rewrite Ht.
  - simpl in Hw. apply andb_true_iff in Hw as [Hc Hw].
    rewrite app_cons_s. cbn [JsStr.trimStart]. rewrite Hc. now apply IH.
Qed.

(** A line whose first character is a digit is no heading, rule or bullet. *)
Lemma digit_line_block (c : ascii) (r : string) :
  JsStr.isDigit c = true ->
  lineBlock formatInline (String c r)
  = if numberedTest (String c r) then
      match numberedMatch (String c r) with
      | Some (num, text) => Numbered (Some num) (formatInline text)
      | None => Numbered None (formatInline EmptyString)
      end
    else Paragraph (formatInline (String c r)).
Proof.
  intros Hc. unfold lineBlock, JsStr.startsWith.
  assert (Hne : forall x : ascii, JsStr.isDigit x = false -> x <> c).
  { intros x Hx E. subst x. congruence. }
  rewrite !prefix_head_ne by (apply Hne; reflexivity).
  destruct (trim_keeps_head c r (digit_not_space c Hc)) as [r' ->].
  rewrite !eqb_head_ne; [reflexivity| |];
    intros E; symmetry in E; revert E; apply Hne; reflexivity.
Qed.

(** X27: a line of digits, a dot, white space and a text is a numbered
    item: its number token is the digits with the dot and its text is what
    follows the white space; but when that text holds a carriage return,
    as on a line that ends in CR LF, both the number and the text are lost
    and the item is empty. *)
Theorem X27_numbered_items (digits spaces text : string) (d w : ascii) :
  allChars JsStr.isDigit (String d digits) = true ->
  allChars JsStr.isSpace (String w spaces) = true ->
  headIs JsStr.isSpace text = false ->
  lineBlock formatInline (String d digits ++ "." ++ String w spaces ++ text)
  = if hasLineTerminator text
    then Numbered None (formatInline EmptyString)
    else Numbered (Some (String d digits ++ ".")) (formatInline text).
Proof.
  intros Hd Hw Ht.
  assert (Hd0 : JsStr.isDigit d = true).
  { simpl in Hd. now apply andb_true_iff in Hd as [Hd0 _]. }
  assert (Hw0 : JsStr.isSpace w = true /\ allChars JsStr.isSpace spaces = true).
  { simpl in Hw. now apply andb_true_iff in Hw. }
  destruct Hw0 as [Hw0 Hws].
  rewrite app_cons_s, digit_line_block by assumption.
  rewrite <- app_cons_s.
  assert (Hs : spanDigits (String d digits ++ "." ++ String w spaces ++ text)
               = (String d digits, "." ++ String w spaces ++ text)).
  { apply spanDigits_app; [assumption|reflexivity]. }
  unfold numberedTest, numberedMatch. rewrite Hs.
  change ("." ++ String w spaces ++ text)
    with (String JsStr.dot (String w (spaces ++ text))).
  cbv beta iota. rewrite Ascii.eqb_refl, Hw0. cbn [andb].
  rewrite (trimStart_spaces spaces text Hws Ht).
  destruct (hasLineTerminator text); reflexivity.
Qed.

(** X28: only two, three or four hashes followed by a space make a
    heading, of level one, two and three; a line that starts with one hash
    and a space, or with five, is an ordinary paragraph that keeps its
    hashes. *)
Theorem X28_heading_levels (text : string) :
  lineBlock formatInline ("## " ++ text) = H2 (formatInline text) /\
  lineBlock formatInline ("### " ++ text) = H3 (formatInline text) /\
  lineBlock formatInline ("#### " ++ text) = H4 (formatInline text) /\
  lineBlock formatInline ("# " ++ text) = Paragraph (formatInline ("# " ++ text)) /\
  lineBlock formatInline ("##### " ++ text)
  = Paragraph (formatInline ("##### " ++ text)).
Proof.
  assert (Hpre : forall p, String.prefix p (p ++ text) = true).
  { intros p. apply prefix_app. eauto. }
  assert (Hpara : forall r,
             String.prefix "## " (String "#" r) = false ->
             String.prefix "### " (String "#" r) = false ->
             String.prefix "#### " (String "#" r) = false ->
             lineBlock formatInline (String "#" r)
             = Paragraph (formatInline (String "#" r))).
  { intros r H2 H3 H4. unfold lineBlock, JsStr.startsWith.
    rewrite H2, H3, H4.
    destruct (trim_keeps_head "#" r eq_refl) as [r' ->].
    rewrite !eqb_head_ne by discriminate.
    rewrite prefix_head_ne by discriminate. reflexivity. }
  split; [|split; [|split; [|split]]].
  - unfold lineBlock, JsStr.startsWith. rewrite (Hpre "## "). reflexivity.
  - unfold lineBlock, JsStr.startsWith. rewrite (Hpre "### ").
    change ("### " ++ text) with (String "#" (String "#" (String "#" (String " " text)))).
    rewrite !prefix_head_eq, prefix_head_ne by discriminate. reflexivity.
  - unfold lineBlock, JsStr.startsWith. rewrite (Hpre "#### ").
    change ("#### " ++ text)
      with (String "#" (String "#" (String "#" (String "#" (String " " text))))).
    rewrite !prefix_head_eq, !prefix_head_ne by discriminate. reflexivity.
  - change ("# " ++ text) with (String "#" (String " " text)).
    apply Hpara; rewrite !prefix_head_eq; now apply prefix_head_ne.
  - change ("##### " ++ text)
      with (String "#" (String "#" (String "#" (String "#"
              (String "#" (String " " text)))))).
    apply Hpara; rewrite !prefix_head_eq; now apply prefix_head_ne.
Qed.

End BlockFacts.

(** ** The extra properties at concrete inputs *)

Section ExtraWitnesses.

Import Upload UploadActions.

(** X17 at a single pending task and a service that is down. *)
Lemma X17_failed_upload_blocks_the_button_witness :
  let task := mkUpload "1704067200000-a.pdf" (mkFile "a.pdf" 10) 0 pending
                       None None None in
  let st := mkUploader (mkPage [task] None [] []) false [] in
  let uploadDocument := fun (_ : File) (_ : option string) =>
    @Throw UploadResponse (mkError "Service unavailable") in
  List.filter isPending (files (page st)) = [task] /\
  uploadDocument (file task) None = Throw (mkError "Service unavailable") /\
  uploadDisabled (handleUpload None uploadDocument st) = true.
Proof.
  intros task st uploadDocument.
  split; [reflexivity|]. split; [reflexivity|].
  destruct (X17_failed_upload_blocks_the_button None uploadDocument st task []
              (mkError "Service unavailable") eq_refl eq_refl)
    as (_ & _ & _ & _ & H).
  exact H.
Defined.


(** X19 at a batch with a text file. *)
Lemma X19_invalid_file_blocks_the_button_witness :
  let bad := mkFile "notes.txt" 10 in
  let batch := [mkFile "lease.pdf" 2048; bad] in
  bad ∈ batch /\ validateFile bad <> None /\
  hasErrors (addFiles (fun _ => 1704067200000) batch []) = true.
Proof.
  intros bad batch.
  assert (Hin : bad ∈ batch) by (subst batch; right; left).
  assert (Hbad : validateFile bad <> None) by discriminate.
  split; [exact Hin|]. split; [exact Hbad|].
  exact (proj1 (X19_invalid_file_blocks_the_button
                  (fun _ => 1704067200000) batch (mkPage [] None [] []) false []
                  bad Hin Hbad)).
Defined.

End ExtraWitnesses.

Section ExtraLineWitnesses.

Import RichText Lines.

(** X25 at a clause followed by two blank lines. *)
Lemma X25_blank_lines_collapse_witness :
  let blanks := [EmptyString; "  "] in
  inCode (scanFrom (fun s => s) 0 [] initialScan) = false /\
  isFenceLine "Clause 1" = false /\ isBlank "Clause 1" = false /\
  Forall (fun l => isBlank l = true) blanks /\
  elements (scanFrom (fun s => s) 0 ([] ++ "Clause 1" :: blanks) initialScan)
  = [(KLine 0, Paragraph "Clause 1"); (KLine 1, Spacer)].
Proof.
  intros blanks.
  assert (Hb : Forall (fun l => isBlank l = true) blanks).
  { subst blanks. constructor; [reflexivity|]. constructor; [reflexivity|constructor]. }
  split; [reflexivity|]. split; [reflexivity|]. split; [reflexivity|].
  split; [exact Hb|].
  exact (proj1 (X25_blank_lines_collapse string (fun s => s) [] "Clause 1" blanks
                  eq_refl eq_refl eq_refl Hb)).
Defined.

(** X27 at item 12 of a list. *)
Lemma X27_numbered_items_witness :
  allChars JsStr.isDigit "12" = true /\
  allChars JsStr.isSpace " " = true /\
  headIs JsStr.isSpace "Term" = false /\
  lineBlock (fun s => s) ("12" ++ "." ++ " " ++ "Term")
  = Numbered (Some "12.") "Term".
Proof.
  split; [reflexivity|]. split; [reflexivity|]. split; [reflexivity|].
  exact (X27_numbered_items string (fun s => s) "2" EmptyString "Term"
           "1"%char " "%char eq_refl eq_refl eq_refl).
Defined.

End ExtraLineWitnesses.
